(** * reps-and-rest: the persistence layer and the derived metrics

    A shallow embedding of [src/lib/storage.ts] (class [WorkoutStorage]), of
    the state-changing handlers of the React components that call it
    ([WorkoutTracker], [WorkoutSplitManager], [ExerciseManager],
    [ProgressTracker], [WorkoutDashboard], [Index]), the properties of
    the specification that concern them, and further properties of the
    code.

    Conventions of the embedding.
    - A JavaScript [number] that holds a count, an index or a timestamp is
      a [Z]; a weight (edited in steps of 2.5) is a rational [Q].  Doubles
      are idealised as exact numbers where the program adds, subtracts
      and compares them; the one-rep-max estimate, a product and a
      quotient, is computed in doubles.  [NaN] is written out where the
      code can produce it (the day index of a split without days).
    - [localStorage] is a record with one field per key the program uses
      and one finite map per key family ([exercise-<name>],
      [lastWorkout-<name>], [autosave-<key>]).  No fixed key starts with
      one of the three prefixes and the prefixes differ from their first
      letter on, so the families never overlap; every slot holds the parsed
      value of the JSON text the program wrote there
      ([JSON.parse (JSON.stringify v)] is [v] on these values).
    - Component state set through [useState] is a record, a handler is a
      function from the state (and the store) to the new state.  The clock
      ([Date.now()], [new Date().toISOString()]) is an argument.
    - Toasts carry their title and whether they are the destructive
      variant; the rest of the presentation is left out. *)

From Stdlib Require Import ZArith QArith Qround String DecimalString Lqa.
From Stdlib Require Import Floats.SpecFloat.
From stdpp Require Import gmap strings list fin_maps sorting.

(** ** JavaScript helpers *)

Module JS.

(** [Array.prototype.findIndex]; [None] stands for -1. *)
Fixpoint findIndex {A : Type} (p : A → bool) (l : list A) : option nat :=
  match l with
  | [] => None
  | x :: l' => if p x then Some 0%nat else S <$> findIndex p l'
  end.

(** [Array.prototype.find]; [None] stands for [undefined]. *)
Fixpoint find {A : Type} (p : A → bool) (l : list A) : option A :=
  match l with
  | [] => None
  | x :: l' => if p x then Some x else find p l'
  end.

(** Truthiness of a string: only the empty string is falsy. *)
Definition truthy (s : string) : bool :=
  match s with EmptyString => false | _ => true end.

(** [(currentDay + 1) % length].  [%] is the truncated remainder
    ([Z.rem]); with [length = 0] the result is [NaN], which
    [JSON.stringify] writes as [null]: both are [None] here.  A [null]
    index counts as 0 in the addition. *)
Definition nextDay (currentDay : option Z) (length : nat) : option Z :=
  match length with
  | O => None
  | S _ => Some (Z.rem (default 0%Z currentDay + 1) (Z.of_nat length))
  end.

(** [Math.round]: the nearest integer, ties towards +infinity. *)
Definition Math_round (x : Q) : Z := Qfloor (x + (1 # 2)).

(** [String(n)] and [`${n}`] for an integer [n] (plain decimal digits
    below 10^21). *)
Definition toString (n : Z) : string :=
  NilZero.string_of_int (Z.to_int n).

(** *** Arithmetic in doubles

    Where the program multiplies and divides, its numbers are IEEE 754
    doubles: [spec_float] at precision 53 with exponents below 1024, and
    the operations of the Standard Library's [SpecFloat], which round to
    nearest, ties to even. *)
Definition prec : Z := 53.
Definition emax : Z := 1024.
Definition double : Type := spec_float.

(** The double nearest to an integer. *)
Definition ofZ (z : Z) : double := binary_normalize prec emax z 0 false.

(** The double nearest to [n/d], the one a decimal literal of that value
    denotes ([n] and [d] below 2^53, so that the division rounds
    once). *)
Definition ofQ (q : Q) : double :=
  SFdiv prec emax (ofZ (Qnum q)) (ofZ (Z.pos (Qden q))).

Definition add : double → double → double := SFadd prec emax.
Definition mul : double → double → double := SFmul prec emax.
Definition div : double → double → double := SFdiv prec emax.

(** The exact value of a finite double. *)
Definition value (x : double) : Q :=
  match x with
  | S754_finite s m e =>
      let m := if s then Z.neg m else Z.pos m in
      if (0 <=? e)%Z then inject_Z (m * 2 ^ e) else m # Z.to_pos (2 ^ (- e))
  | _ => 0
  end.

(** A number that is an integer, an infinity or [NaN]: what [Math.round]
    returns ([-0] counts as 0). *)
Inductive number := Int (z : Z) | Infinity (negative : bool) | NaN.

(** [Math.round] of a double. *)
Definition Math_round_double (x : double) : number :=
  match x with
  | S754_nan => NaN
  | S754_infinity s => Infinity s
  | _ => Int (Math_round (value x))
  end.

(** [b - a > 0] for two such numbers.  The difference of two infinities
    of one sign, and any difference with [NaN], is [NaN], which is not
    above 0. *)
Definition number_ltb (a b : number) : bool :=
  match a, b with
  | Int x, Int y => (x <? y)%Z
  | Int _, Infinity false => true
  | Infinity true, Int _ => true
  | Infinity true, Infinity false => true
  | _, _ => false
  end.

(** The names every object inherits from [Object.prototype]. *)
Definition Object_prototype : list string :=
  [ "constructor"; "__proto__"; "hasOwnProperty"; "isPrototypeOf";
    "propertyIsEnumerable"; "toLocaleString"; "toString"; "valueOf";
    "__defineGetter__"; "__defineSetter__"; "__lookupGetter__";
    "__lookupSetter__" ].

End JS.

Coercion JS.Int : Z >-> JS.number.

(** ** The data model of [storage.ts] *)

Module Exercise.
Record t := mk {
  id : string;
  name : string;
  sets : Z;
  lastWeight : option Q;
  lastReps : option Z;
  lastDate : option string
}.
(** An exercise literal [{ id, name, sets }]. *)
Definition lit (id name : string) (sets : Z) : t :=
  mk id name sets None None None.
End Exercise.

Module WorkoutTemplate.
Record t := mk {
  id : string;
  name : string;
  exercises : list Exercise.t
}.
End WorkoutTemplate.

Module WorkoutSplit.
Record t := mk {
  id : string;
  name : string;
  days : list string;
  currentDay : option Z;
  lastWorkoutDate : option string
}.
(** [{ ...split, currentDay: d }] *)
Definition with_currentDay (d : option Z) (s : t) : t :=
  mk (id s) (name s) (days s) d (lastWorkoutDate s).
(** [{ ...split, currentDay: d, lastWorkoutDate: date }] *)
Definition with_currentDay_date (d : option Z) (date : string) (s : t) : t :=
  mk (id s) (name s) (days s) d (Some date).
End WorkoutSplit.

Module SessionSet.
Record t := mk { weight : Q; reps : Z; completed : bool }.
End SessionSet.

Module SessionExercise.
Record t := mk {
  exerciseId : string;
  name : string;
  sets : list SessionSet.t
}.
End SessionExercise.

Module WorkoutSession.
Record t := mk {
  id : string;
  date : string;
  workoutType : string;
  exercises : list SessionExercise.t;
  completed : bool
}.
End WorkoutSession.

(** The value kept per exercise name: [{ weight, reps, date }]. *)
Module History.
Record t := mk { weight : Q; reps : Z; date : string }.
End History.

(** ** The in-progress workout of [WorkoutTracker] *)

Module TSet.
Record t := mk { id : string; weight : Q; reps : Z; completed : bool }.
(** [{ ...s, completed: true }] *)
Definition complete (s : t) : t := mk (id s) (weight s) (reps s) true.
End TSet.

Module TExercise.
Record t := mk {
  id : string;
  name : string;
  sets : list TSet.t;
  defaultSets : Z;
  lastWeight : option Q;
  lastReps : option Z
}.
(** [{ ...exercise, sets: s }] *)
Definition with_sets (s : list TSet.t) (e : t) : t :=
  mk (id e) (name e) s (defaultSets e) (lastWeight e) (lastReps e).
End TExercise.

(** What [autoSave] is given: the tracker's
    [{ exercises, currentExerciseIndex, sessionId }] or the template the
    exercise manager has just saved. *)
Inductive Payload :=
| PWorkout (exercises : list TExercise.t) (currentExerciseIndex : Z)
           (sessionId : string)
| PTemplate (template : WorkoutTemplate.t).

(** ** [localStorage] *)

Module LocalStorage.
Record t := mk {
  workoutTemplates : option (gmap string WorkoutTemplate.t);
  workoutSplits : option (list WorkoutSplit.t);
  activeSplit : option string;
  workoutSplit : option WorkoutSplit.t;
  workoutSessions : option (list WorkoutSession.t);
  workoutStreak : option Z;
  exercise_ : gmap string History.t;        (* exercise-<name> *)
  lastWorkout_ : gmap string History.t;     (* lastWorkout-<name> *)
  autosave_ : gmap string (Payload * Z)     (* autosave-<key>: data, timestamp *)
}.

(** The store of a fresh browser profile. *)
Definition empty : t := mk None None None None None None ∅ ∅ ∅.

Definition set_workoutTemplates v (s : t) : t :=
  mk v (workoutSplits s) (activeSplit s) (workoutSplit s)
     (workoutSessions s) (workoutStreak s) (exercise_ s) (lastWorkout_ s)
     (autosave_ s).
Definition set_workoutSplits v (s : t) : t :=
  mk (workoutTemplates s) v (activeSplit s) (workoutSplit s)
     (workoutSessions s) (workoutStreak s) (exercise_ s) (lastWorkout_ s)
     (autosave_ s).
Definition set_activeSplit v (s : t) : t :=
  mk (workoutTemplates s) (workoutSplits s) v (workoutSplit s)
     (workoutSessions s) (workoutStreak s) (exercise_ s) (lastWorkout_ s)
     (autosave_ s).
Definition set_workoutSplit v (s : t) : t :=
  mk (workoutTemplates s) (workoutSplits s) (activeSplit s) v
     (workoutSessions s) (workoutStreak s) (exercise_ s) (lastWorkout_ s)
     (autosave_ s).
Definition set_workoutSessions v (s : t) : t :=
  mk (workoutTemplates s) (workoutSplits s) (activeSplit s) (workoutSplit s)
     v (workoutStreak s) (exercise_ s) (lastWorkout_ s) (autosave_ s).
Definition set_workoutStreak v (s : t) : t :=
  mk (workoutTemplates s) (workoutSplits s) (activeSplit s) (workoutSplit s)
     (workoutSessions s) v (exercise_ s) (lastWorkout_ s) (autosave_ s).
Definition set_exercise_ v (s : t) : t :=
  mk (workoutTemplates s) (workoutSplits s) (activeSplit s) (workoutSplit s)
     (workoutSessions s) (workoutStreak s) v (lastWorkout_ s) (autosave_ s).
Definition set_lastWorkout_ v (s : t) : t :=
  mk (workoutTemplates s) (workoutSplits s) (activeSplit s) (workoutSplit s)
     (workoutSessions s) (workoutStreak s) (exercise_ s) v (autosave_ s).
Definition set_autosave_ v (s : t) : t :=
  mk (workoutTemplates s) (workoutSplits s) (activeSplit s) (workoutSplit s)
     (workoutSessions s) (workoutStreak s) (exercise_ s) (lastWorkout_ s) v.
End LocalStorage.

(** ** [class WorkoutStorage]

    Every method takes the store and returns the store it leaves; a method
    with a result returns the pair. *)

Module storage.
Import LocalStorage.

Definition defaultTemplates : gmap string WorkoutTemplate.t :=
  <["Push" := WorkoutTemplate.mk "push" "Push"
      [ Exercise.lit "bench-press" "Bench Press" 4;
        Exercise.lit "overhead-press" "Overhead Press" 3;
        Exercise.lit "incline-db-press" "Incline Dumbbell Press" 3;
        Exercise.lit "tricep-dips" "Tricep Dips" 3;
        Exercise.lit "lateral-raises" "Lateral Raises" 3 ]]>
  (<["Pull" := WorkoutTemplate.mk "pull" "Pull"
      [ Exercise.lit "deadlift" "Deadlift" 4;
        Exercise.lit "pull-ups" "Pull-ups" 3;
        Exercise.lit "barbell-rows" "Barbell Rows" 3;
        Exercise.lit "face-pulls" "Face Pulls" 3;
        Exercise.lit "bicep-curls" "Bicep Curls" 3 ]]>
  (<["Legs" := WorkoutTemplate.mk "legs" "Legs"
      [ Exercise.lit "squats" "Squats" 4;
        Exercise.lit "romanian-deadlift" "Romanian Deadlift" 3;
        Exercise.lit "bulgarian-split-squats" "Bulgarian Split Squats" 3;
        Exercise.lit "calf-raises" "Calf Raises" 3;
        Exercise.lit "walking-lunges" "Walking Lunges" 3 ]]>
  (<["Upper" := WorkoutTemplate.mk "upper" "Upper"
      [ Exercise.lit "bench-press" "Bench Press" 4;
        Exercise.lit "pull-ups" "Pull-ups" 3;
        Exercise.lit "overhead-press" "Overhead Press" 3;
        Exercise.lit "barbell-rows" "Barbell Rows" 3;
        Exercise.lit "dips" "Dips" 3 ]]>
  (<["Lower" := WorkoutTemplate.mk "lower" "Lower"
      [ Exercise.lit "squats" "Squats" 4;
        Exercise.lit "deadlift" "Deadlift" 4;
        Exercise.lit "lunges" "Lunges" 3;
        Exercise.lit "leg-press" "Leg Press" 3;
        Exercise.lit "calf-raises" "Calf Raises" 3 ]]>
  (<["Full Body" := WorkoutTemplate.mk "full-body" "Full Body"
      [ Exercise.lit "squats" "Squats" 3;
        Exercise.lit "bench-press" "Bench Press" 3;
        Exercise.lit "pull-ups" "Pull-ups" 3;
        Exercise.lit "overhead-press" "Overhead Press" 3;
        Exercise.lit "deadlift" "Deadlift" 3 ]]> ∅))))).

Definition saveWorkoutTemplates
    (templates : gmap string WorkoutTemplate.t) (st : t) : t :=
  set_workoutTemplates (Some templates) st.

Definition getWorkoutTemplates (st : t)
    : gmap string WorkoutTemplate.t * t :=
  match workoutTemplates st with
  | Some templates => (templates, st)
  | None => (defaultTemplates, saveWorkoutTemplates defaultTemplates st)
  end.

(** [templates[workoutType] || null].  The templates object is the map
    of the properties it holds itself.  Under a name of
    [JS.Object_prototype] that it does not hold, the code finds the
    inherited member, which is no template, and an assignment to
    ["__proto__"] stores nothing: the map does not show either, so what is
    proved of a template read or written under an arbitrary name is
    stated for names outside [JS.Object_prototype]. *)
Definition getWorkoutTemplate (workoutType : string) (st : t)
    : option WorkoutTemplate.t * t :=
  let '(templates, st) := getWorkoutTemplates st in
  (templates !! workoutType, st).

Definition updateWorkoutTemplate
    (workoutType : string) (template : WorkoutTemplate.t) (st : t) : t :=
  let '(templates, st) := getWorkoutTemplates st in
  saveWorkoutTemplates (<[workoutType := template]> templates) st.

Definition getExerciseHistory (exerciseName : string) (st : t)
    : option History.t :=
  exercise_ st !! exerciseName.

Definition saveExerciseHistory
    (exerciseName : string) (data : History.t) (st : t) : t :=
  set_exercise_ (<[exerciseName := data]> (exercise_ st)) st.

Definition getWorkoutSessions (st : t) : list WorkoutSession.t :=
  default [] (workoutSessions st).

(** The inner [forEach] of [saveWorkoutSession]: the sets of one
    exercise, in order. *)
Definition recordSets (name date : string)
    (sets : list SessionSet.t) (st : t) : t :=
  foldl (λ st set,
           if SessionSet.completed set
           then saveExerciseHistory name
                  (History.mk (SessionSet.weight set) (SessionSet.reps set)
                              date) st
           else st)
        st sets.

Definition saveWorkoutSession (session : WorkoutSession.t) (st : t) : t :=
  let sessions := getWorkoutSessions st in
  let existingIndex :=
    JS.findIndex
      (λ s, String.eqb (WorkoutSession.id s) (WorkoutSession.id session))
      sessions in
  let sessions :=
    match existingIndex with
    | Some i => <[i := session]> sessions
    | None => sessions ++ [session]
    end in
  let st := set_workoutSessions (Some sessions) st in
  foldl (λ st exercise,
           recordSets (SessionExercise.name exercise)
                      (WorkoutSession.date session)
                      (SessionExercise.sets exercise) st)
        st (WorkoutSession.exercises session).

Definition defaultSplits : list WorkoutSplit.t :=
  [ WorkoutSplit.mk "1" "Push/Pull/Legs"
      ["Push"; "Pull"; "Legs"; "Rest"; "Push"; "Pull"; "Legs"]
      (Some 0%Z) None;
    WorkoutSplit.mk "2" "Upper/Lower"
      ["Upper"; "Lower"; "Rest"; "Upper"; "Lower"; "Rest"; "Rest"]
      (Some 0%Z) None;
    WorkoutSplit.mk "3" "Full Body"
      ["Full Body"; "Rest"; "Full Body"; "Rest"; "Full Body"; "Rest"; "Rest"]
      (Some 0%Z) None ].

Definition saveWorkoutSplits (splits : list WorkoutSplit.t) (st : t) : t :=
  set_workoutSplits (Some splits) st.

Definition getWorkoutSplits (st : t) : list WorkoutSplit.t * t :=
  match workoutSplits st with
  | Some splits => (splits, st)
  | None => (defaultSplits, saveWorkoutSplits defaultSplits st)
  end.

Definition getActiveSplit (st : t) : option WorkoutSplit.t * t :=
  match activeSplit st with
  | Some activeSplitId =>
      if JS.truthy activeSplitId then
        let '(splits, st) := getWorkoutSplits st in
        (JS.find (λ s, String.eqb (WorkoutSplit.id s) activeSplitId) splits,
         st)
      else (None, st)
  | None => (None, st)
  end.

Definition setActiveSplit (splitId : string) (st : t) : t :=
  let st := set_activeSplit (Some splitId) st in
  let '(splits, st) := getWorkoutSplits st in
  match JS.find (λ s, String.eqb (WorkoutSplit.id s) splitId) splits with
  | Some split => set_workoutSplit (Some split) st
  | None => st
  end.

Definition updateSplit (updatedSplit : WorkoutSplit.t) (st : t) : t :=
  let '(splits, st) := getWorkoutSplits st in
  match JS.findIndex
          (λ s, String.eqb (WorkoutSplit.id s) (WorkoutSplit.id updatedSplit))
          splits with
  | Some index =>
      let st := saveWorkoutSplits (<[index := updatedSplit]> splits) st in
      match activeSplit st with
      | Some activeSplitId =>
          if String.eqb activeSplitId (WorkoutSplit.id updatedSplit)
          then set_workoutSplit (Some updatedSplit) st
          else st
      | None => st
      end
  | None => st
  end.

(** [parseInt(localStorage.getItem('workoutStreak') || '0')] *)
Definition getStreak (st : t) : Z := default 0%Z (workoutStreak st).

Definition updateStreak (st : t) : t :=
  let currentStreak := getStreak st in
  set_workoutStreak (Some (currentStreak + 1)%Z) st.

(** [now] is [Date.now()], in milliseconds. *)
Definition autoSave (key : string) (data : Payload) (now : Z) (st : t) : t :=
  set_autosave_ (<[key := (data, now)]> (autosave_ st)) st.

Definition getAutoSave (key : string) (now : Z) (st : t) : option Payload :=
  match autosave_ st !! key with
  | Some (data, timestamp) =>
      if (now - timestamp <? 24 * 60 * 60 * 1000)%Z then Some data else None
  | None => None
  end.

Definition clearAutoSave (key : string) (st : t) : t :=
  set_autosave_ (delete key (autosave_ st)) st.

End storage.

(** What a handler asks of its surroundings besides the state it sets. *)
Inductive Effect :=
| Toast (title : string) (destructive : bool)
| SetTimeout_autoSaveWorkout.      (* setTimeout(autoSaveWorkout, 100) *)

(** ** [Index]: the page that hosts the views *)

Module Index.
Module View.
Inductive t := dashboard | workout | split | progress.
End View.

Record t := mk { currentView : View.t; currentWorkoutType : string }.

(** [now] is [new Date().toISOString()]. *)
Definition handleCompleteWorkout (now : string) (w : t * LocalStorage.t)
    : t * LocalStorage.t :=
  let '(p, st) := w in
  let st :=
    match LocalStorage.workoutSplit st with
    | Some split =>
        let nextDay :=
          JS.nextDay (WorkoutSplit.currentDay split)
                     (length (WorkoutSplit.days split)) in
        let updatedSplit :=
          WorkoutSplit.with_currentDay_date nextDay now split in
        LocalStorage.set_workoutSplit (Some updatedSplit) st
    | None => st
    end in
  (mk View.dashboard (currentWorkoutType p), st).

(** [None]: the mirror's day index is outside its day list, so that
    [undefined] would be stored as the workout type. *)
Definition handleStartWorkout (w : t * LocalStorage.t)
    : option (t * LocalStorage.t) :=
  let '(p, st) := w in
  match LocalStorage.workoutSplit st with
  | Some split =>
      let workoutType :=
        match WorkoutSplit.currentDay split with
        | Some d => if (d <? 0)%Z then None
                    else WorkoutSplit.days split !! Z.to_nat d
        | None => None
        end in
      match workoutType with
      | Some workoutType =>
          if String.eqb workoutType "Rest" then Some (p, st)
          else Some (mk View.workout workoutType, st)
      | None => None
      end
  | None => Some (p, st)
  end.
End Index.

(** ** [WorkoutTracker]: the session recorder *)

Module WorkoutTracker.

Record t := mk {
  workoutType : string;                (* prop *)
  exercises : list TExercise.t;
  currentExerciseIndex : Z;
  restTimer : Z;
  isResting : bool;
  sessionId : string
}.

Definition setExercises (e : list TExercise.t) (tr : t) : t :=
  mk (workoutType tr) e (currentExerciseIndex tr) (restTimer tr)
     (isResting tr) (sessionId tr).

Definition startRest (seconds : Z) (tr : t) : t :=
  mk (workoutType tr) (exercises tr) (currentExerciseIndex tr) seconds true
     (sessionId tr).

(** One firing of the one-second interval of the rest timer; the
    interval is only installed while [isResting && restTimer > 0]. *)
Definition tick (tr : t) : t * list Effect :=
  if isResting tr && (0 <? restTimer tr)%Z then
    if (restTimer tr <=? 1)%Z then
      (mk (workoutType tr) (exercises tr) (currentExerciseIndex tr) 0 false
          (sessionId tr),
       [Toast "Rest Complete!" false])
    else
      (mk (workoutType tr) (exercises tr) (currentExerciseIndex tr)
          (restTimer tr - 1) (isResting tr) (sessionId tr), [])
  else (tr, []).

Definition autoSaveWorkout (now : Z) (tr : t) (st : LocalStorage.t)
    : LocalStorage.t :=
  match exercises tr with
  | [] => st
  | _ :: _ =>
      storage.autoSave ("workout-" +:+ workoutType tr)
        (PWorkout (exercises tr) (currentExerciseIndex tr) (sessionId tr))
        now st
  end.

(** [None]: the handler throws (reading [sets] or [weight] of
    [undefined]) because no such exercise or set exists. *)
Definition completeSet (exerciseIndex setIndex : nat) (tr : t)
    : option (t * list Effect) :=
  exercise ← exercises tr !! exerciseIndex;
  set ← TExercise.sets exercise !! setIndex;
  if Qeq_bool (TSet.weight set) 0 || Z.eqb (TSet.reps set) 0 then
    Some (tr, [Toast "Invalid Set" true])
  else
    let tr :=
      setExercises
        (imap (λ eIndex exercise,
                 if Nat.eqb eIndex exerciseIndex then
                   TExercise.with_sets
                     (imap (λ sIndex s,
                              if Nat.eqb sIndex setIndex
                              then TSet.complete s else s)
                           (TExercise.sets exercise))
                     exercise
                 else exercise)
              (exercises tr))
        tr in
    let tr := startRest 90 tr in
    Some (tr, [Toast "Set Complete!" false; SetTimeout_autoSaveWorkout]).

(** The session record [saveWorkout] builds; [date] is
    [new Date().toISOString()]. *)
Definition sessionOf (date : string) (tr : t) : WorkoutSession.t :=
  WorkoutSession.mk (sessionId tr) date (workoutType tr)
    (map (λ exercise,
            SessionExercise.mk (TExercise.id exercise)
              (TExercise.name exercise)
              (map (λ set, SessionSet.mk (TSet.weight set) (TSet.reps set)
                                         (TSet.completed set))
                   (TExercise.sets exercise)))
         (exercises tr))
    true.

(** [date] and [date'] are the two readings of the clock, [onComplete]
    is the prop the parent passes; [P] is the parent's state. *)
Definition saveWorkout {P : Type} (date date' : string)
    (onComplete : P * LocalStorage.t → P * LocalStorage.t)
    (tr : t) (w : P * LocalStorage.t) : (P * LocalStorage.t) * list Effect :=
  let '(p, st) := w in
  let session := sessionOf date tr in
  let st := storage.saveWorkoutSession session st in
  let st := storage.updateStreak st in
  let '(activeSplit, st) := storage.getActiveSplit st in
  let st :=
    match activeSplit with
    | Some activeSplit =>
        let nextDay :=
          JS.nextDay (WorkoutSplit.currentDay activeSplit)
                     (length (WorkoutSplit.days activeSplit)) in
        let updatedSplit :=
          WorkoutSplit.with_currentDay_date nextDay date' activeSplit in
        storage.updateSplit updatedSplit st
    | None => st
    end in
  let st := storage.clearAutoSave ("workout-" +:+ workoutType tr) st in
  (onComplete (p, st), [Toast "Workout Saved!" false]).

(** *** The rest of the component *)

Definition setCurrentExerciseIndex (i : Z) (tr : t) : t :=
  mk (workoutType tr) (exercises tr) i (restTimer tr) (isResting tr)
     (sessionId tr).

(** [exercises[currentExerciseIndex]] *)
Definition currentExercise (tr : t) : option TExercise.t :=
  if (currentExerciseIndex tr <? 0)%Z then None
  else exercises tr !! Z.to_nat (currentExerciseIndex tr).

(** [currentExercise?.sets.filter(set => set.completed).length || 0] *)
Definition completedSets (tr : t) : nat :=
  match currentExercise tr with
  | Some exercise =>
      length (filter (λ set, TSet.completed set = true)
                     (TExercise.sets exercise))
  | None => 0%nat
  end.

(** [currentExercise?.sets.length || 0] *)
Definition totalSets (tr : t) : nat :=
  match currentExercise tr with
  | Some exercise => length (TExercise.sets exercise)
  | None => 0%nat
  end.

(** The sets a template exercise starts with:
    [Array.from({ length: exercise.sets }, (_, setIndex) => ...)], each
    prefilled with [history?.weight || 0] and [history?.reps || 0]. *)
Definition initialSets (index : nat) (sets : Z) (history : option History.t)
    : list TSet.t :=
  map (λ setIndex,
         TSet.mk ("set-" +:+ JS.toString (Z.of_nat index) +:+ "-"
                    +:+ JS.toString (Z.of_nat setIndex))
           (match history with
            | Some h => if Qeq_bool (History.weight h) 0 then 0%Q
                        else History.weight h
            | None => 0%Q
            end)
           (match history with
            | Some h => History.reps h
            | None => 0%Z
            end)
           false)
      (seq 0 (Z.to_nat sets)).

(** [now] is the [Date.now()] of [getAutoSave].  [None]: the slot of the
    workout holds a template, which no writer of the slot puts there. *)
Definition initializeWorkout (now : Z) (w : t * LocalStorage.t)
    : option ((t * LocalStorage.t) * list Effect) :=
  let '(tr, st) := w in
  match storage.getAutoSave ("workout-" +:+ workoutType tr) now st with
  | Some (PWorkout savedExercises savedIndex _) =>
      Some ((setCurrentExerciseIndex savedIndex
               (setExercises savedExercises tr), st),
            [Toast "Workout Restored" false])
  | Some (PTemplate _) => None
  | None =>
      let '(template, st) := storage.getWorkoutTemplate (workoutType tr) st in
      match template with
      | None => Some ((tr, st), [Toast "No Exercises Found" true])
      | Some template =>
          match WorkoutTemplate.exercises template with
          | [] => Some ((tr, st), [Toast "No Exercises Found" true])
          | _ :: _ =>
              let workoutExercises :=
                imap (λ index exercise,
                        let history :=
                          storage.getExerciseHistory (Exercise.name exercise)
                                                     st in
                        TExercise.mk (Exercise.id exercise)
                          (Exercise.name exercise)
                          (initialSets index (Exercise.sets exercise) history)
                          (Exercise.sets exercise)
                          (History.weight <$> history)
                          (History.reps <$> history))
                     (WorkoutTemplate.exercises template) in
              Some ((setExercises workoutExercises tr, st), [])
          end
      end
  end.

(** The field [updateSet] writes, with the value: a weight or a count of
    repetitions. *)
Module Field.
Inductive t := weight (value : Q) | reps (value : Z).
End Field.

(** [{ ...set, [field]: value }] *)
Definition setField (field : Field.t) (set : TSet.t) : TSet.t :=
  match field with
  | Field.weight value =>
      TSet.mk (TSet.id set) value (TSet.reps set) (TSet.completed set)
  | Field.reps value =>
      TSet.mk (TSet.id set) (TSet.weight set) value (TSet.completed set)
  end.

Definition updateSet (exerciseIndex setIndex : nat) (field : Field.t)
    (tr : t) : t * list Effect :=
  (setExercises
     (imap (λ eIndex exercise,
              if Nat.eqb eIndex exerciseIndex then
                TExercise.with_sets
                  (imap (λ sIndex set,
                           if Nat.eqb sIndex setIndex
                           then setField field set else set)
                        (TExercise.sets exercise))
                  exercise
              else exercise)
           (exercises tr))
     tr,
   [SetTimeout_autoSaveWorkout]).

(** The controls of the card of the current exercise.  They are rendered
    only while [currentExercise] exists, one row per set of it; [disabled]
    controls fire no handler. *)
Inductive Control :=
| WeightMinus | WeightPlus | RepsMinus | RepsPlus | Complete.

Definition row_onClick (control : Control) (setIndex : nat) (tr : t)
    : option (t * list Effect) :=
  match currentExercise tr with
  | None => Some (tr, [])
  | Some exercise =>
      match TExercise.sets exercise !! setIndex with
      | None => Some (tr, [])
      | Some set =>
          let e := Z.to_nat (currentExerciseIndex tr) in
          if TSet.completed set then Some (tr, [])
          else
            match control with
            | WeightMinus =>
                (* Math.max(0, set.weight - 2.5) *)
                let v := (TSet.weight set - (5 # 2))%Q in
                Some (updateSet e setIndex
                        (Field.weight (if Qle_bool v 0 then 0%Q else v)) tr)
            | WeightPlus =>
                Some (updateSet e setIndex
                        (Field.weight (TSet.weight set + (5 # 2))%Q) tr)
            | RepsMinus =>
                Some (updateSet e setIndex
                        (Field.reps (Z.max 0 (TSet.reps set - 1))) tr)
            | RepsPlus =>
                Some (updateSet e setIndex
                        (Field.reps (TSet.reps set + 1)%Z) tr)
            | Complete =>
                (* disabled={setIndex !== completedSets} *)
                if Nat.eqb setIndex (completedSets tr)
                then completeSet e setIndex tr
                else Some (tr, [])
            end
      end
  end.

(** "Previous Exercise": [disabled={currentExerciseIndex === 0}]. *)
Definition previous_onClick (tr : t) : t :=
  match currentExercise tr with
  | None => tr
  | Some _ =>
      if (currentExerciseIndex tr =? 0)%Z then tr
      else setCurrentExerciseIndex (Z.max 0 (currentExerciseIndex tr - 1)) tr
  end.

(** "Next Exercise":
    [disabled={currentExerciseIndex === exercises.length - 1}]. *)
Definition next_onClick (tr : t) : t :=
  match currentExercise tr with
  | None => tr
  | Some _ =>
      let last := (Z.of_nat (length (exercises tr)) - 1)%Z in
      if (currentExerciseIndex tr =? last)%Z then tr
      else setCurrentExerciseIndex
             (Z.min last (currentExerciseIndex tr + 1)) tr
  end.

End WorkoutTracker.

(** ** The first [WorkoutTracker] ([src/components/WorkoutTracker.tsx]),
    which writes [localStorage] itself *)

Module LegacyWorkoutTracker.

Definition saveWorkout {P : Type} (date : string)
    (onComplete : P * LocalStorage.t → P * LocalStorage.t)
    (exercises : list TExercise.t) (w : P * LocalStorage.t)
    : (P * LocalStorage.t) * list Effect :=
  let '(p, st) := w in
  let st :=
    foldl (λ st exercise,
             let completedSets :=
               filter (λ set, TSet.completed set = true)
                      (TExercise.sets exercise) in
             match last completedSets with
             | Some lastSet =>
                 LocalStorage.set_lastWorkout_
                   (<[TExercise.name exercise :=
                        History.mk (TSet.weight lastSet) (TSet.reps lastSet)
                                   date]>
                      (LocalStorage.lastWorkout_ st))
                   st
             | None => st
             end)
          st exercises in
  let currentStreak := default 0%Z (LocalStorage.workoutStreak st) in
  let st := LocalStorage.set_workoutStreak (Some (currentStreak + 1)%Z) st in
  (onComplete (p, st), [Toast "Workout Saved!" false]).

End LegacyWorkoutTracker.

(** ** [WorkoutSplitManager] *)

Module WorkoutSplitManager.

Record t := mk {
  splits : list WorkoutSplit.t;
  activeSplit : option string
}.

Definition init : t := mk [] None.

Definition loadSplits (w : t * LocalStorage.t) : t * LocalStorage.t :=
  let '(m, st) := w in
  let '(loadedSplits, st) := storage.getWorkoutSplits st in
  let m := mk loadedSplits (activeSplit m) in
  match LocalStorage.activeSplit st with
  | Some activeId =>
      if JS.truthy activeId then (mk (splits m) (Some activeId), st)
      else
        match loadedSplits with
        | first :: _ =>
            (mk (splits m) (Some (WorkoutSplit.id first)),
             storage.setActiveSplit (WorkoutSplit.id first) st)
        | [] => (m, st)
        end
  | None =>
      match loadedSplits with
      | first :: _ =>
          (mk (splits m) (Some (WorkoutSplit.id first)),
           storage.setActiveSplit (WorkoutSplit.id first) st)
      | [] => (m, st)
      end
  end.

Definition saveSplits (newSplits : list WorkoutSplit.t)
    (w : t * LocalStorage.t) : t * LocalStorage.t :=
  let '(m, st) := w in
  (mk newSplits (activeSplit m), storage.saveWorkoutSplits newSplits st).

Definition setActiveWorkoutSplit (splitId : string)
    (w : t * LocalStorage.t) : (t * LocalStorage.t) * list Effect :=
  let '(m, st) := w in
  ((mk (splits m) (Some splitId), storage.setActiveSplit splitId st),
   [Toast "Split Activated!" false]).

Definition skipDay (splitId : string) (w : t * LocalStorage.t)
    : (t * LocalStorage.t) * list Effect :=
  let '(m, st) := w in
  match JS.find (λ s, String.eqb (WorkoutSplit.id s) splitId) (splits m) with
  | Some updatedSplit =>
      let nextDay :=
        JS.nextDay (WorkoutSplit.currentDay updatedSplit)
                   (length (WorkoutSplit.days updatedSplit)) in
      let newSplit := WorkoutSplit.with_currentDay nextDay updatedSplit in
      let st := storage.updateSplit newSplit st in
      ((mk (map (λ s, if String.eqb (WorkoutSplit.id s) splitId
                      then newSplit else s)
                (splits m))
           (activeSplit m),
        st),
       [Toast "Day Skipped" false])
  | None => ((m, st), [])
  end.

Definition deleteSplit (splitId : string) (w : t * LocalStorage.t)
    : (t * LocalStorage.t) * list Effect :=
  let '(m, st) := w in
  let newSplits :=
    filter (λ split, WorkoutSplit.id split ≠ splitId) (splits m) in
  let '(m, st) := saveSplits newSplits (m, st) in
  let '(m, st) :=
    match activeSplit m with
    | Some a =>
        if String.eqb a splitId then
          (mk (splits m) None,
           LocalStorage.set_workoutSplit None
             (LocalStorage.set_activeSplit None st))
        else (m, st)
    | None => (m, st)
    end in
  ((m, st), [Toast "Split Deleted" false]).

(** The delete control of a split's card:
    [onClick={() => deleteSplit(split.id)}] with
    [disabled={splits.length === 1}]; a disabled button fires no
    handler. *)
Definition deleteButton_onClick (splitId : string) (w : t * LocalStorage.t)
    : (t * LocalStorage.t) * list Effect :=
  if Nat.eqb (length (splits (fst w))) 1 then (w, [])
  else deleteSplit splitId w.

(** *** The "Create New Split" dialog *)

Record Dialog := mkDialog {
  newSplitName : string;
  newSplitDays : list string;
  showCreateDialog : bool
}.

Definition initDialog : Dialog := mkDialog "" [""] false.

(** [newDays[index] = value]: an index up to the length stays within
    a dense array; [None] beyond it, where the array would get holes.  The
    inputs are rendered for the indices below the length. *)
Definition updateSplitDay (index : nat) (value : string) (d : Dialog)
    : option Dialog :=
  if (index <? length (newSplitDays d))%nat then
    Some (mkDialog (newSplitName d) (<[index := value]> (newSplitDays d))
                   (showCreateDialog d))
  else if Nat.eqb index (length (newSplitDays d)) then
    Some (mkDialog (newSplitName d) (newSplitDays d ++ [value])
                   (showCreateDialog d))
  else None.

Definition addSplitDay (d : Dialog) : Dialog :=
  mkDialog (newSplitName d) (newSplitDays d ++ [""]) (showCreateDialog d).

(** [newSplitDays.filter((_, i) => i !== index)] *)
Definition removeSplitDay (index : nat) (d : Dialog) : Dialog :=
  mkDialog (newSplitName d) (delete index (newSplitDays d))
           (showCreateDialog d).

(** "Add Day": [disabled={newSplitDays.length >= 7}]. *)
Definition addDay_onClick (d : Dialog) : Dialog :=
  if (7 <=? length (newSplitDays d))%nat then d else addSplitDay d.

(** The remove control of a day, rendered for the indices below the
    length while [newSplitDays.length > 1]. *)
Definition removeDay_onClick (index : nat) (d : Dialog) : Dialog :=
  if (1 <? length (newSplitDays d))%nat
     && (index <? length (newSplitDays d))%nat
  then removeSplitDay index d else d.

(** The input of a day, rendered for the indices below the length:
    [onChange={(e) => updateSplitDay(index, e.target.value)}]. *)
Definition dayInput_onChange (index : nat) (value : string) (d : Dialog)
    : Dialog :=
  if (index <? length (newSplitDays d))%nat
  then default d (updateSplitDay index value d) else d.

Definition setNewSplitName (name : string) (d : Dialog) : Dialog :=
  mkDialog name (newSplitDays d) (showCreateDialog d).

Section Create.
(** [String.prototype.trim] *)
Variable trim : string → string.

(** [now] is [Date.now()]. *)
Definition createSplit (now : Z) (d : Dialog) (w : t * LocalStorage.t)
    : (Dialog * (t * LocalStorage.t)) * list Effect :=
  if negb (JS.truthy (trim (newSplitName d)))
     || existsb (λ day, negb (JS.truthy (trim day))) (newSplitDays d)
  then ((d, w), [Toast "Invalid Split" true])
  else
    let newSplit :=
      WorkoutSplit.mk (JS.toString now) (newSplitName d)
        (List.filter (λ day, JS.truthy (trim day)) (newSplitDays d))
        (Some 0%Z) None in
    let w := saveSplits (splits (fst w) ++ [newSplit]) w in
    ((mkDialog "" [""] false, w), [Toast "Split Created!" false]).
End Create.

End WorkoutSplitManager.

(** ** [ExerciseManager] *)

Module ExerciseManager.

Record t := mk {
  workoutType : string;                     (* prop *)
  template : option WorkoutTemplate.t
}.

(** [now] is the [Date.now()] of [storage.autoSave]. *)
Definition saveTemplate (now : Z) (updatedTemplate : WorkoutTemplate.t)
    (w : t * LocalStorage.t) : (t * LocalStorage.t) * list Effect :=
  let '(m, st) := w in
  let st := storage.updateWorkoutTemplate (workoutType m) updatedTemplate st in
  let m := mk (workoutType m) (Some updatedTemplate) in
  let st :=
    storage.autoSave ("exercise-manager-" +:+ workoutType m)
                     (PTemplate updatedTemplate) now st in
  ((m, st), [Toast "Exercises Updated!" false]).

Definition deleteExercise (now : Z) (exerciseId : string)
    (w : t * LocalStorage.t) : (t * LocalStorage.t) * list Effect :=
  match template (fst w) with
  | None => (w, [])
  | Some template =>
      let updatedTemplate :=
        WorkoutTemplate.mk (WorkoutTemplate.id template)
          (WorkoutTemplate.name template)
          (filter (λ ex, Exercise.id ex ≠ exerciseId)
                  (WorkoutTemplate.exercises template)) in
      let '(w, e) := saveTemplate now updatedTemplate w in
      (w, e ++ [Toast "Exercise Deleted" false])
  end.

Definition resetToDefault (now : Z) (w : t * LocalStorage.t)
    : (t * LocalStorage.t) * list Effect :=
  let '(m, st) := w in
  (* Get default template and save it *)
  let '(templates, st) := storage.getWorkoutTemplates st in
  let defaultTemplate := templates !! workoutType m in
  match defaultTemplate with
  | Some defaultTemplate =>
      let '(w, e) := saveTemplate now defaultTemplate (m, st) in
      (w, e ++ [Toast "Reset Complete" false])
  | None => ((m, st), [])
  end.

(** *** The rest of the component *)

Record Dialog := mkDialog {
  showAddDialog : bool;
  editingExercise : option Exercise.t;
  newExerciseName : string;
  newExerciseSets : Z
}.

Definition initDialog : Dialog := mkDialog false None "" 3.

(** The "-" and "+" of the number of sets:
    [Math.max(1, newExerciseSets - 1)], [Math.min(10, newExerciseSets + 1)]. *)
Definition setsMinus_onClick (d : Dialog) : Dialog :=
  mkDialog (showAddDialog d) (editingExercise d) (newExerciseName d)
           (Z.max 1 (newExerciseSets d - 1)).

Definition setsPlus_onClick (d : Dialog) : Dialog :=
  mkDialog (showAddDialog d) (editingExercise d) (newExerciseName d)
           (Z.min 10 (newExerciseSets d + 1)).

Definition editExercise (exercise : Exercise.t) (d : Dialog) : Dialog :=
  mkDialog true (Some exercise) (Exercise.name exercise)
           (Exercise.sets exercise).

(** [exercises.splice(fromIndex, 1)] then
    [exercises.splice(toIndex, 0, movedExercise)]; [None] when there is
    nothing at [fromIndex], where [undefined] would be inserted. *)
Definition moveExercise (now : Z) (fromIndex toIndex : nat)
    (w : t * LocalStorage.t) : option ((t * LocalStorage.t) * list Effect) :=
  match template (fst w) with
  | None => Some (w, [])
  | Some template =>
      match WorkoutTemplate.exercises template !! fromIndex with
      | None => None
      | Some movedExercise =>
          let exercises :=
            delete fromIndex (WorkoutTemplate.exercises template) in
          let exercises :=
            take toIndex exercises ++ movedExercise :: drop toIndex exercises in
          Some (saveTemplate now
                  (WorkoutTemplate.mk (WorkoutTemplate.id template)
                     (WorkoutTemplate.name template) exercises)
                  w)
      end
  end.

Section Names.
(** [String.prototype.trim] *)
Variable trim : string → string.
(** [s => s.toLowerCase().replace(/\s+/g, '-')] *)
Variable lowerDashed : string → string.

Definition loadTemplate (w : t * LocalStorage.t) : t * LocalStorage.t :=
  let '(m, st) := w in
  let '(workoutTemplate, st) :=
    storage.getWorkoutTemplate (workoutType m) st in
  match workoutTemplate with
  | Some workoutTemplate => (mk (workoutType m) (Some workoutTemplate), st)
  | None =>
      (mk (workoutType m)
          (Some (WorkoutTemplate.mk (lowerDashed (workoutType m))
                   (workoutType m) [])),
       st)
  end.

(** [now] is read by [Date.now()] for the id and again by [autoSave]. *)
Definition addExercise (now now' : Z) (d : Dialog) (w : t * LocalStorage.t)
    : (Dialog * (t * LocalStorage.t)) * list Effect :=
  if negb (JS.truthy (trim (newExerciseName d)))
  then ((d, w), [Toast "Invalid Exercise" true])
  else
    match template (fst w) with
    | None => ((d, w), [])
    | Some template =>
        let newExercise :=
          Exercise.lit
            (JS.toString now +:+ "-" +:+ lowerDashed (newExerciseName d))
            (trim (newExerciseName d)) (newExerciseSets d) in
        let updatedTemplate :=
          WorkoutTemplate.mk (WorkoutTemplate.id template)
            (WorkoutTemplate.name template)
            (WorkoutTemplate.exercises template ++ [newExercise]) in
        let '(w, e) := saveTemplate now' updatedTemplate w in
        ((mkDialog false (editingExercise d) "" 3, w), e)
    end.

Definition updateExercise (now : Z) (d : Dialog) (w : t * LocalStorage.t)
    : (Dialog * (t * LocalStorage.t)) * list Effect :=
  match editingExercise d, template (fst w) with
  | Some editing, Some template =>
      if negb (JS.truthy (trim (newExerciseName d))) then ((d, w), [])
      else
        let updatedTemplate :=
          WorkoutTemplate.mk (WorkoutTemplate.id template)
            (WorkoutTemplate.name template)
            (map (λ ex,
                    if String.eqb (Exercise.id ex) (Exercise.id editing)
                    then Exercise.mk (Exercise.id ex)
                           (trim (newExerciseName d)) (newExerciseSets d)
                           (Exercise.lastWeight ex) (Exercise.lastReps ex)
                           (Exercise.lastDate ex)
                    else ex)
                 (WorkoutTemplate.exercises template)) in
        let '(w, e) := saveTemplate now updatedTemplate w in
        ((mkDialog false None "" 3, w), e)
  | _, _ => ((d, w), [])
  end.
End Names.

End ExerciseManager.

(** ** [ProgressTracker]: the analytics view *)

Module ProgressTracker.

Record t := mk {
  streak : Z;
  totalWorkouts : Z;
  (* an object filled in the order of the names below: its entries *)
  strongestLifts : list (string * (Q * Z))
}.

Definition init : t := mk 0 0 [].

Definition exercises : list string :=
  [ "Bench Press"; "Deadlift"; "Squats"; "Overhead Press"; "Pull-ups";
    "Barbell Rows"; "Incline Dumbbell Press"; "Romanian Deadlift" ].

Definition loadProgressData (p : t) (st : LocalStorage.t) : t :=
  let streak :=
    match LocalStorage.workoutStreak st with
    | Some savedStreak => savedStreak
    | None => streak p
    end in
  let lifts :=
    foldl (λ lifts exercise,
             match LocalStorage.lastWorkout_ st !! exercise with
             | Some data =>
                 lifts ++ [(exercise, (History.weight data, History.reps data))]
             | None => lifts
             end)
          [] exercises in
  mk streak (Z.of_nat (length lifts)) lifts.

Definition getStreakColor (p : t) : string :=
  if (30 <=? streak p)%Z then "streak-gold"
  else if (14 <=? streak p)%Z then "success"
  else if (7 <=? streak p)%Z then "accent"
  else "primary".

Definition getStreakMessage (p : t) : string :=
  if (30 <=? streak p)%Z then "Champion Level! 🏆"
  else if (14 <=? streak p)%Z then "On Fire! 🔥"
  else if (7 <=? streak p)%Z then "Building Momentum! 💪"
  else if (3 <=? streak p)%Z then "Getting Started! 🌟"
  else "Every Journey Begins! 🚀".

(** Epley formula: 1RM = weight × (1 + reps/30), computed in doubles:
    [Math.round(weight * (1 + reps / 30))]. *)
Definition calculateOneRepMax (weight : Q) (reps : Z) : JS.number :=
  JS.Math_round_double
    (JS.mul (JS.ofQ weight)
       (JS.add (JS.ofZ 1) (JS.div (JS.ofZ reps) (JS.ofZ 30)))).

Record Lift := mkLift {
  exercise : string; weight : Q; reps : Z; oneRepMax : JS.number
}.
Arguments mkLift exercise%_string weight%_Q reps%_Z oneRepMax%_Z.

(** [Array.prototype.sort] with [(a, b) => b.oneRepMax - a.oneRepMax]:
    stable, by decreasing [oneRepMax]; an earlier lift moves behind a
    later one only when the comparator is above 0 for the two.  A
    comparator that returns [NaN] counts as 0.  (With a [NaN] among the
    estimates, which takes a weight or a number of reps beyond the
    doubles, the comparator is not consistent and the order the engine
    gives is its own choice.) *)
Fixpoint insertLift (x : Lift) (l : list Lift) : list Lift :=
  match l with
  | [] => [x]
  | y :: r => if JS.number_ltb (oneRepMax x) (oneRepMax y)
              then y :: insertLift x r
              else x :: y :: r
  end.

Definition sortLifts (l : list Lift) : list Lift := foldr insertLift [] l.

Definition getTopLifts (p : t) : list Lift :=
  take 5
    (sortLifts
       (map (λ '(exercise, (weight, reps)),
               mkLift exercise weight reps (calculateOneRepMax weight reps))
            (strongestLifts p))).

(** The order of the lifts shown: by decreasing estimate. *)
Definition byEstimate : relation Lift :=
  λ a b, JS.number_ltb (oneRepMax a) (oneRepMax b) = false.


(** The weekly view: slot [index] of the seven is done when
    [index < Math.min(streak, 7)]. *)
Definition isCompleted (p : t) (index : nat) : bool :=
  (Z.of_nat index <? Z.min (streak p) 7)%Z.

Definition week (p : t) : list bool := map (isCompleted p) (seq 0 7).

End ProgressTracker.

(** ** [WorkoutDashboard] *)

Module WorkoutDashboard.

Record t := mk {
  currentSplit : WorkoutSplit.t;
  streak : Z;
  weekProgress : Z
}.

Definition init : t :=
  mk (WorkoutSplit.mk "1" "Push/Pull/Legs"
        ["Push"; "Pull"; "Legs"; "Rest"; "Push"; "Pull"; "Legs"]
        (Some 0%Z) None)
     0 3.

(** The effect run on mount. *)
Definition load (d : t) (st : LocalStorage.t) : t :=
  mk (default (currentSplit d) (LocalStorage.workoutSplit st))
     (default (streak d) (LocalStorage.workoutStreak st))
     (weekProgress d).

(** [currentSplit.days[currentSplit.currentDay]]; [None] is
    [undefined]. *)
Definition getCurrentWorkout (d : t) : option string :=
  match WorkoutSplit.currentDay (currentSplit d) with
  | Some i => if (i <? 0)%Z then None
              else WorkoutSplit.days (currentSplit d) !! Z.to_nat i
  | None => None
  end.

(** The start button: [onClick={onStartWorkout}],
    [disabled={getCurrentWorkout() === 'Rest'}]; [Index] passes
    [handleStartWorkout]. *)
Definition start_onClick (d : t) (w : Index.t * LocalStorage.t)
    : option (Index.t * LocalStorage.t) :=
  match getCurrentWorkout d with
  | Some "Rest"%string => Some w
  | _ => Index.handleStartWorkout w
  end.

End WorkoutDashboard.

(** ** The views composed, and the maps the store methods build *)

Module App.
Import LocalStorage.

(** [Index] renders the tracker with
    [onComplete={handleCompleteWorkout}]: the store its Save button
    leaves. *)
Definition finalStore (date date' date'' : string) (tr : WorkoutTracker.t)
    (p : Index.t) (st : LocalStorage.t) : LocalStorage.t :=
  snd (fst (WorkoutTracker.saveWorkout date date'
              (Index.handleCompleteWorkout date'') tr (p, st))).

(** The history map [recordSets] builds. *)
Definition recordedSets (name date : string) (sets : list SessionSet.t)
    (m : gmap string History.t) : gmap string History.t :=
  foldl (λ m set,
           if SessionSet.completed set
           then <[name := History.mk (SessionSet.weight set)
                                     (SessionSet.reps set) date]> m
           else m)
        m sets.

(** The history map [saveWorkoutSession] builds. *)
Definition recordedSession (session : WorkoutSession.t)
    (m : gmap string History.t) : gmap string History.t :=
  foldl (λ m exercise,
           recordedSets (SessionExercise.name exercise)
                        (WorkoutSession.date session)
                        (SessionExercise.sets exercise) m)
        m (WorkoutSession.exercises session).

(** The set at a position of the workout. *)
Definition setAt (tr : WorkoutTracker.t) (e i : nat) : option TSet.t :=
  WorkoutTracker.exercises tr !! e
    ≫= λ exercise, TExercise.sets exercise !! i.

(** The flags are a run of [true] followed by a run of [false]. *)
Fixpoint prefixFlags (flags : list bool) : bool :=
  match flags with
  | [] => true
  | true :: rest => prefixFlags rest
  | false :: rest => forallb negb rest
  end.

(** In every exercise of the workout the completed sets come first. *)
Definition completedInOrder (tr : WorkoutTracker.t) : Prop :=
  Forall (λ exercise,
            prefixFlags (map TSet.completed (TExercise.sets exercise)) = true)
         (WorkoutTracker.exercises tr).

End App.

(** ** The split views as one machine *)

Module Machine.

(** The day index of a split points into its day list. *)
Definition inRange (s : WorkoutSplit.t) : bool :=
  match WorkoutSplit.currentDay s with
  | Some i => (0 <=? i)%Z && (i <? Z.of_nat (length (WorkoutSplit.days s)))%Z
  | None => false
  end.

(** Every stored split and the mirror are in range. *)
Definition storeInRange (st : LocalStorage.t) : Prop :=
  Forall (λ s, inRange s = true) (default [] (LocalStorage.workoutSplits st)) ∧
  ∀ s, LocalStorage.workoutSplit st = Some s → inRange s = true.

(** The split manager with its dialog, over the store. *)
Definition state : Type :=
  WorkoutSplitManager.Dialog * (WorkoutSplitManager.t * LocalStorage.t).

(** What the user can do in the split manager, and the two ways a
    finished workout reaches the store. *)
Inductive action :=
| Open                               (* the manager is mounted: loadSplits *)
| Activate (splitId : string)
| Skip (splitId : string)
| Delete (splitId : string)
| TypeName (name : string)
| TypeDay (index : nat) (value : string)
| AddDay
| RemoveDay (index : nat)
| Create (now : Z)
| SaveWorkout (date date' date'' : string) (tr : WorkoutTracker.t)
              (p : Index.t)
| CompleteWorkout (now : string) (p : Index.t).

Section Run.
(** [String.prototype.trim] *)
Variable trim : string → string.

Definition run (a : action) (s : state) : state :=
  let '(d, w) := s in
  match a with
  | Open => (d, WorkoutSplitManager.loadSplits w)
  | Activate splitId =>
      (d, fst (WorkoutSplitManager.setActiveWorkoutSplit splitId w))
  | Skip splitId => (d, fst (WorkoutSplitManager.skipDay splitId w))
  | Delete splitId =>
      (d, fst (WorkoutSplitManager.deleteButton_onClick splitId w))
  | TypeName name => (WorkoutSplitManager.setNewSplitName name d, w)
  | TypeDay index value =>
      (WorkoutSplitManager.dayInput_onChange index value d, w)
  | AddDay => (WorkoutSplitManager.addDay_onClick d, w)
  | RemoveDay index => (WorkoutSplitManager.removeDay_onClick index d, w)
  | Create now => fst (WorkoutSplitManager.createSplit trim now d w)
  | SaveWorkout date date' date'' tr p =>
      (d, (fst w, App.finalStore date date' date'' tr p (snd w)))
  | CompleteWorkout now p =>
      (d, (fst w, snd (Index.handleCompleteWorkout now (p, snd w))))
  end.

Definition runAll (actions : list action) (s : state) : state :=
  foldl (λ s a, run a s) s actions.
End Run.

Definition state0 : state :=
  (WorkoutSplitManager.initDialog,
   (WorkoutSplitManager.init, LocalStorage.empty)).

(** The dialog lists between one and seven days, and every split of the
    manager, of the store and the mirror is in range. *)
Definition invariant (s : state) : Prop :=
  (1 ≤ length (WorkoutSplitManager.newSplitDays (fst s)) ≤ 7)%nat ∧
  Forall (λ s, inRange s = true) (WorkoutSplitManager.splits (fst (snd s))) ∧
  storeInRange (snd (snd s)).

End Machine.

(** ** Vocabulary of the specification *)

Module Spec.

(** The streak tiers the specification names. *)
Inductive Tier := base | gettingStarted | momentum | onFire | champion.

(** The tier a streak message stands for. *)
Definition messageTier (message : string) : option Tier :=
  if String.eqb message "Every Journey Begins! 🚀" then Some base
  else if String.eqb message "Getting Started! 🌟" then Some gettingStarted
  else if String.eqb message "Building Momentum! 💪" then Some momentum
  else if String.eqb message "On Fire! 🔥" then Some onFire
  else if String.eqb message "Champion Level! 🏆" then Some champion
  else None.

(** The tier a streak colour stands for. *)
Definition colorTier (color : string) : option Tier :=
  if String.eqb color "primary" then Some base
  else if String.eqb color "accent" then Some momentum
  else if String.eqb color "success" then Some onFire
  else if String.eqb color "streak-gold" then Some champion
  else None.

(** The completed sets a session holds under one exercise name, in the
    order [saveWorkoutSession] visits them. *)
Definition completedSetsOf (name : string) (session : WorkoutSession.t)
    : list SessionSet.t :=
  concat
    (map (λ exercise,
            if String.eqb (SessionExercise.name exercise) name
            then filter (λ set, SessionSet.completed set = true)
                        (SessionExercise.sets exercise)
            else [])
         (WorkoutSession.exercises session)).

End Spec.

(** ** Concrete runs *)

Module Scenario.

(** The store once the split manager was opened on a fresh profile: the
    default splits are stored, split "1" is active and mirrored. *)
Definition manager0 : WorkoutSplitManager.t * LocalStorage.t :=
  WorkoutSplitManager.loadSplits
    (WorkoutSplitManager.init, LocalStorage.empty).

Definition store0 : LocalStorage.t := snd manager0.

Definition index0 : Index.t := Index.mk Index.View.workout "Push".

(** A Push workout in which one set of bench press, 100 x 5, is done. *)
Definition benchPress : TExercise.t :=
  TExercise.mk "bench-press" "Bench Press"
    [ TSet.mk "set-0-0" 100 5 true; TSet.mk "set-0-1" 0 0 false ]
    4 None None.

Definition tracker0 : WorkoutTracker.t :=
  WorkoutTracker.mk "Push" [benchPress] 0 0 false "session-1700000000000".

Definition date0 : string := "2024-01-01T10:00:00.000Z".

(** Finalising [tracker0] under [Index]. *)
Definition finalized : (Index.t * LocalStorage.t) * list Effect :=
  WorkoutTracker.saveWorkout date0 date0 (Index.handleCompleteWorkout date0)
    tracker0 (index0, store0).

(** The same workout finalised by the first tracker. *)
Definition finalizedLegacy : (Index.t * LocalStorage.t) * list Effect :=
  LegacyWorkoutTracker.saveWorkout date0 (Index.handleCompleteWorkout date0)
    [benchPress] (index0, store0).

(** The exercise manager of "Push", its template loaded from a store in
    which the user has removed lateral raises from that template. *)
Definition pushManager0 : ExerciseManager.t * LocalStorage.t :=
  let '(template, st) := storage.getWorkoutTemplate "Push" LocalStorage.empty in
  fst (ExerciseManager.deleteExercise 1700000000000 "lateral-raises"
         (ExerciseManager.mk "Push" template, st)).

(** A session whose last completed set of an exercise is lighter than
    an earlier one. *)
Definition dropSetSession : WorkoutSession.t :=
  WorkoutSession.mk "session-1" date0 "Push"
    [ SessionExercise.mk "bench-press" "Bench Press"
        [ SessionSet.mk 100 5 true; SessionSet.mk 80 8 true;
          SessionSet.mk 60 0 false ] ]
    true.

(** The first default split. *)
Definition split1 : WorkoutSplit.t :=
  WorkoutSplit.mk "1" "Push/Pull/Legs"
    ["Push"; "Pull"; "Legs"; "Rest"; "Push"; "Pull"; "Legs"] (Some 0%Z) None.

(** A split manager holding a single split, which is active. *)
Definition onlySplit : WorkoutSplit.t :=
  WorkoutSplit.mk "1" "Push/Pull/Legs" ["Push"; "Pull"; "Legs"] (Some 0%Z) None.

Definition single : WorkoutSplitManager.t * LocalStorage.t :=
  WorkoutSplitManager.loadSplits
    (WorkoutSplitManager.init,
     storage.saveWorkoutSplits [onlySplit] LocalStorage.empty).

(** [tracker0] once 100 and 5 are entered in the second row. *)
Definition tracker1 : WorkoutTracker.t :=
  WorkoutTracker.mk "Push"
    [ TExercise.mk "bench-press" "Bench Press"
        [ TSet.mk "set-0-0" 100 5 true; TSet.mk "set-0-1" 100 5 false ]
        4 None None ]
    0 0 false "session-1700000000000".

(** A workout of three exercises, the second one shown. *)
Definition tracker3 : WorkoutTracker.t :=
  WorkoutTracker.mk "Push"
    [ benchPress;
      TExercise.mk "overhead-press" "Overhead Press"
        [ TSet.mk "set-1-0" 0 0 false ] 3 None None;
      TExercise.mk "tricep-dips" "Tricep Dips"
        [ TSet.mk "set-2-0" 0 0 false ] 3 None None ]
    1 0 false "session-1700000000000".

(** A store that holds two sessions, and the first of them saved
    anew. *)
Definition legSession : WorkoutSession.t :=
  WorkoutSession.mk "session-2" date0 "Legs"
    [ SessionExercise.mk "squats" "Squats" [ SessionSet.mk 120 5 true ] ]
    true.

Definition twoSessions : LocalStorage.t :=
  storage.saveWorkoutSession legSession
    (storage.saveWorkoutSession dropSetSession LocalStorage.empty).

Definition dropSetSession' : WorkoutSession.t :=
  WorkoutSession.mk "session-1" "2024-01-01T10:30:00.000Z" "Push"
    [ SessionExercise.mk "bench-press" "Bench Press"
        [ SessionSet.mk 100 5 true; SessionSet.mk 80 8 true;
          SessionSet.mk 60 10 true ] ]
    true.

(** A store in which the first tracker has left six lifts. *)
Definition sixLifts : LocalStorage.t :=
  LocalStorage.set_lastWorkout_
    (list_to_map
       [ ("Bench Press"%string, History.mk (45 # 2) 12 date0);
         ("Deadlift"%string, History.mk 140 5 date0);
         ("Squats"%string, History.mk 120 5 date0);
         ("Overhead Press"%string, History.mk 50 5 date0);
         ("Pull-ups"%string, History.mk 40 8 date0);
         ("Barbell Rows"%string, History.mk 24 10 date0) ])
    LocalStorage.empty.

End Scenario.

(** * Properties *)

(** ** Lists *)

Section ListFacts.
Context {A : Type}.
Implicit Types (p : A → bool) (l : list A).

Lemma find_findIndex p l x :
  JS.find p l = Some x →
  ∃ k, JS.findIndex p l = Some k ∧ l !! k = Some x ∧ p x = true.
Proof.
  induction l as [|y l IH]; simpl; [done|].
  destruct (p y) eqn:Hy.
  - intros [= ->]. by exists 0%nat.
  - intros H. destruct (IH H) as (k & Hk & Hl & Hp).
    exists (S k). by rewrite Hk.
Qed.

Lemma findIndex_None_find p l :
  JS.find p l = None → JS.findIndex p l = None.
Proof.
  induction l as [|y l IH]; simpl; [done|].
  destruct (p y); [done|]. intros H. by rewrite (IH H).
Qed.

Lemma find_insert_findIndex p l k u :
  JS.findIndex p l = Some k → p u = true →
  JS.find p (<[k := u]> l) = Some u.
Proof.
  revert k. induction l as [|y l IH]; intros k; simpl; [done|].
  destruct (p y) eqn:Hy.
  - intros [= <-] Hu. simpl. by rewrite Hu.
  - destruct (JS.findIndex p l) as [j|] eqn:Hj; simpl; [|done].
    intros [= <-] Hu. simpl. rewrite Hy. by apply IH.
Qed.

Lemma find_map_replace p l x u :
  JS.find p l = Some x → p u = true →
  JS.find p (map (λ y, if p y then u else y) l) = Some u.
Proof.
  induction l as [|y l IH]; simpl; [done|].
  destruct (p y) eqn:Hy; intros H Hu.
  - by rewrite Hu.
  - rewrite Hy. by apply IH.
Qed.

Lemma imap_if_insert (f : A → A) l i x :
  l !! i = Some x →
  imap (λ k y, if Nat.eqb k i then f y else y) l = <[i := f x]> l.
Proof.
  revert i. induction l as [|y l IH]; intros i; [done|].
  destruct i as [|i]; simpl.
  - intros [= ->]. f_equal.
    clear IH. induction l as [|z l IH]; [done|]; simpl. f_equal.
    rewrite <- IH at 2. apply imap_ext. by intros.
  - intros H. f_equal. rewrite <- (IH i H). apply imap_ext. by intros.
Qed.
End ListFacts.

(** ** The store: what each method leaves alone *)

Section StoreFacts.
Import LocalStorage.
Implicit Types (st : LocalStorage.t).

Lemma recordSets_shape name date sets st :
  storage.recordSets name date sets st
  = set_exercise_ (App.recordedSets name date sets (exercise_ st)) st.
Proof.
  unfold storage.recordSets, App.recordedSets.
  revert st. induction sets as [|s sets IH]; intros st; simpl.
  - by destruct st.
  - rewrite IH. by destruct (SessionSet.completed s), st.
Qed.

Lemma saveWorkoutSession_exercise_ session st :
  exercise_ (storage.saveWorkoutSession session st)
  = App.recordedSession session (exercise_ st).
Proof.
  unfold storage.saveWorkoutSession, App.recordedSession.
  set (st0 := set_workoutSessions _ st).
  change (exercise_ st) with (exercise_ st0). clearbody st0.
  revert st0.
  induction (WorkoutSession.exercises session) as [|e es IH]; intros st0;
    simpl; [done|].
  rewrite IH, recordSets_shape. done.
Qed.

(** [saveWorkoutSession] writes [workoutSessions] and the
    [exercise-<name>] family, nothing else. *)
Lemma saveWorkoutSession_frame session st :
  ∃ sessions,
    storage.saveWorkoutSession session st
    = set_exercise_ (App.recordedSession session (exercise_ st))
        (set_workoutSessions (Some sessions) st).
Proof.
  unfold storage.saveWorkoutSession, App.recordedSession.
  match goal with |- context [set_workoutSessions (Some ?s) st] =>
    exists s; set (st0 := set_workoutSessions (Some s) st) end.
  change (exercise_ st) with (exercise_ st0).
  cut (∀ es st1,
         foldl (λ st exercise,
                  storage.recordSets (SessionExercise.name exercise)
                    (WorkoutSession.date session)
                    (SessionExercise.sets exercise) st) st1 es
         = set_exercise_
             (foldl (λ m exercise,
                       App.recordedSets (SessionExercise.name exercise)
                         (WorkoutSession.date session)
                         (SessionExercise.sets exercise) m)
                    (exercise_ st1) es) st1).
  { intros H. apply H. }
  induction es as [|e es IH]; intros st1; simpl.
  - by destruct st1.
  - rewrite IH, recordSets_shape. by destruct st1.
Qed.

Lemma updateSplit_found (u : WorkoutSplit.t) st l k :
  workoutSplits st = Some l →
  JS.findIndex (λ s, String.eqb (WorkoutSplit.id s) (WorkoutSplit.id u)) l
    = Some k →
  storage.updateSplit u st
  = (if bool_decide (activeSplit st = Some (WorkoutSplit.id u))
     then set_workoutSplit (Some u) else (λ s, s))
      (set_workoutSplits (Some (<[k := u]> l)) st).
Proof.
  intros Hl Hk. unfold storage.updateSplit, storage.getWorkoutSplits.
  rewrite Hl, Hk. simpl.
  destruct (activeSplit st) as [a|] eqn:Ha.
  - destruct (String.eqb_spec a (WorkoutSplit.id u)) as [->|Hne].
    + by rewrite bool_decide_eq_true_2.
    + rewrite bool_decide_eq_false_2; [done|]. by intros [= ?].
  - by rewrite bool_decide_eq_false_2.
Qed.

Lemma getActiveSplit_found st l a s :
  workoutSplits st = Some l → activeSplit st = Some a →
  JS.find (λ s, String.eqb (WorkoutSplit.id s) a) l = Some s →
  a ≠ ""%string →
  storage.getActiveSplit st = (Some s, st).
Proof.
  intros Hl Ha Hs Hne. unfold storage.getActiveSplit, storage.getWorkoutSplits.
  rewrite Ha, Hl. destruct a; [done|]. simpl. by rewrite Hs.
Qed.
End StoreFacts.

(** ** The day index of a split *)

Section Advance.

Lemma nextDay_mod (n : nat) (i : Z) :
  (1 ≤ n)%nat → (0 ≤ i)%Z →
  JS.nextDay (Some i) n = Some ((i + 1) mod Z.of_nat n)%Z.
Proof.
  intros Hn Hi. destruct n as [|n]; [lia|]. unfold JS.nextDay. simpl default.
  f_equal. apply Z.rem_mod_nonneg; lia.
Qed.

(** What [skipDay] leaves in the manager's list. *)
Lemma skipDay_component (splitId : string) m st (s : WorkoutSplit.t) :
  JS.find (λ s, String.eqb (WorkoutSplit.id s) splitId)
          (WorkoutSplitManager.splits m) = Some s →
  JS.find (λ s, String.eqb (WorkoutSplit.id s) splitId)
          (WorkoutSplitManager.splits
             (fst (fst (WorkoutSplitManager.skipDay splitId (m, st)))))
  = Some (WorkoutSplit.with_currentDay
            (JS.nextDay (WorkoutSplit.currentDay s)
                        (length (WorkoutSplit.days s))) s).
Proof.
  intros Hs. unfold WorkoutSplitManager.skipDay. rewrite Hs. simpl.
  apply (find_map_replace _ _ s); [done|].
  simpl. by destruct (find_findIndex _ _ _ Hs) as (_ & _ & _ & ?).
Qed.

(** What [skipDay] leaves in the stored list. *)
Lemma skipDay_stored (splitId : string) m st l (s : WorkoutSplit.t) :
  JS.find (λ s, String.eqb (WorkoutSplit.id s) splitId)
          (WorkoutSplitManager.splits m) = Some s →
  LocalStorage.workoutSplits st = Some l →
  JS.find (λ s, String.eqb (WorkoutSplit.id s) splitId) l ≠ None →
  ∃ l',
    LocalStorage.workoutSplits
      (snd (fst (WorkoutSplitManager.skipDay splitId (m, st)))) = Some l' ∧
    JS.find (λ s, String.eqb (WorkoutSplit.id s) splitId) l'
    = Some (WorkoutSplit.with_currentDay
              (JS.nextDay (WorkoutSplit.currentDay s)
                          (length (WorkoutSplit.days s))) s).
Proof.
  intros Hs Hl Hf. unfold WorkoutSplitManager.skipDay. rewrite Hs. simpl.
  destruct (JS.find _ l) as [s0|] eqn:Hs0; [clear Hf|done].
  destruct (find_findIndex _ _ _ Hs) as (_ & _ & _ & Hid).
  apply String.eqb_eq in Hid.
  destruct (find_findIndex _ _ _ Hs0) as (k & Hk & _ & _).
  set (u := WorkoutSplit.with_currentDay _ s).
  assert (Hu : WorkoutSplit.id u = splitId) by done.
  rewrite (updateSplit_found u st l k Hl) by (by rewrite Hu).
  exists (<[k := u]> l). split.
  - by destruct (bool_decide _).
  - apply find_insert_findIndex; [done|]. rewrite Hu. apply String.eqb_refl.
Qed.

End Advance.

(** ** Finalising a session *)

Section Finalize.
Import LocalStorage.

Ltac crush_store st :=
  destruct st; simpl in *; repeat (case_match; simpl in *; simplify_eq);
  try done.

(** The streak goes up by one, whatever the session holds. *)
Lemma saveWorkout_streak date date' date'' tr p st :
  workoutStreak (App.finalStore date date' date'' tr p st)
  = Some (storage.getStreak st + 1)%Z.
Proof.
  unfold App.finalStore, WorkoutTracker.saveWorkout.
  destruct (saveWorkoutSession_frame (WorkoutTracker.sessionOf date tr) st)
    as [S ->].
  unfold storage.updateStreak, storage.getStreak, storage.getActiveSplit,
    storage.updateSplit, storage.getWorkoutSplits, storage.clearAutoSave,
    storage.saveWorkoutSplits, Index.handleCompleteWorkout.
  crush_store st.
Qed.

(** The [lastWorkout-<name>] family is not written. *)
Lemma saveWorkout_lastWorkout_ date date' date'' tr p st :
  lastWorkout_ (App.finalStore date date' date'' tr p st) = lastWorkout_ st.
Proof.
  unfold App.finalStore, WorkoutTracker.saveWorkout.
  destruct (saveWorkoutSession_frame (WorkoutTracker.sessionOf date tr) st)
    as [S ->].
  unfold storage.updateStreak, storage.getStreak, storage.getActiveSplit,
    storage.updateSplit, storage.getWorkoutSplits, storage.clearAutoSave,
    storage.saveWorkoutSplits, Index.handleCompleteWorkout.
  crush_store st.
Qed.

(** The store after a session of the active split [s], which is at
    position [k] of the stored list: each write of [saveWorkout] and of
    [handleCompleteWorkout], in order. *)
Lemma finalStore_active date date' date'' tr p st l a s k :
  workoutSplits st = Some l → activeSplit st = Some a → a ≠ ""%string →
  JS.find (λ s, String.eqb (WorkoutSplit.id s) a) l = Some s →
  JS.findIndex (λ s, String.eqb (WorkoutSplit.id s) a) l = Some k →
  let n := length (WorkoutSplit.days s) in
  let u := WorkoutSplit.with_currentDay_date
             (JS.nextDay (WorkoutSplit.currentDay s) n) date' s in
  let u' := WorkoutSplit.with_currentDay_date
              (JS.nextDay (WorkoutSplit.currentDay u) n) date'' u in
  App.finalStore date date' date'' tr p st
  = set_workoutSplit (Some u')
      (storage.clearAutoSave ("workout-" +:+ WorkoutTracker.workoutType tr)
         (set_workoutSplit (Some u)
            (set_workoutSplits (Some (<[k := u]> l))
               (storage.updateStreak
                  (storage.saveWorkoutSession
                     (WorkoutTracker.sessionOf date tr) st))))).
Proof.
  intros Hl Ha Hne Hs Hk n u u'.
  destruct (find_findIndex _ _ _ Hs) as (_ & _ & _ & Hid).
  apply String.eqb_eq in Hid.
  assert (Hu : WorkoutSplit.id u = a) by done.
  unfold App.finalStore, WorkoutTracker.saveWorkout.
  set (st1 := storage.updateStreak _).
  assert (Hl1 : workoutSplits st1 = Some l ∧ activeSplit st1 = Some a).
  { subst st1.
    destruct (saveWorkoutSession_frame (WorkoutTracker.sessionOf date tr) st)
      as [S ->].
    by destruct st. }
  destruct Hl1 as [Hl1 Ha1].
  rewrite (getActiveSplit_found st1 l a s Hl1 Ha1 Hs Hne).
  fold n. fold u.
  rewrite (updateSplit_found u st1 l k Hl1) by (by rewrite Hu).
  rewrite bool_decide_eq_true_2 by (by rewrite Hu).
  done.
Qed.

(** The split list and its mirror after a session of the active split
    [s]: the list holds [s] advanced once, the mirror [s] advanced
    twice. *)
Lemma saveWorkout_splits date date' date'' tr p st l a s :
  workoutSplits st = Some l → activeSplit st = Some a → a ≠ ""%string →
  JS.find (λ s, String.eqb (WorkoutSplit.id s) a) l = Some s →
  let n := length (WorkoutSplit.days s) in
  let u := WorkoutSplit.with_currentDay_date
             (JS.nextDay (WorkoutSplit.currentDay s) n) date' s in
  let u' := WorkoutSplit.with_currentDay_date
              (JS.nextDay (WorkoutSplit.currentDay u) n) date'' u in
  let st' := App.finalStore date date' date'' tr p st in
  (∃ k, JS.findIndex (λ s, String.eqb (WorkoutSplit.id s) a) l = Some k ∧
        workoutSplits st' = Some (<[k := u]> l)) ∧
  JS.find (λ s, String.eqb (WorkoutSplit.id s) a)
          (default [] (workoutSplits st')) = Some u ∧
  workoutSplit st' = Some u' ∧
  activeSplit st' = Some a.
Proof.
  intros Hl Ha Hne Hs n u u' st'.
  destruct (find_findIndex _ _ _ Hs) as (k & Hk & _ & Hid).
  apply String.eqb_eq in Hid.
  subst st'.
  rewrite (finalStore_active date date' date'' tr p st l a s k Hl Ha Hne Hs Hk).
  fold n. fold u. fold u'. simpl. repeat split.
  - by exists k.
  - apply find_insert_findIndex; [done|].
    change (WorkoutSplit.id u) with (WorkoutSplit.id s). rewrite Hid.
    apply String.eqb_refl.
  - destruct (saveWorkoutSession_frame (WorkoutTracker.sessionOf date tr) st)
      as [S ->].
    by destruct st.
Qed.

End Finalize.

(** ** C5 and C1: advancing the day *)

Section Days.
Import LocalStorage.

(** [k] skips of a split that the manager and the store hold alike. *)
Lemma skipDay_iter (splitId : string) (n : nat) (i : Z) m st l
    (s : WorkoutSplit.t) (k : nat) :
  (1 ≤ n)%nat → (0 ≤ i < Z.of_nat n)%Z →
  JS.find (λ s, String.eqb (WorkoutSplit.id s) splitId)
          (WorkoutSplitManager.splits m) = Some s →
  workoutSplits st = Some l →
  JS.find (λ s, String.eqb (WorkoutSplit.id s) splitId) l = Some s →
  WorkoutSplit.currentDay s = Some i →
  length (WorkoutSplit.days s) = n →
  let w := Nat.iter k (λ w, fst (WorkoutSplitManager.skipDay splitId w))
                    (m, st) in
  let s' := WorkoutSplit.with_currentDay
              (Some ((i + Z.of_nat k) mod Z.of_nat n)%Z) s in
  JS.find (λ s, String.eqb (WorkoutSplit.id s) splitId)
          (WorkoutSplitManager.splits (fst w)) = Some s' ∧
  JS.find (λ s, String.eqb (WorkoutSplit.id s) splitId)
          (default [] (workoutSplits (snd w))) = Some s'.
Proof.
  intros Hn Hi Hm Hl Hs Hd Hlen. induction k as [|k IH].
  - simpl. rewrite Hl. simpl. rewrite Z.add_0_r, Z.mod_small by lia.
    assert (WorkoutSplit.with_currentDay (Some i) s = s) as ->
      by (destruct s; simpl in *; by subst).
    done.
  - destruct IH as [IHm IHs].
    change (Nat.iter (S k) ?f ?x) with (f (Nat.iter k f x)).
    destruct (Nat.iter k _ (m, st)) as [mk stk]. cbn [fst snd] in IHm, IHs.
    destruct (workoutSplits stk) as [lk|] eqn:Hlk; [|done]. simpl in IHs.
    set (sk := WorkoutSplit.with_currentDay _ s) in *.
    assert (Hnext : WorkoutSplit.with_currentDay
                      (JS.nextDay (WorkoutSplit.currentDay sk)
                                  (length (WorkoutSplit.days sk))) sk
                    = WorkoutSplit.with_currentDay
                        (Some ((i + Z.of_nat (S k)) mod Z.of_nat n)%Z) s).
    { subst sk. simpl. rewrite Hlen.
      rewrite nextDay_mod by (try apply Z.mod_pos_bound; lia).
      unfold WorkoutSplit.with_currentDay. simpl. do 2 f_equal.
      rewrite Zplus_mod_idemp_l. f_equal. lia. }
    split.
    + rewrite (skipDay_component splitId mk stk sk IHm). by rewrite Hnext.
    + destruct (skipDay_stored splitId mk stk lk sk IHm Hlk)
        as (l' & Hl' & Hf); [by rewrite IHs|].
      rewrite Hl'. simpl. rewrite Hf. by rewrite Hnext.
Qed.

(** [k] sessions of the active split finalised. *)
Lemma finalStore_iter date date' date'' tr p (n : nat) (i : Z) st l a
    (s : WorkoutSplit.t) (k : nat) :
  (1 ≤ n)%nat → (0 ≤ i < Z.of_nat n)%Z →
  workoutSplits st = Some l → activeSplit st = Some a → a ≠ ""%string →
  JS.find (λ s, String.eqb (WorkoutSplit.id s) a) l = Some s →
  WorkoutSplit.currentDay s = Some i →
  length (WorkoutSplit.days s) = n →
  let st' := Nat.iter k (App.finalStore date date' date'' tr p) st in
  activeSplit st' = Some a ∧
  ∃ s',
    JS.find (λ s, String.eqb (WorkoutSplit.id s) a)
            (default [] (workoutSplits st')) = Some s' ∧
    WorkoutSplit.currentDay s'
    = Some ((i + Z.of_nat k) mod Z.of_nat n)%Z ∧
    WorkoutSplit.days s' = WorkoutSplit.days s ∧
    WorkoutSplit.id s' = WorkoutSplit.id s ∧
    WorkoutSplit.name s' = WorkoutSplit.name s.
Proof.
  intros Hn Hi Hl Ha Hne Hs Hd Hlen. induction k as [|k IH].
  - simpl. rewrite Hl. split; [done|]. exists s. simpl.
    rewrite Z.add_0_r, Z.mod_small by lia. done.
  - destruct IH as (IHa & sk & IHs & IHd & IHdays & IHid & IHname).
    change (Nat.iter (S k) ?f ?x) with (f (Nat.iter k f x)).
    set (stk := Nat.iter k _ st) in *.
    destruct (workoutSplits stk) as [lk|] eqn:Hlk; [|done]. simpl in IHs.
    destruct (saveWorkout_splits date date' date'' tr p stk lk a sk
                Hlk IHa Hne IHs) as (_ & Hf & _ & Hact).
    split; [exact Hact|]. eexists. split; [exact Hf|]. simpl.
    rewrite IHd, IHdays, Hlen.
    rewrite nextDay_mod by (try apply Z.mod_pos_bound; lia).
    split; [|done]. f_equal. rewrite Zplus_mod_idemp_l. f_equal. lia.
Qed.

(** What it is for a day index, as it stands after 0, 1, 2, ...
    advances, to cycle from [i] through the [n] days. *)
Lemma cycle_facts (n : nat) (i : Z) (day : nat → option (option Z)) :
  (1 ≤ n)%nat → (0 ≤ i < Z.of_nat n)%Z →
  (∀ k, day k = Some (Some ((i + Z.of_nat k) mod Z.of_nat n)%Z)) →
  (∀ k, ∃ j, day k = Some (Some j) ∧ (0 ≤ j < Z.of_nat n)%Z) ∧
  day n = Some (Some i) ∧
  (∀ k, (0 < k < n)%nat → day k ≠ Some (Some i)) ∧
  (i = 0%Z → ∀ k, (k < n)%nat → day k = Some (Some (Z.of_nat k))).
Proof.
  intros Hn Hi Hday. split; [|split; [|split]].
  - intros k. eexists. split; [apply Hday|]. apply Z.mod_pos_bound. lia.
  - rewrite Hday. do 2 f_equal.
    rewrite <- (Z.mul_1_l (Z.of_nat n)) at 1.
    rewrite Z.mod_add by lia. apply Z.mod_small. lia.
  - intros k Hk. rewrite Hday. intros [= He].
    destruct (Z.lt_ge_cases (i + Z.of_nat k) (Z.of_nat n)) as [Hlt|Hge].
    + rewrite Z.mod_small in He by lia. lia.
    + replace (i + Z.of_nat k)%Z
        with (i + Z.of_nat k - Z.of_nat n + 1 * Z.of_nat n)%Z in He by lia.
      rewrite Z.mod_add in He by lia. rewrite Z.mod_small in He by lia. lia.
  - intros -> k Hk. rewrite Hday. do 2 f_equal.
    rewrite Z.add_0_l. apply Z.mod_small. lia.
Qed.

(** C5.  In a split of [n ≥ 1] days whose index [i] is in [0, n), each
    advance, by the skip-day control or by finalising a session of the
    active split, moves the index the store holds (and, for a skip, the
    one the manager shows) from its value to that value plus 1 modulo
    [n]: after [k] advances it is [(i + k) mod n], so it is in [0, n)
    after any number of them, it is back at [i] after exactly [n] and
    not before, and from 0 it runs through 1, ..., n - 1.  An advance
    changes nothing else of the split. *)
Theorem advance_cycles (n : nat) (i : Z) :
  (1 ≤ n)%nat → (0 ≤ i < Z.of_nat n)%Z →
  let cycles (day : nat → option (option Z)) :=
    (∀ k, day k = Some (Some ((i + Z.of_nat k) mod Z.of_nat n)%Z)) ∧
    (∀ k, ∃ j, day k = Some (Some j) ∧ (0 ≤ j < Z.of_nat n)%Z) ∧
    day 1%nat = Some (Some ((i + 1) mod Z.of_nat n)%Z) ∧
    day n = Some (Some i) ∧
    (∀ k, (0 < k < n)%nat → day k ≠ Some (Some i)) ∧
    (i = 0%Z → ∀ k, (k < n)%nat → day k = Some (Some (Z.of_nat k))) in
  (∀ splitId m st l s,
      JS.find (λ s, String.eqb (WorkoutSplit.id s) splitId)
              (WorkoutSplitManager.splits m) = Some s →
      workoutSplits st = Some l →
      JS.find (λ s, String.eqb (WorkoutSplit.id s) splitId) l = Some s →
      WorkoutSplit.currentDay s = Some i →
      length (WorkoutSplit.days s) = n →
      let after k :=
        Nat.iter k (λ w, fst (WorkoutSplitManager.skipDay splitId w))
                 (m, st) in
      let shown k :=
        JS.find (λ s, String.eqb (WorkoutSplit.id s) splitId)
                (WorkoutSplitManager.splits (fst (after k))) in
      let stored k :=
        JS.find (λ s, String.eqb (WorkoutSplit.id s) splitId)
                (default [] (workoutSplits (snd (after k)))) in
      cycles (λ k, WorkoutSplit.currentDay <$> stored k) ∧
      cycles (λ k, WorkoutSplit.currentDay <$> shown k) ∧
      ∀ k, stored k = shown k ∧
           WorkoutSplit.with_currentDay (Some i) <$> stored k = Some s) ∧
  (∀ date date' date'' tr p st l a s,
      workoutSplits st = Some l → activeSplit st = Some a → a ≠ ""%string →
      JS.find (λ s, String.eqb (WorkoutSplit.id s) a) l = Some s →
      WorkoutSplit.currentDay s = Some i →
      length (WorkoutSplit.days s) = n →
      let stored k :=
        JS.find (λ s, String.eqb (WorkoutSplit.id s) a)
                (default []
                   (workoutSplits
                      (Nat.iter k (App.finalStore date date' date'' tr p)
                                st))) in
      cycles (λ k, WorkoutSplit.currentDay <$> stored k) ∧
      ∀ k, WorkoutSplit.days <$> stored k = Some (WorkoutSplit.days s) ∧
           WorkoutSplit.id <$> stored k = Some (WorkoutSplit.id s) ∧
           WorkoutSplit.name <$> stored k = Some (WorkoutSplit.name s)).
Proof.
  intros Hn Hi cycles.
  assert (Hcycles : ∀ day,
            (∀ k, day k = Some (Some ((i + Z.of_nat k) mod Z.of_nat n)%Z)) →
            cycles day).
  { intros day Hday.
    destruct (cycle_facts n i day Hn Hi Hday) as (H1 & H2 & H3 & H4).
    split; [done|]. split; [done|]. split; [by rewrite Hday|].
    split; [done|]. split; done. }
  split.
  - intros splitId m st l s Hm Hl Hs Hd Hlen after shown stored.
    assert (Hk : ∀ k,
              shown k = Some (WorkoutSplit.with_currentDay
                                (Some ((i + Z.of_nat k) mod Z.of_nat n)%Z) s) ∧
              stored k = Some (WorkoutSplit.with_currentDay
                                 (Some ((i + Z.of_nat k) mod Z.of_nat n)%Z) s))
      by (intros k; exact (skipDay_iter splitId n i m st l s k
                             Hn Hi Hm Hl Hs Hd Hlen)).
    split; [|split].
    + apply Hcycles. intros k. by rewrite (proj2 (Hk k)).
    + apply Hcycles. intros k. by rewrite (proj1 (Hk k)).
    + intros k. rewrite (proj1 (Hk k)), (proj2 (Hk k)). split; [done|].
      simpl. f_equal. destruct s; simpl in *; by subst.
  - intros date date' date'' tr p st l a s Hl Ha Hne Hs Hd Hlen stored.
    assert (Hk : ∀ k, ∃ s',
              stored k = Some s' ∧
              WorkoutSplit.currentDay s'
              = Some ((i + Z.of_nat k) mod Z.of_nat n)%Z ∧
              WorkoutSplit.days s' = WorkoutSplit.days s ∧
              WorkoutSplit.id s' = WorkoutSplit.id s ∧
              WorkoutSplit.name s' = WorkoutSplit.name s).
    { intros k.
      destruct (finalStore_iter date date' date'' tr p n i st l a s k
                  Hn Hi Hl Ha Hne Hs Hd Hlen) as (_ & s' & H).
      by exists s'. }
    split.
    + apply Hcycles. intros k.
      destruct (Hk k) as (s' & -> & Hd' & _). simpl. by rewrite Hd'.
    + intros k. destruct (Hk k) as (s' & -> & _ & Hdays & Hid & Hname).
      simpl. by rewrite Hdays, Hid, Hname.
Qed.

Lemma advance_cycles_witness :
  WorkoutSplit.currentDay
    <$> JS.find (λ s, String.eqb (WorkoutSplit.id s) "1")
          (default []
             (workoutSplits
                (snd (Nat.iter 7
                        (λ w, fst (WorkoutSplitManager.skipDay "1" w))
                        Scenario.manager0))))
  = Some (Some 0%Z) ∧
  WorkoutSplit.currentDay
    <$> JS.find (λ s, String.eqb (WorkoutSplit.id s) "1")
          (default []
             (workoutSplits
                (Nat.iter 3
                   (App.finalStore Scenario.date0 Scenario.date0
                      Scenario.date0 Scenario.tracker0 Scenario.index0)
                   Scenario.store0)))
  = Some (Some 3%Z).
Proof.
  destruct (advance_cycles 7 0 ltac:(lia) ltac:(lia)) as [Hskip Hsave].
  destruct (Hskip "1"%string (fst Scenario.manager0) (snd Scenario.manager0)
              storage.defaultSplits Scenario.split1
              eq_refl eq_refl eq_refl eq_refl eq_refl)
    as ((_ & _ & _ & H7 & _) & _).
  destruct (Hsave Scenario.date0 Scenario.date0 Scenario.date0
              Scenario.tracker0 Scenario.index0 Scenario.store0
              storage.defaultSplits "1"%string Scenario.split1
              eq_refl eq_refl ltac:(discriminate) eq_refl eq_refl eq_refl)
    as ((_ & _ & _ & _ & _ & H3) & _).
  split; [exact H7|]. exact (H3 eq_refl 3%nat ltac:(lia)).
Defined.

(** The canonical entry is one day ahead and the mirror two days ahead
    after one session of the active split. *)
Lemma saveWorkout_mirror_two_ahead date date' date'' tr p st l a s n i :
  workoutSplits st = Some l → activeSplit st = Some a → a ≠ ""%string →
  JS.find (λ s, String.eqb (WorkoutSplit.id s) a) l = Some s →
  WorkoutSplit.currentDay s = Some i → length (WorkoutSplit.days s) = n →
  (1 ≤ n)%nat → (0 ≤ i < Z.of_nat n)%Z →
  let st' := App.finalStore date date' date'' tr p st in
  WorkoutSplit.currentDay
    <$> JS.find (λ s, String.eqb (WorkoutSplit.id s) a)
                (default [] (workoutSplits st'))
  = Some (Some ((i + 1) mod Z.of_nat n)%Z) ∧
  WorkoutSplit.currentDay <$> workoutSplit st'
  = Some (Some ((i + 2) mod Z.of_nat n)%Z).
Proof.
  intros Hl Ha Hne Hs Hd Hlen Hn Hi st'.
  destruct (saveWorkout_splits date date' date'' tr p st l a s Hl Ha Hne Hs)
    as (_ & Hc & Hm & _).
  fold st' in Hc, Hm. rewrite Hc, Hm. simpl. rewrite Hd, Hlen.
  rewrite !nextDay_mod by (try apply Z.mod_pos_bound; lia).
  split; [done|]. do 2 f_equal.
  rewrite Zplus_mod_idemp_l. f_equal; lia.
Qed.

(** C1.  On a fresh profile with the default split "1" (seven days)
    active at day 0, finalising a Push session with one exercise raises
    the streak from 0 to 1 and moves the stored split "1" to day 1, but
    leaves the [workoutSplit] mirror at day 2: [updateSplit] has
    already written the advanced split to the mirror when [onComplete]
    advances the mirror once more. *)
Theorem saveWorkout_mirror_double_advance :
  let st' := snd (fst Scenario.finalized) in
  storage.getStreak Scenario.store0 = 0%Z ∧
  storage.getStreak st' = 1%Z ∧
  WorkoutSplit.currentDay <$> workoutSplit Scenario.store0
    = Some (Some 0%Z) ∧
  WorkoutSplit.currentDay
    <$> JS.find (λ s, String.eqb (WorkoutSplit.id s) "1")
                (default [] (workoutSplits st'))
    = Some (Some 1%Z) ∧
  WorkoutSplit.currentDay <$> workoutSplit st' = Some (Some 2%Z).
Proof. vm_compute. by repeat split. Qed.

End Days.

(** ** C7: the auto-save slot *)

Section AutoSave.
Import LocalStorage.

(** C7.  After [autoSave key data] at time [t0], [getAutoSave key] at
    time [t] gives the payload when [t - t0] is under 24 hours and
    nothing otherwise, so nothing at exactly 24 hours and at 24 hours
    and 1 ms; it gives nothing for a key that holds no auto-save. *)
Theorem getAutoSave_window (key : string) (data : Payload) (t0 t : Z)
    (st : LocalStorage.t) :
  ((t - t0 < 86400000)%Z →
     storage.getAutoSave key t (storage.autoSave key data t0 st)
     = Some data) ∧
  ((86400000 ≤ t - t0)%Z →
     storage.getAutoSave key t (storage.autoSave key data t0 st) = None) ∧
  storage.getAutoSave key (t0 + 86400000) (storage.autoSave key data t0 st)
    = None ∧
  storage.getAutoSave key (t0 + 86400001) (storage.autoSave key data t0 st)
    = None ∧
  storage.getAutoSave key (t0 + 86399999) (storage.autoSave key data t0 st)
    = Some data ∧
  (autosave_ st !! key = None → storage.getAutoSave key t st = None).
Proof.
  assert (H : ∀ t', storage.getAutoSave key t'
                      (storage.autoSave key data t0 st)
                    = if (t' - t0 <? 86400000)%Z then Some data else None).
  { intros t'. unfold storage.getAutoSave, storage.autoSave. simpl.
    by rewrite lookup_insert_eq. }
  rewrite !H. repeat split.
  - intros Ht. by rewrite (proj2 (Z.ltb_lt _ _)).
  - intros Ht. by rewrite (proj2 (Z.ltb_ge _ _)).
  - rewrite (proj2 (Z.ltb_ge _ _)); [done|lia].
  - rewrite (proj2 (Z.ltb_ge _ _)); [done|lia].
  - rewrite (proj2 (Z.ltb_lt _ _)); [done|lia].
  - intros Hk. unfold storage.getAutoSave. by rewrite Hk.
Qed.

Lemma getAutoSave_window_witness :
  storage.getAutoSave "workout-Push" 1700000060000
    (storage.autoSave "workout-Push" (PWorkout [] 0 "session-1")
       1700000000000 LocalStorage.empty)
  = Some (PWorkout [] 0 "session-1") ∧
  storage.getAutoSave "workout-Push" 1700086400000
    (storage.autoSave "workout-Push" (PWorkout [] 0 "session-1")
       1700000000000 LocalStorage.empty)
  = None ∧
  storage.getAutoSave "workout-Push" 1700000060000 LocalStorage.empty = None.
Proof.
  destruct (getAutoSave_window "workout-Push" (PWorkout [] 0 "session-1")
              1700000000000 1700000060000 LocalStorage.empty)
    as (Hin & _ & _ & _ & _ & Hnone).
  destruct (getAutoSave_window "workout-Push" (PWorkout [] 0 "session-1")
              1700000000000 1700086400000 LocalStorage.empty)
    as (_ & Hout & _).
  split; [apply Hin; lia|]. split; [apply Hout; lia|].
  apply Hnone. reflexivity.
Defined.

End AutoSave.

(** ** C9: streak tiers *)

Section Streak.
Import ProgressTracker.

(** A streak of 6 gets the message of the tier that starts at 3, not
    the base message. *)
Lemma streak6_message_not_base :
  Spec.messageTier (getStreakMessage (mk 6 0 [])) = Some Spec.gettingStarted ∧
  Spec.messageTier (getStreakMessage (mk 6 0 [])) ≠ Some Spec.base ∧
  Spec.messageTier (getStreakMessage (mk 2 0 [])) = Some Spec.base.
Proof. vm_compute. by repeat split. Qed.

(** C9, amended.  The colour has four tiers and the message five: a
    streak of 6 has the base colour and the "getting started" message
    (the base message ends below 3); 7 is "momentum", 14 "on fire" and
    30 "champion" for both.  In general the tier is the highest
    threshold among 30, 14, 7 (and 3 for the message) the streak
    reaches. *)
Theorem streak_tiers (total : Z) (lifts : list (string * (Q * Z))) :
  let at_ streak := mk streak total lifts in
  Spec.colorTier (getStreakColor (at_ 6%Z)) = Some Spec.base ∧
  Spec.colorTier (getStreakColor (at_ 7%Z)) = Some Spec.momentum ∧
  Spec.colorTier (getStreakColor (at_ 14%Z)) = Some Spec.onFire ∧
  Spec.colorTier (getStreakColor (at_ 30%Z)) = Some Spec.champion ∧
  Spec.messageTier (getStreakMessage (at_ 6%Z)) = Some Spec.gettingStarted ∧
  Spec.messageTier (getStreakMessage (at_ 7%Z)) = Some Spec.momentum ∧
  Spec.messageTier (getStreakMessage (at_ 14%Z)) = Some Spec.onFire ∧
  Spec.messageTier (getStreakMessage (at_ 30%Z)) = Some Spec.champion ∧
  (∀ streak,
     Spec.colorTier (getStreakColor (at_ streak))
     = Some (if (30 <=? streak)%Z then Spec.champion
             else if (14 <=? streak)%Z then Spec.onFire
             else if (7 <=? streak)%Z then Spec.momentum
             else Spec.base)) ∧
  (∀ streak,
     Spec.messageTier (getStreakMessage (at_ streak))
     = Some (if (30 <=? streak)%Z then Spec.champion
             else if (14 <=? streak)%Z then Spec.onFire
             else if (7 <=? streak)%Z then Spec.momentum
             else if (3 <=? streak)%Z then Spec.gettingStarted
             else Spec.base)).
Proof.
  simpl. repeat split; try reflexivity.
  - intros streak. unfold getStreakColor. simpl.
    by repeat case_match.
  - intros streak. unfold getStreakMessage. simpl.
    by repeat case_match.
Qed.

End Streak.

(** ** C10: activating a split that is not stored *)

Section Activate.
Import LocalStorage.

(** On a store that holds no split list, activating an id that no split
    carries also writes a key other than the reference: the default
    split list is stored. *)
Lemma setActiveSplit_dangling_writes_list :
  let st := LocalStorage.empty in
  let st' := storage.setActiveSplit "99" st in
  JS.find (λ s, String.eqb (WorkoutSplit.id s) "99")
          (default [] (workoutSplits st)) = None ∧
  JS.find (λ s, String.eqb (WorkoutSplit.id s) "99")
          (fst (storage.getWorkoutSplits st)) = None ∧
  activeSplit st' = Some "99"%string ∧
  workoutSplits st = None ∧
  workoutSplits st' = Some storage.defaultSplits ∧
  ¬ (workoutSplit st' = workoutSplit st ∧
     workoutSplits st' = workoutSplits st ∧
     workoutTemplates st' = workoutTemplates st ∧
     workoutSessions st' = workoutSessions st ∧
     workoutStreak st' = workoutStreak st ∧
     exercise_ st' = exercise_ st ∧
     lastWorkout_ st' = lastWorkout_ st ∧
     autosave_ st' = autosave_ st).
Proof.
  repeat split; try reflexivity. by intros (_ & ? & _).
Qed.

(** C10.  When no split of the list the store holds, or of the default
    list when it holds none, has the id [splitId],
    [setActiveSplit splitId] writes [splitId] to [activeSplit]; it leaves
    the mirror and every other key as they are, except that a store
    without a split list gets the default list; the reference then
    names no stored split, and [getActiveSplit] finds none. *)
Theorem setActiveSplit_dangling (splitId : string) (st : LocalStorage.t) :
  JS.find (λ s, String.eqb (WorkoutSplit.id s) splitId)
          (fst (storage.getWorkoutSplits st)) = None →
  let st' := storage.setActiveSplit splitId st in
  activeSplit st' = Some splitId ∧
  workoutSplit st' = workoutSplit st ∧
  workoutSplits st'
  = Some (default storage.defaultSplits (workoutSplits st)) ∧
  (workoutSplits st ≠ None → st' = set_activeSplit (Some splitId) st) ∧
  workoutTemplates st' = workoutTemplates st ∧
  workoutSessions st' = workoutSessions st ∧
  workoutStreak st' = workoutStreak st ∧
  exercise_ st' = exercise_ st ∧
  lastWorkout_ st' = lastWorkout_ st ∧
  autosave_ st' = autosave_ st ∧
  JS.find (λ s, String.eqb (WorkoutSplit.id s) splitId)
          (default [] (workoutSplits st')) = None ∧
  fst (storage.getActiveSplit st') = None.
Proof.
  intros Hf st'.
  assert (Hst' : st' = match workoutSplits st with
                       | Some _ => set_activeSplit (Some splitId) st
                       | None =>
                           set_workoutSplits (Some storage.defaultSplits)
                             (set_activeSplit (Some splitId) st)
                       end).
  { subst st'. unfold storage.setActiveSplit, storage.getWorkoutSplits,
      storage.saveWorkoutSplits in *. simpl.
    destruct (workoutSplits st) as [l|]; simpl in *; by rewrite Hf. }
  rewrite Hst'. clear Hst' st'.
  unfold storage.getActiveSplit, storage.getWorkoutSplits in *.
  destruct (workoutSplits st) as [l|] eqn:Hl; simpl in *; rewrite ?Hl;
    simpl; rewrite Hf; (repeat split; try done);
    destruct (JS.truthy splitId); simpl; by rewrite ?Hf.
Qed.

Lemma setActiveSplit_dangling_witness :
  let st' := storage.setActiveSplit "99" Scenario.store0 in
  let fresh := storage.setActiveSplit "99" LocalStorage.empty in
  activeSplit st' = Some "99"%string ∧
  (WorkoutSplit.id <$> workoutSplit st') = Some "1"%string ∧
  workoutSplit st' = workoutSplit Scenario.store0 ∧
  workoutSplits st' = workoutSplits Scenario.store0 ∧
  fst (storage.getActiveSplit st') = None ∧
  activeSplit fresh = Some "99"%string ∧
  workoutSplit fresh = None ∧
  workoutSplits fresh = Some storage.defaultSplits.
Proof.
  destruct (setActiveSplit_dangling "99" Scenario.store0 eq_refl)
    as (Ha & Hm & Hl & _ & _ & _ & _ & _ & _ & _ & _ & Hg).
  destruct (setActiveSplit_dangling "99" LocalStorage.empty eq_refl)
    as (Ha0 & Hm0 & Hl0 & _).
  split; [exact Ha|]. split; [reflexivity|]. split; [exact Hm|].
  split; [exact Hl|]. split; [exact Hg|]. split; [exact Ha0|].
  split; [exact Hm0|exact Hl0].
Defined.

End Activate.

(** ** C8: the history a session leaves *)

Section HistoryFacts.
Import LocalStorage.

Lemma recordedSets_lookup name date sets (m : gmap string History.t) k :
  App.recordedSets name date sets m !! k
  = if String.eqb name k then
      match last (filter (λ set, SessionSet.completed set = true) sets) with
      | Some set => Some (History.mk (SessionSet.weight set)
                                     (SessionSet.reps set) date)
      | None => m !! k
      end
    else m !! k.
Proof.
  unfold App.recordedSets. revert m.
  induction sets as [|s sets IH]; intros m; simpl.
  - by destruct (String.eqb name k).
  - rewrite IH, filter_cons. clear IH.
    destruct (String.eqb_spec name k) as [->|Hne].
    + destruct (SessionSet.completed s) eqn:Hc.
      * rewrite decide_True by done. rewrite last_cons.
        destruct (last _); [done|]. by rewrite lookup_insert_eq.
      * rewrite decide_False by done. done.
    + destruct (SessionSet.completed s); [|done].
      by rewrite lookup_insert_ne.
Qed.

Lemma recordedSession_lookup session (m : gmap string History.t) name :
  App.recordedSession session m !! name
  = match last (Spec.completedSetsOf name session) with
    | Some set => Some (History.mk (SessionSet.weight set)
                                   (SessionSet.reps set)
                                   (WorkoutSession.date session))
    | None => m !! name
    end.
Proof.
  unfold App.recordedSession, Spec.completedSetsOf. revert m.
  induction (WorkoutSession.exercises session) as [|e es IH]; intros m;
    simpl; [done|].
  rewrite IH, last_app. destruct (last (concat _)); [done|].
  rewrite recordedSets_lookup.
  destruct (String.eqb (SessionExercise.name e) name); [done|].
  by rewrite last_nil.
Qed.

(** C8.  After [saveWorkoutSession] the history entry of an exercise
    name is the last completed set the session holds under that name, in
    the order exercises and sets are visited, with the session's
    timestamp; with no completed set under the name the entry is what it
    was.  The last set wins also when an earlier one was heavier. *)
Theorem saveWorkoutSession_history (session : WorkoutSession.t)
    (st : LocalStorage.t) (name : string) :
  storage.getExerciseHistory name (storage.saveWorkoutSession session st)
  = match last (Spec.completedSetsOf name session) with
    | Some set => Some (History.mk (SessionSet.weight set)
                                   (SessionSet.reps set)
                                   (WorkoutSession.date session))
    | None => storage.getExerciseHistory name st
    end
  ∧ exercise_ (storage.saveWorkoutSession session st)
    = App.recordedSession session (exercise_ st)
  ∧ storage.getExerciseHistory "Bench Press"
      (storage.saveWorkoutSession Scenario.dropSetSession LocalStorage.empty)
    = Some (History.mk 80 8 Scenario.date0).
Proof.
  unfold storage.getExerciseHistory.
  rewrite saveWorkoutSession_exercise_. split; [|split].
  - apply recordedSession_lookup.
  - done.
  - by vm_compute.
Qed.

End HistoryFacts.

(** ** C6: completing a set *)

Section CompleteSet.
Import WorkoutTracker.

(** C6.  For a set of the workout with weight 0 or reps 0,
    [completeSet] raises the destructive "Invalid Set" toast and leaves
    the whole state as it is: the set keeps its [completed] flag, no
    rest countdown starts, no auto-save is scheduled.  For a set with
    positive weight and reps it sets the [completed] flag of that set,
    keeps its id, weight and reps, leaves every other set and field as
    it is, and starts a rest of 90 seconds. *)
Theorem completeSet_validates (tr : WorkoutTracker.t) (e i : nat)
    (exercise : TExercise.t) (set : TSet.t) :
  exercises tr !! e = Some exercise →
  TExercise.sets exercise !! i = Some set →
  (((TSet.weight set == 0)%Q ∨ TSet.reps set = 0%Z) →
     completeSet e i tr = Some (tr, [Toast "Invalid Set" true])) ∧
  ((0 < TSet.weight set)%Q → (0 < TSet.reps set)%Z →
     ∃ tr',
       completeSet e i tr
       = Some (tr', [Toast "Set Complete!" false; SetTimeout_autoSaveWorkout]) ∧
       exercises tr'
       = <[e := TExercise.with_sets
                  (<[i := TSet.complete set]> (TExercise.sets exercise))
                  exercise]> (exercises tr) ∧
       App.setAt tr' e i = Some (TSet.complete set) ∧
       App.setAt tr' e i
       = Some (TSet.mk (TSet.id set) (TSet.weight set) (TSet.reps set) true) ∧
       (∀ e' i', (e', i') ≠ (e, i) → App.setAt tr' e' i' = App.setAt tr e' i') ∧
       restTimer tr' = 90%Z ∧ isResting tr' = true ∧
       workoutType tr' = workoutType tr ∧
       currentExerciseIndex tr' = currentExerciseIndex tr ∧
       sessionId tr' = sessionId tr).
Proof.
  intros He Hi. split.
  - intros Hz. unfold completeSet. rewrite He. simpl. rewrite Hi. simpl.
    destruct Hz as [Hw | Hr].
    + by rewrite (proj2 (Qeq_bool_iff _ _) Hw).
    + rewrite Hr. by rewrite orb_true_r.
  - intros Hw Hr. unfold completeSet. rewrite He. simpl. rewrite Hi. simpl.
    assert (Qeq_bool (TSet.weight set) 0 = false) as ->.
    { destruct (Qeq_bool (TSet.weight set) 0) eqn:Hq; [|done].
      apply Qeq_bool_iff in Hq. rewrite Hq in Hw.
      by apply Qlt_irrefl in Hw. }
    assert (Z.eqb (TSet.reps set) 0 = false) as -> by (apply Z.eqb_neq; lia).
    simpl. eexists. split; [reflexivity|].
    assert (Hex : exercises (startRest 90 (setExercises
              (imap (λ eIndex exercise0,
                 if Nat.eqb eIndex e then
                   TExercise.with_sets
                     (imap (λ sIndex s,
                              if Nat.eqb sIndex i then TSet.complete s else s)
                           (TExercise.sets exercise0))
                     exercise0
                 else exercise0)
                (exercises tr)) tr))
            = <[e := TExercise.with_sets
                       (<[i := TSet.complete set]> (TExercise.sets exercise))
                       exercise]> (exercises tr)).
    { simpl.
      rewrite (imap_if_insert
                 (λ exercise0,
                    TExercise.with_sets
                      (imap (λ sIndex s,
                               if Nat.eqb sIndex i then TSet.complete s else s)
                            (TExercise.sets exercise0))
                      exercise0)
                 _ e exercise He).
      by rewrite (imap_if_insert TSet.complete _ i set Hi). }
    split; [exact Hex|]. unfold App.setAt. rewrite Hex.
    apply lookup_lt_Some in He as Hlt. apply lookup_lt_Some in Hi as Hlt'.
    assert (Hat : <[e := TExercise.with_sets
                           (<[i := TSet.complete set]>
                              (TExercise.sets exercise)) exercise]>
                    (exercises tr) !! e
                  ≫= (λ x, TExercise.sets x !! i)
                  = Some (TSet.complete set)).
    { rewrite list_lookup_insert_eq by done. simpl.
      by rewrite list_lookup_insert_eq. }
    split; [exact Hat|]. split; [exact Hat|]. split.
    + intros e' i' Hne. destruct (decide (e' = e)) as [->|Hne'].
      * rewrite list_lookup_insert_eq by done. rewrite He. simpl.
        rewrite list_lookup_insert_ne; [done|]. congruence.
      * by rewrite list_lookup_insert_ne.
    + done.
Qed.

Lemma completeSet_validates_witness :
  completeSet 0 1 Scenario.tracker0
    = Some (Scenario.tracker0, [Toast "Invalid Set" true]) ∧
  ∃ tr', completeSet 0 1 Scenario.tracker1
         = Some (tr', [Toast "Set Complete!" false; SetTimeout_autoSaveWorkout])
         ∧ App.setAt Scenario.tracker1 0 1
           = Some (TSet.mk "set-0-1" 100 5 false)
         ∧ App.setAt tr' 0 1 = Some (TSet.mk "set-0-1" 100 5 true)
         ∧ App.setAt tr' 0 0 = App.setAt Scenario.tracker1 0 0
         ∧ restTimer tr' = 90%Z.
Proof.
  split.
  - apply (completeSet_validates Scenario.tracker0 0 1 Scenario.benchPress
             (TSet.mk "set-0-1" 0 0 false) eq_refl eq_refl).
    right. reflexivity.
  - destruct (completeSet_validates Scenario.tracker1 0 1
                (TExercise.mk "bench-press" "Bench Press"
                   [ TSet.mk "set-0-0" 100 5 true;
                     TSet.mk "set-0-1" 100 5 false ] 4 None None)
                (TSet.mk "set-0-1" 100 5 false) eq_refl eq_refl)
      as [_ H].
    destruct (H eq_refl eq_refl) as (tr' & Hc & _ & _ & Hs & Ho & Ht & _).
    exists tr'. split; [exact Hc|]. split; [reflexivity|].
    split; [exact Hs|]. split; [|exact Ht].
    apply Ho. discriminate.
Defined.

(** The rest started by a completed set counts down once per tick and
    ends by itself at the 90th. *)
Lemma rest_countdown (tr : WorkoutTracker.t) (k : nat) :
  isResting tr = true → restTimer tr = 90%Z → (k ≤ 90)%nat →
  let tr' := Nat.iter k (λ t, fst (tick t)) tr in
  restTimer tr' = (90 - Z.of_nat k)%Z ∧
  isResting tr' = negb (Nat.eqb k 90) ∧
  exercises tr' = exercises tr.
Proof.
  intros Hr Ht Hk tr'. subst tr'. induction k as [|k IH].
  - simpl. by rewrite Hr, Ht.
  - destruct IH as (IHt & IHr & IHe); [lia|].
    change (Nat.iter (S k) ?f tr) with (f (Nat.iter k f tr)).
    set (t := Nat.iter k _ tr) in *. unfold tick.
    rewrite IHr, IHt.
    destruct (Nat.eqb_spec k 90) as [->|Hne]; [lia|]. simpl negb.
    rewrite andb_true_l.
    destruct (0 <? 90 - Z.of_nat k)%Z eqn:Hpos;
      [|apply Z.ltb_ge in Hpos; lia].
    destruct (90 - Z.of_nat k <=? 1)%Z eqn:Hle; simpl.
    + apply Z.leb_le in Hle. assert (k = 89%nat) as -> by lia.
      by rewrite IHe.
    + apply Z.leb_gt in Hle. rewrite ?IHt, ?IHr, ?IHe.
      destruct (Nat.eqb_spec k 89) as [->|Hne']; [lia|].
      destruct (Nat.eqb_spec k 90); [lia|].
      repeat split; lia.
Qed.

End CompleteSet.

(** ** C4: deleting a split *)

Section Delete.
Import WorkoutSplitManager.

(** Once loaded, the manager's list is the stored list. *)
Lemma loadSplits_stored (m : WorkoutSplitManager.t) (st : LocalStorage.t) :
  LocalStorage.workoutSplits (snd (loadSplits (m, st)))
  = Some (splits (fst (loadSplits (m, st)))).
Proof.
  unfold loadSplits, storage.getWorkoutSplits, storage.setActiveSplit,
    storage.getWorkoutSplits, storage.saveWorkoutSplits.
  destruct st as [? [l|] [a|] ? ? ? ? ? ?]; simpl;
    repeat (case_match; simpl in *; simplify_eq); done.
Qed.

(** A manager opened afresh holds the stored reference as its active
    split (an empty-string reference apart, which reads as none). *)
Lemma loadSplits_active (st : LocalStorage.t) :
  LocalStorage.activeSplit st ≠ Some ""%string →
  activeSplit (fst (loadSplits (init, st)))
  = LocalStorage.activeSplit (snd (loadSplits (init, st))).
Proof.
  intros Hne.
  unfold loadSplits, storage.getWorkoutSplits, storage.setActiveSplit,
    storage.getWorkoutSplits, storage.saveWorkoutSplits.
  destruct st as [? [l|] [a|] ? ? ? ? ? ?]; simpl in *;
    repeat (case_match; simpl in *; simplify_eq); try done;
    by destruct a.
Qed.

(** The handler itself has no guard: on a single split it stores the
    empty list. *)
Lemma deleteSplit_unguarded :
  LocalStorage.workoutSplits
    (snd (fst (deleteSplit "1" Scenario.single))) = Some [].
Proof. by vm_compute. Qed.

(** C4.  While the manager shows exactly one split its delete control
    is disabled: the click changes neither the stored list nor anything
    else.  With another number of splits, deleting the split that is
    active stores the list without it and removes both the
    [activeSplit] reference and the [workoutSplit] mirror. *)
Theorem delete_guarded (splitId : string) (m : WorkoutSplitManager.t)
    (st : LocalStorage.t) :
  (length (splits m) = 1%nat →
     deleteButton_onClick splitId (m, st) = ((m, st), [])) ∧
  (length (splits m) ≠ 1%nat → activeSplit m = Some splitId →
     let w' := fst (deleteButton_onClick splitId (m, st)) in
     LocalStorage.workoutSplits (snd w')
     = Some (filter (λ split, WorkoutSplit.id split ≠ splitId) (splits m)) ∧
     splits (fst w')
     = filter (λ split, WorkoutSplit.id split ≠ splitId) (splits m) ∧
     activeSplit (fst w') = None ∧
     LocalStorage.activeSplit (snd w') = None ∧
     LocalStorage.workoutSplit (snd w') = None).
Proof.
  unfold deleteButton_onClick. simpl. split.
  - intros ->. done.
  - intros Hlen Ha. rewrite (proj2 (Nat.eqb_neq _ _) Hlen).
    unfold deleteSplit, saveSplits. simpl. rewrite Ha, String.eqb_refl.
    done.
Qed.

Lemma delete_guarded_witness :
  deleteButton_onClick "1" Scenario.single = (Scenario.single, []) ∧
  LocalStorage.activeSplit
    (snd (fst (deleteButton_onClick "1" Scenario.manager0))) = None ∧
  LocalStorage.workoutSplit
    (snd (fst (deleteButton_onClick "1" Scenario.manager0))) = None.
Proof.
  destruct (delete_guarded "1" (fst Scenario.single) (snd Scenario.single))
    as [H1 _].
  destruct (delete_guarded "1" (fst Scenario.manager0)
              (snd Scenario.manager0)) as [_ H2].
  split; [exact (H1 eq_refl)|].
  assert (H3 : length (splits (fst Scenario.manager0)) ≠ 1%nat)
    by (vm_compute; lia).
  destruct (H2 H3 eq_refl) as (_ & _ & _ & Ha & Hm).
  split; [exact Ha | exact Hm].
Defined.

End Delete.

(** ** C3: resetting a template *)

Section Reset.
Import LocalStorage.

(** With templates stored, [resetToDefault] leaves the stored templates
    as they are: the template it saves is the stored one. *)
Lemma resetToDefault_stored (now : Z) (m : ExerciseManager.t)
    (st : LocalStorage.t) (templates : gmap string WorkoutTemplate.t) :
  workoutTemplates st = Some templates →
  workoutTemplates (snd (fst (ExerciseManager.resetToDefault now (m, st))))
  = Some templates.
Proof.
  intros Ht. unfold ExerciseManager.resetToDefault,
    storage.getWorkoutTemplates. rewrite Ht.
  destruct (templates !! ExerciseManager.workoutType m) as [d|] eqn:Hd;
    simpl; [|done].
  unfold storage.updateWorkoutTemplate, storage.getWorkoutTemplates.
  rewrite Ht. simpl. by rewrite insert_id.
Qed.

(** On a fresh profile it stores the built-in templates. *)
Lemma resetToDefault_fresh (now : Z) (m : ExerciseManager.t)
    (st : LocalStorage.t) :
  workoutTemplates st = None →
  workoutTemplates (snd (fst (ExerciseManager.resetToDefault now (m, st))))
  = Some storage.defaultTemplates.
Proof.
  intros Ht. unfold ExerciseManager.resetToDefault,
    storage.getWorkoutTemplates. rewrite Ht.
  destruct (storage.defaultTemplates !! ExerciseManager.workoutType m)
    as [d|] eqn:Hd; simpl; [|done].
  unfold storage.updateWorkoutTemplate, storage.getWorkoutTemplates.
  simpl. by rewrite insert_id.
Qed.

(** C3.  "Push" belongs to the built-in templates, with five
    exercises.  In a store where the user has removed lateral raises from
    it, [resetToDefault] on "Push" leaves the stored template with its
    four exercises: [getWorkoutTemplates] returns the stored templates,
    not the built-in ones. *)
Theorem resetToDefault_keeps_edits :
  let st := snd Scenario.pushManager0 in
  let st' :=
    snd (fst (ExerciseManager.resetToDefault 1700000001000
                Scenario.pushManager0)) in
  map Exercise.id ∘ WorkoutTemplate.exercises
    <$> storage.defaultTemplates !! "Push"
  = Some ["bench-press"; "overhead-press"; "incline-db-press";
          "tricep-dips"; "lateral-raises"]%string ∧
  map Exercise.id ∘ WorkoutTemplate.exercises
    <$> fst (storage.getWorkoutTemplate "Push" st)
  = Some ["bench-press"; "overhead-press"; "incline-db-press";
          "tricep-dips"]%string ∧
  map Exercise.id ∘ WorkoutTemplate.exercises
    <$> fst (storage.getWorkoutTemplate "Push" st')
  = Some ["bench-press"; "overhead-press"; "incline-db-press";
          "tricep-dips"]%string ∧
  workoutTemplates st' = workoutTemplates st.
Proof. vm_compute. by repeat split. Qed.

End Reset.

(** ** C2: what the analytics view reads *)

Section Analytics.
Import LocalStorage ProgressTracker.

(** The Epley estimate of 100 x 5. *)
Lemma calculateOneRepMax_100_5 : calculateOneRepMax 100 5 = 117%Z.
Proof. reflexivity. Qed.

(** Finalising a session changes no lift the analytics view loads: it
    writes [exercise-<name>], the view reads [lastWorkout-<name>]. *)
Lemma loadProgressData_after_saveWorkout date date' date'' tr p st a :
  strongestLifts (loadProgressData a (App.finalStore date date' date'' tr p st))
  = strongestLifts (loadProgressData a st).
Proof.
  unfold loadProgressData. simpl.
  by rewrite saveWorkout_lastWorkout_.
Qed.

(** C2.  On a fresh profile, after a session whose bench-press set of
    100 x 5 is completed has been finalised, the history entry
    [exercise-Bench Press] is 100 x 5, for which the estimate is 117, but
    the analytics view loads no lift and shows no estimate; the first
    tracker, which wrote [lastWorkout-Bench Press], made it show 117. *)
Theorem finalized_set_not_in_analytics :
  let st' := snd (fst Scenario.finalized) in
  let legacy := snd (fst Scenario.finalizedLegacy) in
  storage.getExerciseHistory "Bench Press" st'
    = Some (History.mk 100 5 Scenario.date0) ∧
  calculateOneRepMax 100 5 = 117%Z ∧
  lastWorkout_ st' !! "Bench Press" = None ∧
  strongestLifts (loadProgressData init st') = [] ∧
  getTopLifts (loadProgressData init st') = [] ∧
  getTopLifts (loadProgressData init legacy)
    = [mkLift "Bench Press" 100 5 117].
Proof. vm_compute. by repeat split. Qed.

End Analytics.


(** * Further properties of the code *)

(** ** The store: templates, sessions, splits, auto-save *)

Section StoreMore.
Import LocalStorage.
Implicit Types (st : LocalStorage.t).

Lemma find_ext {A} (p q : A → bool) (l : list A) :
  (∀ x, p x = q x) → JS.find p l = JS.find q l.
Proof.
  intros H. induction l as [|x l IH]; simpl; [done|]. by rewrite H, IH.
Qed.

Lemma find_app {A} (p : A → bool) (l k : list A) :
  JS.find p (l ++ k)
  = match JS.find p l with Some x => Some x | None => JS.find p k end.
Proof.
  induction l as [|x l IH]; simpl; [done|]. by destruct (p x).
Qed.

Lemma find_None_findIndex {A} (p : A → bool) (l : list A) :
  JS.findIndex p l = None → JS.find p l = None.
Proof.
  induction l as [|x l IH]; simpl; [done|].
  destruct (p x); [done|]. by destruct (JS.findIndex p l).
Qed.

Lemma findIndex_lt {A} (p : A → bool) (l : list A) k :
  JS.findIndex p l = Some k → (k < length l)%nat.
Proof.
  revert k. induction l as [|x l IH]; intros k; simpl; [done|].
  destruct (p x); [intros [= <-]; lia|].
  destruct (JS.findIndex p l) as [j|]; simpl; [|done].
  intros [= <-]. specialize (IH j eq_refl). lia.
Qed.

(** Replacing the first element that satisfies [q] by one that
    satisfies [q] changes no search for a predicate [p] that agrees with
    [q] nowhere. *)
Lemma find_insert_other {A} (p q : A → bool) (l : list A) k u :
  JS.findIndex q l = Some k → q u = true →
  (∀ x, q x = true → p x = false) →
  JS.find p (<[k := u]> l) = JS.find p l.
Proof.
  revert k. induction l as [|x l IH]; intros k; simpl; [done|].
  destruct (q x) eqn:Hq.
  - intros [= <-] Hu Hpq. simpl. by rewrite (Hpq x Hq), (Hpq u Hu).
  - destruct (JS.findIndex q l) as [j|] eqn:Hj; simpl; [|done].
    intros [= <-] Hu Hpq. simpl. by rewrite (IH j eq_refl Hu Hpq).
Qed.

(** The store [saveWorkoutSession] leaves, written out. *)
Lemma saveWorkoutSession_eq (session : WorkoutSession.t) st :
  storage.saveWorkoutSession session st
  = set_exercise_ (App.recordedSession session (exercise_ st))
      (set_workoutSessions
         (Some (match JS.findIndex
                        (λ s, String.eqb (WorkoutSession.id s)
                                         (WorkoutSession.id session))
                        (storage.getWorkoutSessions st) with
                | Some i => <[i := session]> (storage.getWorkoutSessions st)
                | None => storage.getWorkoutSessions st ++ [session]
                end))
         st).
Proof.
  destruct (saveWorkoutSession_frame session st) as [S HS].
  rewrite HS. f_equal. f_equal.
  assert (H : workoutSessions (storage.saveWorkoutSession session st) = Some S)
    by (rewrite HS; by destruct st).
  rewrite <- H. clear.
  unfold storage.saveWorkoutSession.
  match goal with |- context [set_workoutSessions (Some ?s) st] =>
    set (st0 := set_workoutSessions (Some s) st);
    change (Some s) with (workoutSessions st0)
  end.
  clearbody st0. revert st0.
  induction (WorkoutSession.exercises session) as [|e es IH]; intros st0;
    simpl; [done|].
  rewrite IH, recordSets_shape. by destruct st0.
Qed.

(** The saved session is the first of its id in the stored list. *)
Lemma saveWorkoutSession_find_self (session : WorkoutSession.t) st :
  ∃ k, JS.findIndex (λ s, String.eqb (WorkoutSession.id s)
                                      (WorkoutSession.id session))
         (storage.getWorkoutSessions (storage.saveWorkoutSession session st))
       = Some k ∧
       storage.getWorkoutSessions (storage.saveWorkoutSession session st) !! k
       = Some session.
Proof.
  rewrite saveWorkoutSession_eq.
  match goal with |- context [set_workoutSessions (Some ?x) st] =>
    set (up := x);
    change (storage.getWorkoutSessions
              (set_exercise_ (App.recordedSession session (exercise_ st))
                 (set_workoutSessions (Some up) st))) with up
  end.
  assert (Hf : JS.find (λ s, String.eqb (WorkoutSession.id s)
                                        (WorkoutSession.id session)) up
               = Some session).
  { subst up.
    destruct (JS.findIndex _ (storage.getWorkoutSessions st)) as [k|] eqn:Hk.
    - apply find_insert_findIndex; [done|]. apply String.eqb_refl.
    - rewrite find_app, (find_None_findIndex _ _ Hk). simpl.
      by rewrite String.eqb_refl. }
  destruct (find_findIndex _ _ _ Hf) as (k & Hk & Hl & _). by exists k.
Qed.

(** X1.  [updateWorkoutTemplate] followed by [getWorkoutTemplate], for
    names that [Object.prototype] does not define: the template just
    written is read back under its name, every other name reads as
    before the update, and the read writes nothing. *)
Theorem updateWorkoutTemplate_lookup (workoutType other : string)
    (template : WorkoutTemplate.t) st :
  workoutType ∉ JS.Object_prototype →
  other ∉ JS.Object_prototype →
  let st' := storage.updateWorkoutTemplate workoutType template st in
  storage.getWorkoutTemplate workoutType st' = (Some template, st') ∧
  (other ≠ workoutType →
     fst (storage.getWorkoutTemplate other st')
     = fst (storage.getWorkoutTemplate other st)) ∧
  snd (storage.getWorkoutTemplate other st') = st'.
Proof.
  intros _ _.
  unfold storage.getWorkoutTemplate, storage.updateWorkoutTemplate,
    storage.getWorkoutTemplates, storage.saveWorkoutTemplates.
  destruct (workoutTemplates st) as [ts|] eqn:Hts; simpl;
    rewrite lookup_insert_eq; (split; [done|]); (split; [|done]);
    intros Hne; by rewrite lookup_insert_ne.
Qed.

Lemma updateWorkoutTemplate_lookup_witness :
  let st' :=
    storage.updateWorkoutTemplate "Push"
      (WorkoutTemplate.mk "push" "Push" []) LocalStorage.empty in
  fst (storage.getWorkoutTemplate "Push" st')
  = Some (WorkoutTemplate.mk "push" "Push" []) ∧
  fst (storage.getWorkoutTemplate "Pull" st')
  = storage.defaultTemplates !! "Pull".
Proof.
  destruct (updateWorkoutTemplate_lookup "Push" "Pull"
              (WorkoutTemplate.mk "push" "Push" []) LocalStorage.empty)
    as (H1 & H2 & _).
  - apply (bool_decide_unpack _). by vm_compute.
  - apply (bool_decide_unpack _). by vm_compute.
  - split; [by rewrite H1|]. by rewrite H2.
Defined.

(** Replacing the first session of an id, or appending when there is
    none. *)
Lemma upsert_facts (session : WorkoutSession.t)
    (before : list WorkoutSession.t) (other : string) :
  let byId id := λ s, String.eqb (WorkoutSession.id s) id in
  let after :=
    match JS.findIndex (byId (WorkoutSession.id session)) before with
    | Some i => <[i := session]> before
    | None => before ++ [session]
    end in
  JS.find (byId (WorkoutSession.id session)) after = Some session ∧
  length after
  = (if JS.find (byId (WorkoutSession.id session)) before is Some _
     then length before else S (length before)) ∧
  (other ≠ WorkoutSession.id session →
     JS.find (byId other) after = JS.find (byId other) before).
Proof.
  intros byId after. subst after.
  assert (Hself : byId (WorkoutSession.id session) session = true)
    by apply String.eqb_refl.
  destruct (JS.find (byId (WorkoutSession.id session)) before) as [s0|] eqn:Hf.
  - destruct (find_findIndex _ _ _ Hf) as (k & Hk & _ & _). rewrite Hk.
    split; [by apply find_insert_findIndex|].
    split; [by rewrite length_insert|].
    intros Hne. apply (find_insert_other _ _ _ _ _ Hk Hself).
    intros x Hx. unfold byId in *. apply String.eqb_eq in Hx.
    rewrite Hx. by apply String.eqb_neq.
  - rewrite (findIndex_None_find _ _ Hf).
    split; [by rewrite find_app, Hf; simpl; rewrite Hself|].
    split; [rewrite length_app; simpl; lia|].
    intros Hne. rewrite find_app. destruct (JS.find (byId other) before);
      [done|]. simpl. unfold byId.
    by rewrite (proj2 (String.eqb_neq _ _)) by done.
Qed.

(** X2.  [saveWorkoutSession] is an upsert by session id: afterwards the
    first stored session of that id is the saved one, the list is one
    longer exactly when the id was new, and the session found under any
    other id is the one found before. *)
Theorem saveWorkoutSession_upsert (session : WorkoutSession.t) st
    (other : string) :
  let byId id := λ s, String.eqb (WorkoutSession.id s) id in
  let before := storage.getWorkoutSessions st in
  let after :=
    storage.getWorkoutSessions (storage.saveWorkoutSession session st) in
  JS.find (byId (WorkoutSession.id session)) after = Some session ∧
  length after
  = (if JS.find (byId (WorkoutSession.id session)) before is Some _
     then length before else S (length before)) ∧
  (other ≠ WorkoutSession.id session →
     JS.find (byId other) after = JS.find (byId other) before).
Proof.
  intros byId before after. subst after.
  rewrite saveWorkoutSession_eq. fold before.
  match goal with |- context [set_workoutSessions (Some ?x) st] =>
    set (up := x);
    change (storage.getWorkoutSessions
              (set_exercise_ (App.recordedSession session (exercise_ st))
                 (set_workoutSessions (Some up) st))) with up;
    subst up
  end.
  apply upsert_facts.
Qed.

Lemma saveWorkoutSession_upsert_witness :
  let byId id := λ s, String.eqb (WorkoutSession.id s) id in
  let before := storage.getWorkoutSessions Scenario.twoSessions in
  let after :=
    storage.getWorkoutSessions
      (storage.saveWorkoutSession Scenario.dropSetSession'
         Scenario.twoSessions) in
  JS.find (byId "session-1") before = Some Scenario.dropSetSession ∧
  JS.find (byId "session-1") after = Some Scenario.dropSetSession' ∧
  JS.find (byId "session-2") after = Some Scenario.legSession ∧
  length after = 2%nat ∧
  length
    (storage.getWorkoutSessions
       (storage.saveWorkoutSession Scenario.dropSetSession LocalStorage.empty))
  = 1%nat.
Proof.
  intros byId before after.
  destruct (saveWorkoutSession_upsert Scenario.dropSetSession'
              Scenario.twoSessions "session-2") as (H1 & H2 & H3).
  destruct (saveWorkoutSession_upsert Scenario.dropSetSession
              LocalStorage.empty "session-2") as (_ & H4 & _).
  split; [reflexivity|]. split; [exact H1|].
  split; [exact (H3 ltac:(discriminate))|].
  split; [exact H2|exact H4].
Defined.

(** X3.  Saving the same session a second time changes nothing. *)
Theorem saveWorkoutSession_idempotent (session : WorkoutSession.t) st :
  storage.saveWorkoutSession session (storage.saveWorkoutSession session st)
  = storage.saveWorkoutSession session st.
Proof.
  destruct (saveWorkoutSession_find_self session st) as (k & Hk & Hl).
  rewrite (saveWorkoutSession_eq session (storage.saveWorkoutSession _ _)).
  rewrite Hk, (list_insert_id _ _ _ Hl).
  assert (HE : App.recordedSession session
                 (exercise_ (storage.saveWorkoutSession session st))
               = exercise_ (storage.saveWorkoutSession session st)).
  { rewrite saveWorkoutSession_exercise_. apply map_eq. intros name.
    rewrite !recordedSession_lookup.
    by destruct (last (Spec.completedSetsOf name session)). }
  rewrite HE. clear.
  unfold storage.getWorkoutSessions.
  destruct (saveWorkoutSession_frame session st) as [S ->].
  by destruct st.
Qed.

(** X4.  Activating a split that is stored: [getActiveSplit] then
    returns the first split of that id, the mirror holds the same split,
    and the read writes nothing.  The empty id reads as no active split. *)
Theorem setActiveSplit_getActiveSplit (splitId : string) st
    (s : WorkoutSplit.t) :
  splitId ≠ ""%string →
  JS.find (λ s, String.eqb (WorkoutSplit.id s) splitId)
          (fst (storage.getWorkoutSplits st)) = Some s →
  let st' := storage.setActiveSplit splitId st in
  storage.getActiveSplit st' = (Some s, st') ∧
  workoutSplit st' = Some s ∧
  activeSplit st' = Some splitId ∧
  fst (storage.getActiveSplit (storage.setActiveSplit "" st)) = None.
Proof.
  intros Hne Hs st'. subst st'.
  assert (Ht : JS.truthy splitId = true) by (by destruct splitId).
  assert (Hempty : fst (storage.getActiveSplit (storage.setActiveSplit "" st))
                   = None).
  { unfold storage.setActiveSplit, storage.getActiveSplit,
      storage.getWorkoutSplits, storage.saveWorkoutSplits.
    destruct (workoutSplits st); simpl;
      repeat (case_match; simpl in *; simplify_eq); done. }
  split; [|split; [|split]]; [| | |exact Hempty]; clear Hempty;
    unfold storage.setActiveSplit, storage.getActiveSplit,
      storage.getWorkoutSplits, storage.saveWorkoutSplits in *;
    destruct (workoutSplits st) as [l|] eqn:Hl; simpl in *;
    rewrite ?Hl; simpl; rewrite Hs; simpl; rewrite ?Ht, ?Hl; simpl;
    rewrite ?Hs; done.
Qed.

Lemma setActiveSplit_getActiveSplit_witness :
  fst (storage.getActiveSplit
         (storage.setActiveSplit "2" LocalStorage.empty))
  = storage.defaultSplits !! 1%nat.
Proof.
  destruct (setActiveSplit_getActiveSplit "2" LocalStorage.empty
              (WorkoutSplit.mk "2" "Upper/Lower"
                 ["Upper"; "Lower"; "Rest"; "Upper"; "Lower"; "Rest"; "Rest"]
                 (Some 0%Z) None)
              ltac:(discriminate) eq_refl) as (H & _).
  by rewrite H.
Defined.

(** X5.  [updateSplit] keeps the stored sequence of split ids, so it
    neither adds nor removes a split; for an id that is not stored it
    leaves the list as it is; and it writes the mirror only for the
    active split. *)
Theorem updateSplit_ids (u : WorkoutSplit.t) st :
  let before := fst (storage.getWorkoutSplits st) in
  let st' := storage.updateSplit u st in
  map WorkoutSplit.id (fst (storage.getWorkoutSplits st'))
  = map WorkoutSplit.id before ∧
  (JS.find (λ s, String.eqb (WorkoutSplit.id s) (WorkoutSplit.id u)) before
   = None → fst (storage.getWorkoutSplits st') = before) ∧
  (activeSplit st ≠ Some (WorkoutSplit.id u) →
     workoutSplit st' = workoutSplit st) ∧
  activeSplit st' = activeSplit st.
Proof.
  intros before st'. subst before st'.
  set (l := fst (storage.getWorkoutSplits st)).
  set (st1 := snd (storage.getWorkoutSplits st)).
  assert (Hl1 : workoutSplits st1 = Some l)
    by (subst l st1; unfold storage.getWorkoutSplits;
        by destruct (workoutSplits st) eqn:?).
  assert (Hu : storage.updateSplit u st = storage.updateSplit u st1).
  { subst st1. unfold storage.updateSplit, storage.getWorkoutSplits.
    destruct (workoutSplits st) eqn:H; simpl; by rewrite ?H. }
  assert (Hf : activeSplit st1 = activeSplit st ∧
               workoutSplit st1 = workoutSplit st).
  { subst st1. unfold storage.getWorkoutSplits.
    by destruct (workoutSplits st). }
  destruct Hf as [Ha Hm]. rewrite Hu.
  destruct (JS.findIndex
              (λ s, String.eqb (WorkoutSplit.id s) (WorkoutSplit.id u)) l)
    as [k|] eqn:Hk.
  - rewrite (updateSplit_found u st1 l k Hl1 Hk), Ha.
    assert (Hids : map WorkoutSplit.id (<[k := u]> l) = map WorkoutSplit.id l).
    { clear -Hk. revert k Hk. induction l as [|x l IH]; intros k; simpl;
        [done|].
      destruct (String.eqb_spec (WorkoutSplit.id x) (WorkoutSplit.id u)).
      - intros [= <-]. simpl. by f_equal.
      - destruct (JS.findIndex _ l) as [j|]; simpl; [|done].
        intros [= <-]. simpl. f_equal. by apply IH. }
    split; [|split; [|split]].
    + case_bool_decide; unfold storage.getWorkoutSplits; simpl; done.
    + intros Hnone. apply findIndex_None_find in Hnone. congruence.
    + intros Hne. rewrite bool_decide_eq_false_2 by done. by rewrite <- Hm.
    + rewrite <- Ha. by case_bool_decide.
  - assert (Hid : storage.updateSplit u st1 = st1).
    { unfold storage.updateSplit, storage.getWorkoutSplits.
      by rewrite Hl1, Hk. }
    rewrite Hid. unfold storage.getWorkoutSplits. rewrite Hl1. simpl.
    done.
Qed.

Lemma updateSplit_ids_witness :
  workoutSplit
    (storage.updateSplit
       (WorkoutSplit.mk "2" "Upper/Lower" ["Upper"; "Lower"] (Some 1%Z) None)
       Scenario.store0)
  = workoutSplit Scenario.store0.
Proof.
  destruct (updateSplit_ids
              (WorkoutSplit.mk "2" "Upper/Lower" ["Upper"; "Lower"]
                 (Some 1%Z) None)
              Scenario.store0) as (_ & _ & H & _).
  apply H. discriminate.
Defined.

(** X6.  The auto-save slots are independent and last-write-wins:
    [clearAutoSave] empties the slot of its key at every later time,
    neither [autoSave] nor [clearAutoSave] of one key changes what another
    key gives, and a second [autoSave] replaces payload and timestamp, so
    the 24 hours run from the later write. *)
Theorem autoSave_slots (key other : string) (data data' : Payload)
    (t0 t1 t : Z) st :
  storage.getAutoSave key t (storage.clearAutoSave key st) = None ∧
  storage.getAutoSave key t
    (storage.clearAutoSave key (storage.autoSave key data t0 st)) = None ∧
  (other ≠ key →
     storage.getAutoSave other t (storage.autoSave key data t0 st)
     = storage.getAutoSave other t st ∧
     storage.getAutoSave other t (storage.clearAutoSave key st)
     = storage.getAutoSave other t st) ∧
  storage.getAutoSave key t
    (storage.autoSave key data' t1 (storage.autoSave key data t0 st))
  = storage.getAutoSave key t (storage.autoSave key data' t1 st) ∧
  ((t - t1 < 86400000)%Z →
     storage.getAutoSave key t
       (storage.autoSave key data' t1 (storage.autoSave key data t0 st))
     = Some data').
Proof.
  unfold storage.getAutoSave, storage.clearAutoSave, storage.autoSave. simpl.
  rewrite !lookup_delete_eq, !lookup_insert_eq.
  repeat split.
  - by rewrite lookup_insert_ne.
  - by rewrite lookup_delete_ne.
  - intros Ht. by rewrite (proj2 (Z.ltb_lt _ _)).
Qed.

Lemma autoSave_slots_witness :
  storage.getAutoSave "workout-Push" 90000000
    (storage.autoSave "workout-Push" (PWorkout [] 1 "b") 4000000
       (storage.autoSave "workout-Push" (PWorkout [] 0 "a") 0
          LocalStorage.empty))
  = Some (PWorkout [] 1 "b") ∧
  storage.getAutoSave "workout-Push" 90000000
    (storage.autoSave "exercise-manager-Push" (PWorkout [] 1 "b") 4000000
       LocalStorage.empty)
  = None.
Proof.
  destruct (autoSave_slots "workout-Push" "" (PWorkout [] 0 "a")
              (PWorkout [] 1 "b") 0 4000000 90000000 LocalStorage.empty)
    as (_ & _ & _ & _ & H).
  destruct (autoSave_slots "exercise-manager-Push" "workout-Push"
              (PWorkout [] 1 "b") (PWorkout [] 1 "b") 4000000 0 90000000
              LocalStorage.empty) as (_ & _ & H' & _).
  split; [apply H; lia|].
  destruct H' as [H' _]; [discriminate|]. rewrite H'. reflexivity.
Defined.

End StoreMore.

(** ** The day index stays in range in every reachable state *)

Section MachineFacts.
Import LocalStorage Machine.
Implicit Types (st : LocalStorage.t) (s u : WorkoutSplit.t).

Lemma find_Forall {A} (P : A → Prop) (p : A → bool) (l : list A) x :
  Forall P l → JS.find p l = Some x → P x.
Proof.
  induction 1 as [|y l Hy Hl IH]; simpl; [done|].
  destruct (p y); [by intros [= <-]|done].
Qed.

Lemma nextDay_inRange s :
  inRange s = true →
  ∃ j, JS.nextDay (WorkoutSplit.currentDay s) (length (WorkoutSplit.days s))
       = Some j ∧
       (0 ≤ j < Z.of_nat (length (WorkoutSplit.days s)))%Z.
Proof.
  unfold inRange. destruct (WorkoutSplit.currentDay s) as [i|]; [|done].
  intros [Hi Hn]%andb_true_iff. apply Z.leb_le in Hi. apply Z.ltb_lt in Hn.
  rewrite nextDay_mod by lia. eexists. split; [done|].
  apply Z.mod_pos_bound. lia.
Qed.

Lemma advanced_inRange s :
  inRange s = true →
  inRange (WorkoutSplit.with_currentDay
             (JS.nextDay (WorkoutSplit.currentDay s)
                         (length (WorkoutSplit.days s))) s) = true ∧
  ∀ date,
    inRange (WorkoutSplit.with_currentDay_date
               (JS.nextDay (WorkoutSplit.currentDay s)
                           (length (WorkoutSplit.days s))) date s) = true.
Proof.
  intros (j & -> & Hj)%nextDay_inRange. unfold inRange. simpl.
  split; [|intros _]; apply andb_true_iff;
    (split; [apply Z.leb_le | apply Z.ltb_lt]; lia).
Qed.

Lemma defaultSplits_inRange :
  Forall (λ s, inRange s = true) storage.defaultSplits.
Proof. by repeat constructor. Qed.

Lemma storeInRange_fields st st' :
  workoutSplits st' = workoutSplits st → workoutSplit st' = workoutSplit st →
  storeInRange st → storeInRange st'.
Proof. unfold storeInRange. by intros -> ->. Qed.

Lemma getWorkoutSplits_inRange st :
  storeInRange st →
  Forall (λ s, inRange s = true) (fst (storage.getWorkoutSplits st)) ∧
  storeInRange (snd (storage.getWorkoutSplits st)) ∧
  workoutSplits (snd (storage.getWorkoutSplits st))
  = Some (fst (storage.getWorkoutSplits st)) ∧
  workoutSplit (snd (storage.getWorkoutSplits st)) = workoutSplit st ∧
  activeSplit (snd (storage.getWorkoutSplits st)) = activeSplit st.
Proof.
  intros [Hl Hm]. unfold storage.getWorkoutSplits, storeInRange in *.
  destruct (workoutSplits st) as [l|] eqn:Hst; simpl in *.
  - by rewrite Hst.
  - repeat split; try done; apply defaultSplits_inRange.
Qed.

Lemma updateSplit_inRange u st :
  inRange u = true → storeInRange st → storeInRange (storage.updateSplit u st).
Proof.
  intros Hu Hst.
  destruct (getWorkoutSplits_inRange st Hst) as (Hl & Hst1 & Hl1 & _).
  unfold storage.updateSplit.
  destruct (storage.getWorkoutSplits st) as [l st1]. simpl in *.
  destruct (JS.findIndex _ l) as [k|]; [|done].
  assert (H1 : storeInRange
                 (storage.saveWorkoutSplits (<[k := u]> l) st1)).
  { split; simpl; [by apply Forall_insert | apply Hst1]. }
  simpl activeSplit.
  destruct (activeSplit st1) as [a|]; [|done].
  destruct (String.eqb a (WorkoutSplit.id u)); [|done].
  split; simpl; [apply H1 | by intros ? [= <-]].
Qed.

Lemma setActiveSplit_inRange splitId st :
  storeInRange st → storeInRange (storage.setActiveSplit splitId st).
Proof.
  intros Hst. unfold storage.setActiveSplit.
  assert (Hst0 : storeInRange (set_activeSplit (Some splitId) st))
    by (by apply (storeInRange_fields st)).
  destruct (getWorkoutSplits_inRange _ Hst0) as (Hl & Hst1 & _).
  destruct (storage.getWorkoutSplits _) as [l st1]. simpl in *.
  destruct (JS.find _ l) as [s|] eqn:Hs; [|done].
  split; simpl; [apply Hst1|]. intros ? [= <-].
  by apply (find_Forall _ _ _ _ Hl Hs).
Qed.

Lemma getActiveSplit_inRange st :
  storeInRange st →
  storeInRange (snd (storage.getActiveSplit st)) ∧
  ∀ s, fst (storage.getActiveSplit st) = Some s → inRange s = true.
Proof.
  intros Hst. unfold storage.getActiveSplit.
  destruct (activeSplit st) as [a|]; [|done].
  destruct (JS.truthy a); [|done].
  destruct (getWorkoutSplits_inRange _ Hst) as (Hl & Hst1 & _).
  destruct (storage.getWorkoutSplits st) as [l st1]. simpl in *.
  split; [done|]. intros s Hs. by apply (find_Forall _ _ _ _ Hl Hs).
Qed.

Lemma handleCompleteWorkout_inRange now p st :
  storeInRange st →
  storeInRange (snd (Index.handleCompleteWorkout now (p, st))).
Proof.
  intros [Hl Hm]. unfold Index.handleCompleteWorkout. simpl.
  destruct (workoutSplit st) as [s|] eqn:Hs;
    [|split; [done|by rewrite Hs]].
  split; simpl; [done|]. intros ? [= <-].
  by apply advanced_inRange, Hm.
Qed.

Lemma finalStore_inRange date date' date'' tr p st :
  storeInRange st → storeInRange (App.finalStore date date' date'' tr p st).
Proof.
  intros Hst. unfold App.finalStore, WorkoutTracker.saveWorkout.
  set (st1 := storage.updateStreak _).
  assert (Hst1 : storeInRange st1).
  { apply (storeInRange_fields st); [| |done]; subst st1;
      destruct (saveWorkoutSession_frame (WorkoutTracker.sessionOf date tr) st)
        as [S ->]; by destruct st. }
  clearbody st1.
  destruct (getActiveSplit_inRange st1 Hst1) as [Hst2 Ha].
  destruct (storage.getActiveSplit st1) as [[a|] st2]; simpl in Hst2, Ha;
    cbn -[Index.handleCompleteWorkout storage.updateSplit
          storage.clearAutoSave].
  - apply handleCompleteWorkout_inRange.
    eapply storeInRange_fields;
      [| |apply updateSplit_inRange; [|exact Hst2]]; [done|done|].
    by apply advanced_inRange, Ha.
  - apply handleCompleteWorkout_inRange.
    by apply (storeInRange_fields st2).
Qed.

Lemma filter_all (f : string → bool) (l : list string) :
  existsb (λ x, negb (f x)) l = false → List.filter f l = l.
Proof.
  induction l as [|x l IH]; simpl; [done|].
  intros [Hx Hl]%orb_false_iff. apply negb_false_iff in Hx.
  by rewrite Hx, IH.
Qed.

Lemma run_invariant (trim : string → string) (a : action) (s : state) :
  invariant s → invariant (run trim a s).
Proof.
  destruct s as [d [m st]]. intros (Hd & Hm & Hst). unfold invariant in *.
  simpl in Hd, Hm, Hst.
  destruct a; simpl.
  - (* Open *)
    split; [done|]. unfold WorkoutSplitManager.loadSplits.
    destruct (getWorkoutSplits_inRange st Hst) as (Hl & Hst1 & _).
    destruct (storage.getWorkoutSplits st) as [l st1]. simpl in *.
    assert (Hset : ∀ id, storeInRange (storage.setActiveSplit id st1))
      by (intros; by apply setActiveSplit_inRange).
    destruct (LocalStorage.activeSplit st1) as [a|];
      [destruct (JS.truthy a)|]; destruct l; simpl; done.
  - (* Activate *)
    split; [done|]. split; [done|]. by apply setActiveSplit_inRange.
  - (* Skip *)
    split; [done|]. unfold WorkoutSplitManager.skipDay.
    destruct (JS.find _ (WorkoutSplitManager.splits m)) as [s|] eqn:Hs;
      simpl; [|done].
    pose proof (find_Forall _ _ _ _ Hm Hs) as Hin.
    apply advanced_inRange in Hin as [Hin _].
    split.
    + apply Forall_fmap. eapply Forall_impl; [exact Hm|].
      intros x Hx. simpl. by destruct (String.eqb _ _).
    + by apply updateSplit_inRange.
  - (* Delete *)
    split; [done|]. unfold WorkoutSplitManager.deleteButton_onClick. simpl.
    destruct (Nat.eqb _ 1); simpl; [done|].
    unfold WorkoutSplitManager.deleteSplit, WorkoutSplitManager.saveSplits.
    simpl.
    assert (Hf : Forall (λ s, inRange s = true)
                   (filter (λ split, WorkoutSplit.id split ≠ splitId)
                           (WorkoutSplitManager.splits m)))
      by (apply Forall_forall; intros x [_ Hx]%list_elem_of_filter;
          by apply (proj1 (Forall_forall _ _) Hm)).
    destruct (WorkoutSplitManager.activeSplit m) as [a|];
      [destruct (String.eqb a splitId)|]; simpl;
      (split; [done|]); (split; simpl; [done|]);
      solve [done | apply Hst].
  - (* TypeName *) done.
  - (* TypeDay *)
    split; [|done]. unfold WorkoutSplitManager.dayInput_onChange,
      WorkoutSplitManager.updateSplitDay.
    destruct (index <? _)%nat; simpl; [|done]. by rewrite length_insert.
  - (* AddDay *)
    split; [|done]. unfold WorkoutSplitManager.addDay_onClick.
    destruct (Nat.leb_spec 7 (length (WorkoutSplitManager.newSplitDays d)));
      simpl; [done|]. rewrite length_app. simpl. lia.
  - (* RemoveDay *)
    split; [|done]. unfold WorkoutSplitManager.removeDay_onClick.
    destruct (Nat.ltb_spec 1 (length (WorkoutSplitManager.newSplitDays d)));
      simpl; [|done].
    destruct (Nat.ltb_spec index
                (length (WorkoutSplitManager.newSplitDays d))); simpl; [|done].
    rewrite length_delete by (by apply lookup_lt_is_Some). lia.
  - (* Create *)
    unfold WorkoutSplitManager.createSplit.
    destruct (negb _) eqn:Hname; simpl; [done|].
    destruct (existsb _ _) eqn:Hdays; simpl; [done|].
    rewrite (filter_all _ _ Hdays).
    assert (Hnew : inRange
                     (WorkoutSplit.mk (JS.toString now)
                        (WorkoutSplitManager.newSplitName d)
                        (WorkoutSplitManager.newSplitDays d) (Some 0%Z) None)
                   = true).
    { unfold inRange. simpl. apply Z.ltb_lt. lia. }
    split; [lia|].
    assert (Hall : Forall (λ s, inRange s = true)
                     (WorkoutSplitManager.splits m ++
                        [WorkoutSplit.mk (JS.toString now)
                           (WorkoutSplitManager.newSplitName d)
                           (WorkoutSplitManager.newSplitDays d)
                           (Some 0%Z) None]))
      by (apply Forall_app; split; [done|by constructor]).
    split; [done|]. split; simpl; [done|apply Hst].
  - (* SaveWorkout *)
    split; [done|]. split; [done|].
    exact (finalStore_inRange date date' date'' tr p st Hst).
  - (* CompleteWorkout *)
    split; [done|]. split; [done|].
    exact (handleCompleteWorkout_inRange now p st Hst).
Qed.

(** X7.  Whatever the user does in the split manager (open it, activate,
    skip, delete, fill in and create splits) and however often workouts
    are saved, starting from a fresh profile: the create dialog lists
    between one and seven days, and the day index of every split the
    manager holds, of every stored split and of the mirror points into
    its day list. *)
Theorem runAll_invariant (trim : string → string) (actions : list action) :
  invariant (runAll trim actions state0).
Proof.
  unfold runAll.
  assert (H0 : invariant state0).
  { split; [simpl; lia|]. split; [constructor|]. by split. }
  revert H0. generalize state0.
  induction actions as [|a actions IH]; intros s Hs; simpl; [done|].
  apply IH. by apply run_invariant.
Qed.

End MachineFacts.

(** ** The split manager *)

Section SplitManagerMore.
Import WorkoutSplitManager.

Lemma existsb_Exists {A} (f : A → bool) (l : list A) :
  existsb f l = true ↔ Exists (λ x, f x = true) l.
Proof.
  induction l as [|x l IH]; simpl.
  - split; [done|]. by intros ?%Exists_nil.
  - rewrite orb_true_iff, Exists_cons, IH. done.
Qed.

Lemma find_filter_ne (splitId other : string) (l : list WorkoutSplit.t) :
  JS.find (λ s, String.eqb (WorkoutSplit.id s) other)
          (filter (λ split, WorkoutSplit.id split ≠ splitId) l)
  = if String.eqb other splitId then None
    else JS.find (λ s, String.eqb (WorkoutSplit.id s) other) l.
Proof.
  induction l as [|x l IH]; simpl; [by destruct (String.eqb _ _)|].
  rewrite filter_cons.
  destruct (decide (WorkoutSplit.id x ≠ splitId)) as [Hne|Heq]; simpl.
  - rewrite IH. destruct (String.eqb_spec (WorkoutSplit.id x) other) as [<-|];
      [|done].
    by rewrite (proj2 (String.eqb_neq _ _) Hne).
  - rewrite IH. apply dec_stable in Heq.
    destruct (String.eqb_spec other splitId) as [->|Hne]; [done|].
    rewrite (proj2 (String.eqb_neq _ _)); [done|congruence].
Qed.

(** X8.  [createSplit] refuses a blank name or a blank day with the
    "Invalid Split" toast and changes nothing; otherwise it appends one
    split, at day 0, with the days as entered and the entered (untrimmed)
    name, to the manager's list, stores that list, leaves the active
    split alone and resets the dialog. *)
Theorem createSplit_validates (trim : string → string) (now : Z) (d : Dialog)
    (m : WorkoutSplitManager.t) (st : LocalStorage.t) :
  let blank x := negb (JS.truthy (trim x)) in
  let created :=
    WorkoutSplit.mk (JS.toString now) (newSplitName d) (newSplitDays d)
                    (Some 0%Z) None in
  (blank (newSplitName d) = true
   ∨ Exists (λ day, blank day = true) (newSplitDays d) →
     createSplit trim now d (m, st) = ((d, (m, st)), [Toast "Invalid Split" true])) ∧
  (blank (newSplitName d) = false →
   Forall (λ day, blank day = false) (newSplitDays d) →
     createSplit trim now d (m, st)
     = ((initDialog,
         (mk (splits m ++ [created]) (activeSplit m),
          LocalStorage.set_workoutSplits (Some (splits m ++ [created])) st)),
        [Toast "Split Created!" false])).
Proof.
  intros blank created. unfold createSplit. split.
  - intros [Hn | Hd].
    + fold (blank (newSplitName d)). by rewrite Hn.
    + apply existsb_Exists in Hd. fold blank. rewrite Hd.
      by rewrite orb_true_r.
  - intros Hn Hd. fold (blank (newSplitName d)). rewrite Hn.
    assert (He : existsb (λ day, negb (JS.truthy (trim day))) (newSplitDays d)
                 = false).
    { apply not_true_is_false. intros He%existsb_Exists.
      apply Exists_exists in He as (x & Hx & Hb).
      rewrite Forall_forall in Hd. specialize (Hd x Hx).
      unfold blank in Hd. congruence. }
    rewrite He. simpl. by rewrite (filter_all _ _ He).
Qed.

Lemma createSplit_validates_witness :
  fst (createSplit (λ x, x) 1700000000000
         (mkDialog "Arms" ["Biceps"; ""] true) Scenario.manager0)
  = (mkDialog "Arms" ["Biceps"; ""] true, Scenario.manager0) ∧
  length (splits (fst (snd (fst
    (createSplit (λ x, x) 1700000000000
       (mkDialog "Arms" ["Biceps"; "Rest"] true) Scenario.manager0)))))
  = 4%nat.
Proof.
  destruct (createSplit_validates (λ x, x) 1700000000000
              (mkDialog "Arms" ["Biceps"; ""] true)
              (fst Scenario.manager0) (snd Scenario.manager0)) as [H1 _].
  destruct (createSplit_validates (λ x, x) 1700000000000
              (mkDialog "Arms" ["Biceps"; "Rest"] true)
              (fst Scenario.manager0) (snd Scenario.manager0)) as [_ H2].
  split.
  - change Scenario.manager0
      with (fst Scenario.manager0, snd Scenario.manager0) at 1.
    rewrite H1; [reflexivity|]. right. apply Exists_cons_tl, Exists_cons_hd.
    reflexivity.
  - change Scenario.manager0
      with (fst Scenario.manager0, snd Scenario.manager0).
    rewrite H2; [reflexivity|reflexivity|]. by repeat constructor.
Defined.

(** X9.  [skipDay] does nothing for an id the manager does not hold.
    For a split it holds, and that is stored, the stored entry becomes the
    split advanced by one; the mirror becomes that same split when the
    split is the active one, and keeps its value otherwise: a skip leaves
    mirror and stored entry equal. *)
Theorem skipDay_sync (splitId : string) (m : WorkoutSplitManager.t)
    (st : LocalStorage.t) :
  let byId := λ s, String.eqb (WorkoutSplit.id s) splitId in
  (JS.find byId (splits m) = None → skipDay splitId (m, st) = ((m, st), [])) ∧
  (∀ s l,
     JS.find byId (splits m) = Some s →
     LocalStorage.workoutSplits st = Some l → JS.find byId l ≠ None →
     let st' := snd (fst (skipDay splitId (m, st))) in
     let advanced :=
       WorkoutSplit.with_currentDay
         (JS.nextDay (WorkoutSplit.currentDay s)
                     (length (WorkoutSplit.days s))) s in
     JS.find byId (default [] (LocalStorage.workoutSplits st'))
       = Some advanced ∧
     (LocalStorage.activeSplit st = Some splitId →
        LocalStorage.workoutSplit st' = Some advanced) ∧
     (LocalStorage.activeSplit st ≠ Some splitId →
        LocalStorage.workoutSplit st' = LocalStorage.workoutSplit st)).
Proof.
  intros byId. split.
  - intros Hnone. unfold skipDay. fold byId. by rewrite Hnone.
  - intros s l Hs Hl Hf st' advanced.
    destruct (skipDay_stored splitId m st l s Hs Hl Hf) as (l' & Hl' & Hfind).
    fold st' in Hl'. rewrite Hl'. split; [exact Hfind|].
    subst st'. unfold skipDay. fold byId. rewrite Hs. simpl.
    destruct (JS.find byId l) as [s0|] eqn:Hs0; [clear Hf|done].
    destruct (find_findIndex _ _ _ Hs) as (_ & _ & _ & Hid).
    apply String.eqb_eq in Hid.
    destruct (find_findIndex _ _ _ Hs0) as (k & Hk & _ & _).
    fold advanced.
    assert (Hu : WorkoutSplit.id advanced = splitId) by done.
    rewrite (updateSplit_found advanced st l k Hl) by (by rewrite Hu).
    rewrite Hu. split; intros Ha.
    + by rewrite bool_decide_eq_true_2.
    + by rewrite bool_decide_eq_false_2.
Qed.

Lemma skipDay_sync_witness :
  let st' := snd (fst (skipDay "1" Scenario.manager0)) in
  LocalStorage.workoutSplit st'
  = JS.find (λ s, String.eqb (WorkoutSplit.id s) "1")
            (default [] (LocalStorage.workoutSplits st')) ∧
  WorkoutSplit.currentDay <$> LocalStorage.workoutSplit st' = Some (Some 1%Z).
Proof.
  destruct (skipDay_sync "1" (fst Scenario.manager0) (snd Scenario.manager0))
    as [_ H].
  destruct (H Scenario.split1 storage.defaultSplits eq_refl eq_refl
              ltac:(discriminate)) as (Hc & Hm & _).
  specialize (Hm eq_refl).
  change (skipDay "1" (fst Scenario.manager0, snd Scenario.manager0))
    with (skipDay "1" Scenario.manager0) in Hc, Hm.
  cbv zeta. rewrite Hc, Hm. split; reflexivity.
Defined.

(** X10.  [deleteSplit] stores the manager's list without the splits of
    the given id: that id is no longer found, every other id finds the
    split it found before, and unless the deleted split is the manager's
    active one, the manager's active split, the stored reference and the
    mirror keep their values. *)
Theorem deleteSplit_removes (splitId other : string)
    (m : WorkoutSplitManager.t) (st : LocalStorage.t) :
  let w' := fst (deleteSplit splitId (m, st)) in
  let stored := default [] (LocalStorage.workoutSplits (snd w')) in
  LocalStorage.workoutSplits (snd w') = Some (splits (fst w')) ∧
  JS.find (λ s, String.eqb (WorkoutSplit.id s) splitId) stored = None ∧
  (other ≠ splitId →
     JS.find (λ s, String.eqb (WorkoutSplit.id s) other) stored
     = JS.find (λ s, String.eqb (WorkoutSplit.id s) other) (splits m)) ∧
  (activeSplit m ≠ Some splitId →
     activeSplit (fst w') = activeSplit m ∧
     LocalStorage.activeSplit (snd w') = LocalStorage.activeSplit st ∧
     LocalStorage.workoutSplit (snd w') = LocalStorage.workoutSplit st).
Proof.
  intros w' stored.
  assert (Hw : LocalStorage.workoutSplits (snd w')
               = Some (filter (λ split, WorkoutSplit.id split ≠ splitId)
                              (splits m))
               ∧ splits (fst w')
                 = filter (λ split, WorkoutSplit.id split ≠ splitId)
                          (splits m)).
  { subst w'. unfold deleteSplit, saveSplits. simpl.
    destruct (activeSplit m) as [a|]; [destruct (String.eqb a splitId)|];
      done. }
  destruct Hw as [Hst Hm]. subst stored. rewrite Hst, Hm. simpl.
  rewrite !find_filter_ne, String.eqb_refl.
  split; [done|]. split; [done|]. split.
  - intros Hne. by rewrite (proj2 (String.eqb_neq _ _) Hne).
  - intros Ha. subst w'. unfold deleteSplit, saveSplits. simpl.
    destruct (activeSplit m) as [a|]; [|done].
    destruct (String.eqb_spec a splitId) as [->|]; done.
Qed.

Lemma deleteSplit_removes_witness :
  let w' := fst (deleteSplit "2" Scenario.manager0) in
  map WorkoutSplit.id (splits (fst w')) = ["1"; "3"]%string ∧
  LocalStorage.workoutSplit (snd w')
  = LocalStorage.workoutSplit (snd Scenario.manager0).
Proof.
  destruct (deleteSplit_removes "2" "1" (fst Scenario.manager0)
              (snd Scenario.manager0)) as (_ & _ & _ & H).
  destruct H as (_ & _ & Hm); [discriminate|].
  split; [reflexivity|exact Hm].
Defined.

End SplitManagerMore.

(** ** The exercise manager *)

Section ExerciseManagerMore.
Import ExerciseManager.

(** What [saveTemplate] leaves: the manager holds the template, the
    store holds it under the workout type, the auto-save slot holds it. *)
Lemma saveTemplate_sync (now : Z) (updated : WorkoutTemplate.t)
    (m : ExerciseManager.t) (st : LocalStorage.t) :
  let w' := fst (saveTemplate now updated (m, st)) in
  template (fst w') = Some updated ∧
  workoutType (fst w') = workoutType m ∧
  fst (storage.getWorkoutTemplate (workoutType m) (snd w')) = Some updated ∧
  (∀ t, (t - now < 86400000)%Z →
        storage.getAutoSave ("exercise-manager-" +:+ workoutType m) t (snd w')
        = Some (PTemplate updated)).
Proof.
  unfold saveTemplate. simpl. repeat split.
  - unfold storage.getWorkoutTemplate, storage.getWorkoutTemplates,
      storage.autoSave, storage.updateWorkoutTemplate,
      storage.getWorkoutTemplates, storage.saveWorkoutTemplates.
    destruct (LocalStorage.workoutTemplates st); simpl;
      by rewrite lookup_insert_eq.
  - intros t Ht. unfold storage.getAutoSave, storage.autoSave. simpl.
    rewrite lookup_insert_eq. by rewrite (proj2 (Z.ltb_lt _ _)).
Qed.

(** X11.  [addExercise] refuses a blank name with the "Invalid
    Exercise" toast and changes nothing.  Otherwise it appends one
    exercise, with the trimmed name and the chosen number of sets, to the
    template; the manager, the stored template of the workout type and
    the auto-save slot then hold the same template, and the dialog is
    reset.  The number of sets chosen with the "-" and "+" buttons stays
    between 1 and 10. *)
Theorem addExercise_appends (trim lowerDashed : string → string)
    (now now' : Z) (d : Dialog) (m : ExerciseManager.t)
    (st : LocalStorage.t) (presses : list bool) :
  let blank x := negb (JS.truthy (trim x)) in
  (blank (newExerciseName d) = true →
     addExercise trim lowerDashed now now' d (m, st)
     = ((d, (m, st)), [Toast "Invalid Exercise" true])) ∧
  (∀ current,
     blank (newExerciseName d) = false → template m = Some current →
     let r := fst (addExercise trim lowerDashed now now' d (m, st)) in
     let updated :=
       WorkoutTemplate.mk (WorkoutTemplate.id current)
         (WorkoutTemplate.name current)
         (WorkoutTemplate.exercises current
            ++ [Exercise.lit
                  (JS.toString now +:+ "-" +:+ lowerDashed (newExerciseName d))
                  (trim (newExerciseName d)) (newExerciseSets d)]) in
     template (fst (snd r)) = Some updated ∧
     fst (storage.getWorkoutTemplate (workoutType m) (snd (snd r)))
       = Some updated ∧
     storage.getAutoSave ("exercise-manager-" +:+ workoutType m) now'
                         (snd (snd r))
       = Some (PTemplate updated) ∧
     fst r = mkDialog false (editingExercise d) "" 3) ∧
  ((1 ≤ newExerciseSets d ≤ 10)%Z →
     (1 ≤ newExerciseSets
            (foldl (λ d plus, if plus : bool then setsPlus_onClick d
                              else setsMinus_onClick d) d presses) ≤ 10)%Z).
Proof.
  intros blank. split; [|split].
  - intros Hb. unfold addExercise. fold (blank (newExerciseName d)).
    by rewrite Hb.
  - intros current Hb Ht r updated. subst r. unfold addExercise.
    fold (blank (newExerciseName d)). rewrite Hb. simpl template. rewrite Ht.
    fold updated.
    destruct (saveTemplate_sync now' updated m st) as (H1 & _ & H3 & H4).
    destruct (saveTemplate now' updated (m, st)) as [w e]. simpl in *.
    split; [done|]. split; [done|]. split; [|done]. apply H4. lia.
  - revert d. induction presses as [|b presses IH]; intros d Hd; simpl;
      [done|].
    apply IH. destruct b; simpl; lia.
Qed.

Lemma addExercise_appends_witness :
  let r := fst (addExercise (λ x, x) (λ x, x) 1700000002000 1700000002001
                  (mkDialog true None "Dips" 4) Scenario.pushManager0) in
  (length ∘ WorkoutTemplate.exercises <$> template (fst (snd r))) = Some 5%nat ∧
  fst r = initDialog ∧
  newExerciseSets (setsPlus_onClick (mkDialog true None "Dips" 10)) = 10%Z.
Proof.
  destruct (addExercise_appends (λ x, x) (λ x, x) 1700000002000 1700000002001
              (mkDialog true None "Dips" 4)
              (fst Scenario.pushManager0) (snd Scenario.pushManager0) [true])
    as (_ & H & _).
  destruct (addExercise_appends (λ x, x) (λ x, x) 0 0
              (mkDialog true None "Dips" 10)
              (fst Scenario.pushManager0) (snd Scenario.pushManager0) [true])
    as (_ & _ & Hs).
  specialize (Hs ltac:(simpl; lia)).
  pose proof (H _ eq_refl eq_refl) as (Ht & _ & _ & Hd).
  cbv zeta.
  change Scenario.pushManager0
    with (fst Scenario.pushManager0, snd Scenario.pushManager0).
  rewrite Ht, Hd. split; [reflexivity|]. split; reflexivity.
Defined.

(** X12.  [deleteExercise] keeps, in their order, exactly the exercises
    whose id differs from the given one; the manager and the stored
    template of the workout type then hold that list.  Without a template
    it does nothing. *)
Theorem deleteExercise_removes (now : Z) (exerciseId : string)
    (m : ExerciseManager.t) (st : LocalStorage.t) :
  (template m = None → deleteExercise now exerciseId (m, st) = ((m, st), [])) ∧
  (∀ current,
     template m = Some current →
     let w' := fst (deleteExercise now exerciseId (m, st)) in
     let kept :=
       filter (λ ex, Exercise.id ex ≠ exerciseId)
              (WorkoutTemplate.exercises current) in
     template (fst w')
       = Some (WorkoutTemplate.mk (WorkoutTemplate.id current)
                 (WorkoutTemplate.name current) kept) ∧
     fst (storage.getWorkoutTemplate (workoutType m) (snd w'))
       = template (fst w') ∧
     Forall (λ ex, Exercise.id ex ≠ exerciseId) kept ∧
     (∀ ex, Exercise.id ex ≠ exerciseId →
            ex ∈ WorkoutTemplate.exercises current → ex ∈ kept) ∧
     kept `sublist_of` WorkoutTemplate.exercises current).
Proof.
  split.
  - intros Ht. unfold deleteExercise. simpl. by rewrite Ht.
  - intros current Ht w' kept. subst w'. unfold deleteExercise. simpl template.
    rewrite Ht. fold kept.
    set (updated := WorkoutTemplate.mk _ _ kept).
    destruct (saveTemplate_sync now updated m st) as (H1 & _ & H3 & _).
    destruct (saveTemplate now updated (m, st)) as [w e]. simpl in *.
    split; [done|]. split; [done|]. split; [|split].
    + apply Forall_forall. by intros x [Hx _]%list_elem_of_filter.
    + intros ex Hne Hin. by apply list_elem_of_filter.
    + apply sublist_filter.
Qed.

Lemma deleteExercise_removes_witness :
  map Exercise.id ∘ WorkoutTemplate.exercises
    <$> template (fst (fst (deleteExercise 1700000003000 "tricep-dips"
                              Scenario.pushManager0)))
  = Some ["bench-press"; "overhead-press"; "incline-db-press"]%string.
Proof.
  destruct (deleteExercise_removes 1700000003000 "tricep-dips"
              (fst Scenario.pushManager0) (snd Scenario.pushManager0))
    as [_ H].
  pose proof (H _ eq_refl) as (Ht & _).
  change Scenario.pushManager0
    with (fst Scenario.pushManager0, snd Scenario.pushManager0).
  rewrite Ht. reflexivity.
Defined.

(** X13.  [updateExercise] renames and resizes the exercises that carry
    the id of the one being edited and no other: the ids, their order and
    the number of exercises stay, an exercise of another id is unchanged,
    and the manager and the store hold the result.  With no exercise being
    edited, no template or a blank name it does nothing. *)
Theorem updateExercise_in_place (trim : string → string) (now : Z)
    (d : Dialog) (m : ExerciseManager.t) (st : LocalStorage.t) :
  (editingExercise d = None ∨ template m = None
   ∨ JS.truthy (trim (newExerciseName d)) = false →
     updateExercise trim now d (m, st) = ((d, (m, st)), [])) ∧
  (∀ editing current,
     editingExercise d = Some editing → template m = Some current →
     JS.truthy (trim (newExerciseName d)) = true →
     ∃ updated,
       template (fst (snd (fst (updateExercise trim now d (m, st)))))
         = Some updated ∧
       fst (storage.getWorkoutTemplate (workoutType m)
              (snd (snd (fst (updateExercise trim now d (m, st))))))
         = Some updated ∧
       map Exercise.id (WorkoutTemplate.exercises updated)
         = map Exercise.id (WorkoutTemplate.exercises current) ∧
       (∀ i ex, WorkoutTemplate.exercises current !! i = Some ex →
          WorkoutTemplate.exercises updated !! i
          = Some (if String.eqb (Exercise.id ex) (Exercise.id editing)
                  then Exercise.mk (Exercise.id ex)
                         (trim (newExerciseName d)) (newExerciseSets d)
                         (Exercise.lastWeight ex) (Exercise.lastReps ex)
                         (Exercise.lastDate ex)
                  else ex)) ∧
       fst (fst (updateExercise trim now d (m, st))) = initDialog).
Proof.
  split.
  - unfold updateExercise. simpl template.
    intros [-> | [-> | ->]]; [done| |]; by repeat case_match.
  - intros editing current He Ht Hn. unfold updateExercise. simpl template.
    rewrite He, Ht, Hn. simpl negb. cbv iota.
    match goal with |- context [saveTemplate now ?u (m, st)] =>
      set (updated := u) end.
    destruct (saveTemplate_sync now updated m st) as (H1 & _ & H3 & _).
    destruct (saveTemplate now updated (m, st)) as [w e]. simpl in *.
    exists updated. repeat split; try done.
    + subst updated. simpl. rewrite <- list_fmap_compose.
      apply list_fmap_ext. intros i x _. simpl. by case_match.
    + intros i ex Hi. subst updated. simpl.
      by rewrite list_lookup_fmap, Hi.
Qed.

Lemma updateExercise_in_place_witness :
  map Exercise.sets ∘ WorkoutTemplate.exercises
    <$> template (fst (snd (fst
          (updateExercise (λ x, x) 1700000004000
             (mkDialog true (Some (Exercise.lit "tricep-dips" "Tricep Dips" 3))
                       "Dips" 5)
             Scenario.pushManager0))))
  = Some [4; 3; 3; 5]%Z.
Proof.
  destruct (updateExercise_in_place (λ x, x) 1700000004000
              (mkDialog true (Some (Exercise.lit "tricep-dips" "Tricep Dips" 3))
                        "Dips" 5)
              (fst Scenario.pushManager0) (snd Scenario.pushManager0))
    as [_ H].
  destruct (H _ _ eq_refl eq_refl eq_refl) as (updated & Ht & _).
  reflexivity.
Defined.

(** X14.  [moveExercise] reorders and nothing else: the exercises of the
    result are a permutation of the previous ones, the exercise taken
    from [fromIndex] sits at [toIndex] (at the end when [toIndex] is past
    it), and moving an exercise to its own position changes nothing in
    the template. *)
Theorem moveExercise_permutes (now : Z) (fromIndex toIndex : nat)
    (m : ExerciseManager.t) (st : LocalStorage.t)
    (current : WorkoutTemplate.t) (moved : Exercise.t) :
  template m = Some current →
  WorkoutTemplate.exercises current !! fromIndex = Some moved →
  ∃ w' e updated,
    moveExercise now fromIndex toIndex (m, st) = Some (w', e) ∧
    template (fst w') = Some updated ∧
    fst (storage.getWorkoutTemplate (workoutType m) (snd w')) = Some updated ∧
    WorkoutTemplate.exercises updated ≡ₚ WorkoutTemplate.exercises current ∧
    WorkoutTemplate.exercises updated
      !! (toIndex `min` (length (WorkoutTemplate.exercises current) - 1))
      = Some moved ∧
    (toIndex = fromIndex → updated = current).
Proof.
  intros Ht Hm. unfold moveExercise. simpl template. rewrite Ht, Hm.
  match goal with |- context [saveTemplate now ?u (m, st)] =>
    set (updated := u) end.
  destruct (saveTemplate_sync now updated m st) as (H1 & _ & H3 & _).
  destruct (saveTemplate now updated (m, st)) as [w e]. simpl in *.
  exists w, e, updated. repeat split; try done.
  - subst updated. simpl.
    rewrite <- Permutation_middle, take_drop.
    symmetry. by apply delete_Permutation.
  - subst updated. simpl.
    set (l := WorkoutTemplate.exercises current) in *.
    assert (Hlen : length (delete fromIndex l) = (length l - 1)%nat)
      by (by apply length_delete).
    destruct (decide (toIndex ≤ length l - 1)%nat) as [Hle|Hgt].
    + rewrite Nat.min_l by done.
      rewrite lookup_app_r by (rewrite length_take; lia).
      rewrite length_take, Nat.min_l by lia. by rewrite Nat.sub_diag.
    + rewrite Nat.min_r by lia.
      rewrite lookup_app_r by (rewrite length_take; lia).
      rewrite length_take, Nat.min_r by lia. by rewrite Hlen, Nat.sub_diag.
  - intros ->. subst updated.
    rewrite delete_take_drop.
    set (l := WorkoutTemplate.exercises current) in *.
    apply lookup_lt_Some in Hm as Hlt.
    rewrite take_app_le by (rewrite length_take; lia).
    rewrite take_take, Nat.min_id.
    rewrite drop_app_ge by (rewrite length_take; lia).
    rewrite length_take, Nat.min_l by lia. rewrite Nat.sub_diag.
    change (drop 0 ?x) with x.
    rewrite (take_drop_middle l fromIndex moved Hm). by destruct current.
Qed.

Lemma moveExercise_permutes_witness :
  match moveExercise 1700000005000 0 2 Scenario.pushManager0 with
  | Some (w', _) =>
      map Exercise.id ∘ WorkoutTemplate.exercises <$> template (fst w')
  | None => None
  end
  = Some ["overhead-press"; "incline-db-press"; "bench-press";
          "tricep-dips"]%string.
Proof.
  destruct (moveExercise_permutes 1700000005000 0 2
              (fst Scenario.pushManager0) (snd Scenario.pushManager0)
              _ _ eq_refl eq_refl) as (w' & e & updated & H & _).
  reflexivity.
Defined.

End ExerciseManagerMore.

(** ** The tracker: starting, editing and resuming a workout *)

Section TrackerMore.
Import WorkoutTracker.

Lemma imap_if_alter {A} (f : A → A) (l : list A) (i : nat) :
  imap (λ k y, if Nat.eqb k i then f y else y) l = alter f i l.
Proof.
  revert i. induction l as [|y l IH]; intros i; [done|].
  rewrite imap_cons. destruct i as [|i].
  - change (alter f 0%nat (y :: l)) with (f y :: l). f_equal.
    clear IH. induction l as [|z l IH]; [done|]. rewrite imap_cons.
    f_equal. rewrite <- IH at 2. apply imap_ext. by intros.
  - change (alter f (S i) (y :: l)) with (y :: alter f i l). f_equal.
    rewrite <- (IH i). apply imap_ext. by intros.
Qed.

Lemma match_nonempty {A B} (l : list A) (a b : B) :
  l ≠ [] → match l with [] => a | _ :: _ => b end = b.
Proof. by destruct l. Qed.

Lemma updateSet_exercises (e i : nat) (field : Field.t) (tr : WorkoutTracker.t) :
  exercises (fst (updateSet e i field tr))
  = alter (λ exercise,
             TExercise.with_sets
               (alter (setField field) i (TExercise.sets exercise)) exercise)
          e (exercises tr).
Proof.
  unfold updateSet. simpl. rewrite <- imap_if_alter.
  apply imap_ext. intros k x _. simpl.
  destruct (Nat.eqb k e); [|done]. by rewrite imap_if_alter.
Qed.

(** X15.  For a workout type that [Object.prototype] does not define
    and with no live auto-save for it, [initializeWorkout] builds the
    workout from the stored template: one exercise per template
    exercise, in order, with the template's id and name and as many sets
    as the template asks for (none for a negative number), every set not
    completed and prefilled with the weight and reps of the exercise's
    history entry (zero without one).  Without a template, or with an
    empty one, it leaves the workout as it is and raises the "No
    Exercises Found" toast. *)
Theorem initializeWorkout_from_template (now : Z) (tr : WorkoutTracker.t)
    (st : LocalStorage.t) :
  workoutType tr ∉ JS.Object_prototype →
  storage.getAutoSave ("workout-" +:+ workoutType tr) now st = None →
  let found := storage.getWorkoutTemplate (workoutType tr) st in
  (fst found = None
   ∨ WorkoutTemplate.exercises <$> fst found = Some [] →
     initializeWorkout now (tr, st)
     = Some ((tr, snd found), [Toast "No Exercises Found" true])) ∧
  (∀ template,
     fst found = Some template → WorkoutTemplate.exercises template ≠ [] →
     ∃ tr',
       initializeWorkout now (tr, st) = Some ((tr', snd found), []) ∧
       length (exercises tr') = length (WorkoutTemplate.exercises template) ∧
       currentExerciseIndex tr' = currentExerciseIndex tr ∧
       ∀ i ex,
         WorkoutTemplate.exercises template !! i = Some ex →
         ∃ tex,
           exercises tr' !! i = Some tex ∧
           TExercise.id tex = Exercise.id ex ∧
           TExercise.name tex = Exercise.name ex ∧
           length (TExercise.sets tex) = Z.to_nat (Exercise.sets ex) ∧
           Forall (λ set,
                     TSet.completed set = false ∧
                     (TSet.weight set
                      == from_option History.weight 0
                           (storage.getExerciseHistory (Exercise.name ex) st))%Q ∧
                     TSet.reps set
                     = from_option History.reps 0%Z
                         (storage.getExerciseHistory (Exercise.name ex) st))
                  (TExercise.sets tex)).
Proof.
  intros _ Hauto found. subst found. unfold initializeWorkout. rewrite Hauto.
  assert (Hhist : ∀ name,
            storage.getExerciseHistory name
              (snd (storage.getWorkoutTemplate (workoutType tr) st))
            = storage.getExerciseHistory name st).
  { intros name. unfold storage.getWorkoutTemplate,
      storage.getWorkoutTemplates, storage.getExerciseHistory.
    by destruct (LocalStorage.workoutTemplates st). }
  destruct (storage.getWorkoutTemplate (workoutType tr) st) as [o st1].
  simpl in *. split.
  - intros [-> | Hnil]; [done|].
    destruct o as [t|]; [|done]. simpl in Hnil.
    injection Hnil as ->. done.
  - intros template -> Hne.
    rewrite (match_nonempty _ _ _ Hne).
    eexists. split; [reflexivity|]. simpl exercises.
    split; [by rewrite length_imap|]. split; [done|].
    intros i ex Hi. rewrite list_lookup_imap, Hi. simpl.
    eexists. split; [reflexivity|]. simpl.
    split; [done|]. split; [done|].
    unfold initialSets. split; [by rewrite length_map, length_seq|].
    apply Forall_fmap, Forall_forall. intros k _. simpl. rewrite !Hhist.
    split; [done|]. split; [|by destruct (storage.getExerciseHistory _ _)].
    destruct (storage.getExerciseHistory _ _) as [h|]; simpl; [|done].
    destruct (Qeq_bool (History.weight h) 0) eqn:Hq; [|done].
    symmetry. by apply Qeq_bool_iff.
Qed.

Lemma initializeWorkout_from_template_witness :
  ∃ tr' st',
    initializeWorkout 0 (Scenario.tracker0, LocalStorage.empty)
    = Some ((tr', st'), []) ∧
    length (exercises tr') = 5%nat ∧
    map (λ e, length (TExercise.sets e)) (exercises tr')
    = [4; 3; 3; 3; 3]%nat.
Proof.
  destruct (initializeWorkout_from_template 0 Scenario.tracker0
              LocalStorage.empty) as [_ H].
  - apply (bool_decide_unpack _). by vm_compute.
  - reflexivity.
  - destruct (H _ eq_refl ltac:(discriminate)) as (tr' & Hi & Hlen & _).
    eexists tr', _. split; [exact Hi|]. split; [exact Hlen|].
    revert Hi. vm_compute. by intros [= <-].
Defined.

(** X16.  A workout saved by [autoSaveWorkout] is restored by
    [initializeWorkout] for the same workout type within 24 hours: the
    exercises, with every weight, reps and completed flag, and the index
    of the current exercise come back as they were saved.  A workout
    without exercises is not saved at all. *)
Theorem autoSaveWorkout_restores (t0 now : Z) (tr tr0 : WorkoutTracker.t)
    (st : LocalStorage.t) :
  (exercises tr = [] → autoSaveWorkout t0 tr st = st) ∧
  (exercises tr ≠ [] → workoutType tr0 = workoutType tr →
   (now - t0 < 86400000)%Z →
     initializeWorkout now (tr0, autoSaveWorkout t0 tr st)
     = Some ((setCurrentExerciseIndex (currentExerciseIndex tr)
                (setExercises (exercises tr) tr0),
              autoSaveWorkout t0 tr st),
             [Toast "Workout Restored" false])).
Proof.
  unfold autoSaveWorkout. split.
  - by intros ->.
  - intros Hne Hty Ht. destruct (exercises tr) as [|e es] eqn:Hex; [done|].
    unfold initializeWorkout. rewrite Hty.
    unfold storage.getAutoSave, storage.autoSave at 1. simpl.
    rewrite lookup_insert_eq. by rewrite (proj2 (Z.ltb_lt _ _)).
Qed.

Lemma autoSaveWorkout_restores_witness :
  (λ r, exercises (fst (fst r)))
    <$> initializeWorkout 1700000060000
          (WorkoutTracker.mk "Push" [] 0 0 false "session-2",
           autoSaveWorkout 1700000000000 Scenario.tracker0 LocalStorage.empty)
  = Some [Scenario.benchPress].
Proof.
  destruct (autoSaveWorkout_restores 1700000000000 1700000060000
              Scenario.tracker0
              (WorkoutTracker.mk "Push" [] 0 0 false "session-2")
              LocalStorage.empty) as [_ H].
  rewrite H; [reflexivity|discriminate|reflexivity|lia].
Defined.

(** What a finalised session leaves in the auto-save family. *)
Lemma finalStore_autosave_ date date' date'' tr p (st : LocalStorage.t) :
  LocalStorage.autosave_ (App.finalStore date date' date'' tr p st)
  = delete ("workout-" +:+ workoutType tr) (LocalStorage.autosave_ st).
Proof.
  unfold App.finalStore, WorkoutTracker.saveWorkout.
  destruct (saveWorkoutSession_frame (WorkoutTracker.sessionOf date tr) st)
    as [S ->].
  unfold storage.updateStreak, storage.getStreak, storage.getActiveSplit,
    storage.updateSplit, storage.getWorkoutSplits, storage.clearAutoSave,
    storage.saveWorkoutSplits, Index.handleCompleteWorkout.
  destruct st; simpl in *; repeat (case_match; simpl in *; simplify_eq);
    done.
Qed.

(** X17.  Finalising a workout empties the auto-save slot of its workout
    type and no other slot, so a later [initializeWorkout] for that type
    does not restore the finished workout. *)
Theorem saveWorkout_clears_slot date date' date'' (tr tr0 : WorkoutTracker.t)
    (p : Index.t) (st : LocalStorage.t) (now : Z) (other : string) :
  let st' := App.finalStore date date' date'' tr p st in
  storage.getAutoSave ("workout-" +:+ workoutType tr) now st' = None ∧
  (other ≠ "workout-" +:+ workoutType tr →
     storage.getAutoSave other now st' = storage.getAutoSave other now st) ∧
  (workoutType tr0 = workoutType tr →
     ∀ r, initializeWorkout now (tr0, st') = Some r →
          snd r ≠ [Toast "Workout Restored" false]).
Proof.
  intros st'.
  assert (H : storage.getAutoSave ("workout-" +:+ workoutType tr) now st'
              = None).
  { unfold storage.getAutoSave. subst st'.
    by rewrite finalStore_autosave_, lookup_delete_eq. }
  split; [done|]. split.
  - intros Hne. unfold storage.getAutoSave. subst st'.
    by rewrite finalStore_autosave_, lookup_delete_ne.
  - intros Hty r. unfold initializeWorkout. rewrite Hty, H.
    destruct (storage.getWorkoutTemplate _ _) as [[t|] st1]; simpl;
      [destruct (WorkoutTemplate.exercises t)|]; by intros [= <-].
Qed.

Lemma saveWorkout_clears_slot_witness :
  let saved :=
    autoSaveWorkout 1700000000000 Scenario.tracker0 Scenario.store0 in
  storage.getAutoSave "workout-Push" 1700000001000 saved
  = Some (PWorkout [Scenario.benchPress] 0 "session-1700000000000") ∧
  storage.getAutoSave "workout-Push" 1700000001000
    (App.finalStore Scenario.date0 Scenario.date0 Scenario.date0
       Scenario.tracker0 Scenario.index0 saved)
  = None.
Proof.
  destruct (saveWorkout_clears_slot Scenario.date0 Scenario.date0
              Scenario.date0 Scenario.tracker0 Scenario.tracker0
              Scenario.index0
              (autoSaveWorkout 1700000000000 Scenario.tracker0
                 Scenario.store0)
              1700000001000 "workout-Pull") as (H & _).
  split; [reflexivity|exact H].
Defined.

(** Altering the set at one position of the exercises. *)
Lemma setAt_alter (g : TSet.t → TSet.t) (e i : nat)
    (tr tr' : WorkoutTracker.t) :
  exercises tr'
  = alter (λ exercise,
             TExercise.with_sets (alter g i (TExercise.sets exercise)) exercise)
          e (exercises tr) →
  ∀ e' i',
    App.setAt tr' e' i'
    = if decide (e' = e ∧ i' = i) then g <$> App.setAt tr e i
      else App.setAt tr e' i'.
Proof.
  intros Hex e' i'. unfold App.setAt. rewrite Hex, list_lookup_alter.
  destruct (decide (e = e')) as [<-|Hne].
  - destruct (exercises tr !! e) as [x|]; simpl; [|by case_decide].
    rewrite list_lookup_alter.
    destruct (decide (i = i')) as [<-|Hni].
    + by rewrite decide_True.
    + rewrite decide_False; [done|]. intros [_ ?]. congruence.
  - rewrite decide_False; [done|]. intros [? _]. congruence.
Qed.

Lemma updateSet_setAt (e i : nat) (field : Field.t) (tr : WorkoutTracker.t)
    (e' i' : nat) :
  App.setAt (fst (updateSet e i field tr)) e' i'
  = if decide (e' = e ∧ i' = i) then setField field <$> App.setAt tr e i
    else App.setAt tr e' i'.
Proof. apply setAt_alter, updateSet_exercises. Qed.

(** The outcome of [completeSet] on a position that holds a set. *)
Lemma completeSet_Some (e i : nat) (tr : WorkoutTracker.t) (set : TSet.t) :
  App.setAt tr e i = Some set →
  (Qeq_bool (TSet.weight set) 0 || Z.eqb (TSet.reps set) 0 = true ∧
   completeSet e i tr = Some (tr, [Toast "Invalid Set" true])) ∨
  (Qeq_bool (TSet.weight set) 0 || Z.eqb (TSet.reps set) 0 = false ∧
   ∃ tr',
     completeSet e i tr
     = Some (tr', [Toast "Set Complete!" false; SetTimeout_autoSaveWorkout]) ∧
     exercises tr'
     = alter (λ exercise,
                TExercise.with_sets
                  (alter TSet.complete i (TExercise.sets exercise)) exercise)
             e (exercises tr) ∧
     restTimer tr' = 90%Z ∧ isResting tr' = true ∧
     currentExerciseIndex tr' = currentExerciseIndex tr).
Proof.
  unfold App.setAt, completeSet.
  destruct (exercises tr !! e) as [x|]; simpl; [|done].
  intros ->. simpl.
  destruct (Qeq_bool _ _ || _); [by left|right].
  split; [done|]. eexists. split; [reflexivity|]. simpl.
  split; [|done]. rewrite <- imap_if_alter.
  apply imap_ext. intros k y _. simpl.
  destruct (Nat.eqb k e); [|done]. by rewrite imap_if_alter.
Qed.

(** X18.  [updateSet] writes the given value to the given field of the
    addressed set and nothing else: that set keeps its id, its other
    field and its completed flag, also when it is already completed;
    every other set stays as it is; for a position that holds no set the
    exercises do not change and nothing is thrown. *)
Theorem updateSet_frame (e i : nat) (field : Field.t)
    (tr : WorkoutTracker.t) :
  let tr' := fst (updateSet e i field tr) in
  App.setAt tr' e i = setField field <$> App.setAt tr e i ∧
  (∀ set,
     App.setAt tr e i = Some set →
     App.setAt tr' e i
     = Some match field with
            | Field.weight value =>
                TSet.mk (TSet.id set) value (TSet.reps set)
                        (TSet.completed set)
            | Field.reps value =>
                TSet.mk (TSet.id set) (TSet.weight set) value
                        (TSet.completed set)
            end) ∧
  (∀ e' i', (e', i') ≠ (e, i) → App.setAt tr' e' i' = App.setAt tr e' i') ∧
  (∀ e' i', TSet.completed <$> App.setAt tr' e' i'
            = TSet.completed <$> App.setAt tr e' i') ∧
  (App.setAt tr e i = None → exercises tr' = exercises tr) ∧
  map (λ x, length (TExercise.sets x)) (exercises tr')
  = map (λ x, length (TExercise.sets x)) (exercises tr).
Proof.
  intros tr'.
  assert (Hat : ∀ e' i',
            App.setAt tr' e' i'
            = if decide (e' = e ∧ i' = i)
              then setField field <$> App.setAt tr e i
              else App.setAt tr e' i')
    by apply updateSet_setAt.
  split; [by rewrite Hat, decide_True|]. split; [|split; [|split; [|split]]].
  - intros set Hset. rewrite Hat, decide_True, Hset by done.
    by destruct field.
  - intros e' i' Hne. rewrite Hat, decide_False; [done|].
    intros [-> ->]. done.
  - intros e' i'. rewrite Hat. case_decide as Hd; [|done].
    destruct Hd as [-> ->].
    destruct (App.setAt tr e i) as [s|]; [|done]. by destruct field.
  - intros Hnone. subst tr'. rewrite updateSet_exercises.
    unfold App.setAt in Hnone.
    apply list_eq. intros k. rewrite list_lookup_alter.
    case_decide as Hk; [subst k|done].
    destruct (exercises tr !! e) as [x|] eqn:Hx; [|done]. simpl in *.
    f_equal. destruct x as [? ? sets ? ? ?]. unfold TExercise.with_sets.
    simpl in *. f_equal. apply list_eq. intros k.
    rewrite list_lookup_alter. case_decide; [subst k|done].
    by rewrite Hnone.
  - subst tr'. rewrite updateSet_exercises.
    apply list_eq. intros k. rewrite !list_lookup_fmap, list_lookup_alter.
    case_decide; [subst k|done].
    destruct (exercises tr !! e) as [x|]; [|done]. simpl.
    by rewrite length_alter.
Qed.

Lemma updateSet_frame_witness :
  let tr' := fst (updateSet 0 1 (Field.weight 100) Scenario.tracker0) in
  App.setAt Scenario.tracker0 0 1 = Some (TSet.mk "set-0-1" 0 0 false) ∧
  App.setAt tr' 0 1 = Some (TSet.mk "set-0-1" 100 0 false) ∧
  App.setAt tr' 0 0 = Some (TSet.mk "set-0-0" 100 5 true) ∧
  App.setAt
    (fst (updateSet 0 0 (Field.reps 6) Scenario.tracker0)) 0 0
  = Some (TSet.mk "set-0-0" 100 6 true).
Proof.
  intros tr'.
  destruct (updateSet_frame 0 1 (Field.weight 100) Scenario.tracker0)
    as (_ & Hw & Ho & _).
  destruct (updateSet_frame 0 0 (Field.reps 6) Scenario.tracker0)
    as (_ & Hr & _).
  split; [reflexivity|].
  split; [exact (Hw _ eq_refl)|].
  split; [exact (Ho 0%nat 0%nat ltac:(discriminate))|].
  exact (Hr _ eq_refl).
Defined.

(** X19.  [completeSet] throws exactly when the position holds no set;
    on every position that holds one it returns, and the number of sets
    of each exercise is what it was. *)
Theorem completeSet_throws_iff (e i : nat) (tr : WorkoutTracker.t) :
  (completeSet e i tr = None ↔ App.setAt tr e i = None) ∧
  (∀ tr' eff, completeSet e i tr = Some (tr', eff) →
     map (λ x, length (TExercise.sets x)) (exercises tr')
     = map (λ x, length (TExercise.sets x)) (exercises tr)).
Proof.
  unfold completeSet, App.setAt.
  destruct (exercises tr !! e) as [x|] eqn:Hx; simpl; [|done].
  destruct (TExercise.sets x !! i) as [s|] eqn:Hs; simpl; [|done].
  destruct (Qeq_bool _ _ || _).
  - split; [done|]. by intros tr' eff [= <- _].
  - split; [done|]. intros tr' eff [= <- _]. simpl.
    rewrite (imap_if_insert
               (λ exercise0,
                  TExercise.with_sets
                    (imap (λ sIndex s0,
                             if Nat.eqb sIndex i then TSet.complete s0 else s0)
                          (TExercise.sets exercise0))
                    exercise0) _ e x Hx).
    rewrite list_fmap_insert. simpl. rewrite length_imap.
    apply list_insert_id. by rewrite list_lookup_fmap, Hx.
Qed.

End TrackerMore.

(** ** The tracker: the controls of the exercise card, the rest timer *)

Section TrackerControls.
Import WorkoutTracker.

Lemma currentExercise_Some (tr : WorkoutTracker.t) (exercise : TExercise.t) :
  currentExercise tr = Some exercise ↔
  (0 ≤ currentExerciseIndex tr)%Z ∧
  exercises tr !! Z.to_nat (currentExerciseIndex tr) = Some exercise.
Proof.
  unfold currentExercise.
  destruct (Z.ltb_spec (currentExerciseIndex tr) 0); split; try done;
    try tauto. intros [? _]. lia.
Qed.

(** A press on a row control is one of: nothing, an [updateSet] of the
    row's set, a [completeSet] of the row's set; the latter two only on a
    set that exists and is not completed. *)
Lemma row_onClick_cases (control : Control) (setIndex : nat)
    (tr : WorkoutTracker.t) :
  row_onClick control setIndex tr = Some (tr, []) ∨
  ∃ exercise set,
    currentExercise tr = Some exercise ∧
    TExercise.sets exercise !! setIndex = Some set ∧
    App.setAt tr (Z.to_nat (currentExerciseIndex tr)) setIndex = Some set ∧
    TSet.completed set = false ∧
    ((∃ field,
        row_onClick control setIndex tr
        = Some (updateSet (Z.to_nat (currentExerciseIndex tr)) setIndex
                          field tr) ∧
        (((0 <= TSet.weight set)%Q ∧ (0 ≤ TSet.reps set)%Z) →
         (0 <= TSet.weight (setField field set))%Q ∧
         (0 ≤ TSet.reps (setField field set))%Z)) ∨
     (setIndex = completedSets tr ∧
      row_onClick control setIndex tr
      = completeSet (Z.to_nat (currentExerciseIndex tr)) setIndex tr)).
Proof.
  unfold row_onClick.
  destruct (currentExercise tr) as [x|] eqn:Hx; [|by left].
  destruct (TExercise.sets x !! setIndex) as [s|] eqn:Hs; [|by left].
  destruct (TSet.completed s) eqn:Hc; [by left|].
  apply currentExercise_Some in Hx as Hx'. destruct Hx' as [_ Hx'].
  assert (Hat : App.setAt tr (Z.to_nat (currentExerciseIndex tr)) setIndex
                = Some s) by (unfold App.setAt; by rewrite Hx').
  destruct control.
  - right. exists x, s. repeat split; try done. left. eexists.
    split; [reflexivity|]. simpl. intros [Hw Hr]. split; [|done].
    destruct (Qle_bool _ 0) eqn:Hq; [done|].
    apply Qlt_le_weak, Qnot_le_lt. intros Hle.
    apply Qle_bool_iff in Hle. congruence.
  - right. exists x, s. repeat split; try done. left. eexists.
    split; [reflexivity|]. simpl. intros [Hw Hr]. split; [|done].
    apply (Qle_trans _ (TSet.weight s + 0)); [by rewrite Qplus_0_r|].
    by apply Qplus_le_r.
  - right. exists x, s. repeat split; try done. left. eexists.
    split; [reflexivity|]. simpl. intros [Hw Hr]. split; [done|lia].
  - right. exists x, s. repeat split; try done. left. eexists.
    split; [reflexivity|]. simpl. intros [Hw Hr]. split; [done|lia].
  - destruct (Nat.eqb_spec setIndex (completedSets tr)) as [Heq|]; [|by left].
    right. exists x, s. repeat split; try done. by right.
Qed.

(** X20.  A press on a control of a set row ("-" and "+" of weight and
    reps, complete) never throws, changes at most the set of that row in
    the current exercise, never changes a set that is already completed,
    and keeps weights and reps non-negative when they were. *)
Theorem row_onClick_guards (control : Control) (setIndex : nat)
    (tr : WorkoutTracker.t) :
  ∃ tr' eff,
    row_onClick control setIndex tr = Some (tr', eff) ∧
    (∀ e i, (e, i) ≠ (Z.to_nat (currentExerciseIndex tr), setIndex) →
            App.setAt tr' e i = App.setAt tr e i) ∧
    (∀ e i set, App.setAt tr e i = Some set → TSet.completed set = true →
                App.setAt tr' e i = Some set) ∧
    ((∀ e i set, App.setAt tr e i = Some set →
                 (0 <= TSet.weight set)%Q ∧ (0 ≤ TSet.reps set)%Z) →
     ∀ e i set, App.setAt tr' e i = Some set →
                (0 <= TSet.weight set)%Q ∧ (0 ≤ TSet.reps set)%Z).
Proof.
  set (e0 := Z.to_nat (currentExerciseIndex tr)).
  assert (Hgen : ∀ (g : TSet.t → TSet.t) tr' set0,
            App.setAt tr e0 setIndex = Some set0 →
            TSet.completed set0 = false →
            ((0 <= TSet.weight set0)%Q ∧ (0 ≤ TSet.reps set0)%Z →
             (0 <= TSet.weight (g set0))%Q ∧ (0 ≤ TSet.reps (g set0))%Z) →
            (∀ e' i', App.setAt tr' e' i'
                      = if decide (e' = e0 ∧ i' = setIndex)
                        then g <$> App.setAt tr e0 setIndex
                        else App.setAt tr e' i') →
            (∀ e i, (e, i) ≠ (e0, setIndex) →
                    App.setAt tr' e i = App.setAt tr e i) ∧
            (∀ e i set, App.setAt tr e i = Some set →
                        TSet.completed set = true →
                        App.setAt tr' e i = Some set) ∧
            ((∀ e i set, App.setAt tr e i = Some set →
                         (0 <= TSet.weight set)%Q ∧ (0 ≤ TSet.reps set)%Z) →
             ∀ e i set, App.setAt tr' e i = Some set →
                        (0 <= TSet.weight set)%Q ∧ (0 ≤ TSet.reps set)%Z)).
  { intros g tr' set0 H0 Hc Hg Hat. split; [|split].
    - intros e i Hne. rewrite Hat, decide_False; [done|].
      intros [-> ->]. done.
    - intros e i s Hs Hcs. rewrite Hat. case_decide as Hd; [|done].
      destruct Hd as [-> ->]. congruence.
    - intros Hall e i s. rewrite Hat. case_decide as Hd; [|apply Hall].
      rewrite H0. simpl. intros [= <-]. apply Hg. by apply (Hall e0 setIndex). }
  destruct (row_onClick_cases control setIndex tr)
    as [Hsame | (x & s & Hx & Hs & Hat & Hc & [(field & Hr & Hnn) | [Hi Hr]])].
  - exists tr, []. split; [done|]. split; [done|]. split; [done|auto].
  - fold e0 in Hat, Hr. rewrite Hr.
    destruct (updateSet e0 setIndex field tr) as [tr' eff] eqn:Hu.
    exists tr', eff. split; [done|].
    apply (Hgen (setField field) tr' s Hat Hc Hnn).
    intros e' i'. change tr' with (fst (tr', eff)). rewrite <- Hu.
    apply updateSet_setAt.
  - fold e0 in Hat, Hr. rewrite Hr.
    destruct (completeSet_Some e0 setIndex tr s Hat)
      as [[_ Hinv] | [_ (tr' & Hok & Hex & _)]].
    + eexists tr, _. split; [exact Hinv|].
      split; [done|]. split; [done|auto].
    + eexists tr', _. split; [exact Hok|].
      apply (Hgen TSet.complete tr' s Hat Hc); [done|].
      by apply setAt_alter.
Qed.

Lemma count_flags (sets : list TSet.t) :
  length (filter (λ set, TSet.completed set = true) sets)
  = length (filter (λ b, b = true) (map TSet.completed sets)).
Proof.
  induction sets as [|s sets IH]; [done|]. simpl map.
  rewrite !filter_cons. destruct (TSet.completed s); simpl; by rewrite ?IH.
Qed.

Lemma prefixFlags_next (flags : list bool) :
  App.prefixFlags flags = true →
  App.prefixFlags
    (alter (λ _, true) (length (filter (λ b, b = true) flags)) flags) = true.
Proof.
  induction flags as [|b flags IH]; [done|].
  rewrite filter_cons. destruct b; simpl.
  - intros H. by apply IH.
  - intros H.
    assert (Hnone : filter (λ b, b = true) flags = [] ∧
                    App.prefixFlags flags = true).
    { clear IH. induction flags as [|b flags IH]; [done|].
      simpl in H. apply andb_true_iff in H as [Hb H].
      destruct b; [done|]. rewrite filter_cons. simpl.
      split; [by apply IH|]. done. }
    destruct Hnone as [-> Hp]. done.
Qed.

(** X21.  Sets are completed in order: when in every exercise the
    completed sets come first, they still do after any press on a row
    control; and the complete control does nothing on a row other than
    the first one that is not completed. *)
Theorem row_onClick_in_order (control : Control) (setIndex : nat)
    (tr : WorkoutTracker.t) :
  (∀ tr' eff,
     App.completedInOrder tr →
     row_onClick control setIndex tr = Some (tr', eff) →
     App.completedInOrder tr') ∧
  (setIndex ≠ completedSets tr →
     row_onClick Complete setIndex tr = Some (tr, [])).
Proof.
  split.
  - unfold App.completedInOrder. intros tr' eff Hord Hr.
    destruct (row_onClick_cases control setIndex tr)
      as [Hsame | (x & s & Hx & Hs & Hat & Hc & [(field & Hu & _) | [Hi Hcs]])].
    + rewrite Hsame in Hr. by injection Hr as <- _.
    + rewrite Hu in Hr.
      destruct (updateSet _ setIndex field tr) as [tr1 eff1] eqn:Hup.
      injection Hr as <- <-. change tr1 with (fst (tr1, eff1)).
      rewrite <- Hup, updateSet_exercises. apply Forall_alter; [done|].
      intros y _ Hy. simpl.
      rewrite (list_fmap_alter TSet.completed (setField field) (λ b, b)),
        list_alter_id; [done|done|].
      apply Forall_forall. intros z _. by destruct field.
    + rewrite Hcs in Hr.
      destruct (completeSet_Some _ setIndex tr s Hat)
        as [[_ Hinv] | [_ (tr1 & Hok & Hex & _)]].
      * rewrite Hinv in Hr. by injection Hr as <- _.
      * rewrite Hok in Hr. injection Hr as <- _. rewrite Hex.
        apply Forall_alter; [done|]. intros y Hy Hp. simpl.
        apply currentExercise_Some in Hx as [_ Hx]. rewrite Hx in Hy.
        injection Hy as <-.
        rewrite (list_fmap_alter TSet.completed TSet.complete (λ _, true))
          by (by apply Forall_forall).
        rewrite Hi. unfold completedSets.
        rewrite (proj2 (currentExercise_Some tr x)), count_flags.
        -- by apply prefixFlags_next.
        -- split; [|done]. unfold currentExercise in *.
           unfold App.setAt in Hat.
           destruct (Z.ltb_spec (currentExerciseIndex tr) 0); [|lia].
           revert Hcs. unfold row_onClick, currentExercise.
           rewrite (proj2 (Z.ltb_lt _ _)) by done. by rewrite Hok.
  - intros Hne. unfold row_onClick.
    destruct (currentExercise tr) as [x|]; [|done].
    destruct (TExercise.sets x !! setIndex) as [s|]; [|done].
    destruct (TSet.completed s); [done|].
    by rewrite (proj2 (Nat.eqb_neq _ _) Hne).
Qed.

Lemma row_onClick_in_order_witness :
  App.completedInOrder Scenario.tracker1 ∧
  (∃ tr' eff,
     row_onClick Complete 1 Scenario.tracker1 = Some (tr', eff) ∧
     TSet.completed <$> App.setAt Scenario.tracker1 0 1 = Some false ∧
     TSet.completed <$> App.setAt tr' 0 1 = Some true ∧
     App.completedInOrder tr') ∧
  row_onClick Complete 0 Scenario.tracker1 = Some (Scenario.tracker1, []).
Proof.
  assert (H1 : App.completedInOrder Scenario.tracker1)
    by (by repeat constructor).
  destruct (row_onClick_in_order Complete 1 Scenario.tracker1) as [Hord _].
  destruct (row_onClick_in_order Complete 0 Scenario.tracker1) as [_ Hoff].
  split; [exact H1|]. split.
  - eexists _, _. split; [reflexivity|]. split; [reflexivity|].
    split; [reflexivity|]. exact (Hord _ _ H1 eq_refl).
  - apply Hoff. discriminate.
Defined.

(** X22.  "Previous" and "Next" keep the current exercise inside the
    list: from an index that points at an exercise they lead to one that
    does, one step down or up and not past the first or the last; from
    an index that points at none they do nothing.  They never change the
    exercises. *)
Theorem navigation_in_bounds (tr : WorkoutTracker.t) :
  let n := Z.of_nat (length (exercises tr)) in
  let i := currentExerciseIndex tr in
  ((0 ≤ i < n)%Z →
     currentExerciseIndex (previous_onClick tr) = Z.max 0 (i - 1) ∧
     currentExerciseIndex (next_onClick tr) = Z.min (n - 1) (i + 1) ∧
     is_Some (currentExercise (previous_onClick tr)) ∧
     is_Some (currentExercise (next_onClick tr))) ∧
  (¬ (0 ≤ i < n)%Z → previous_onClick tr = tr ∧ next_onClick tr = tr) ∧
  exercises (previous_onClick tr) = exercises tr ∧
  exercises (next_onClick tr) = exercises tr.
Proof.
  intros n i.
  assert (Hcur : ∀ t, is_Some (currentExercise t) ↔
                      (0 ≤ currentExerciseIndex t
                       < Z.of_nat (length (exercises t)))%Z).
  { intros t. unfold currentExercise.
    destruct (Z.ltb_spec (currentExerciseIndex t) 0).
    - split; [by intros [? ?]|lia].
    - rewrite lookup_lt_is_Some. lia. }
  assert (Hex : exercises (previous_onClick tr) = exercises tr ∧
                exercises (next_onClick tr) = exercises tr).
  { unfold previous_onClick, next_onClick.
    destruct (currentExercise tr); [|done]. split; by case_match. }
  split; [|split; [|exact Hex]].
  - intros Hi. pose proof (proj2 (Hcur tr) Hi) as [x Hx].
    assert (Hp : currentExerciseIndex (previous_onClick tr) = Z.max 0 (i - 1)).
    { unfold previous_onClick. rewrite Hx. fold i.
      destruct (Z.eqb_spec i 0) as [H0|]; [fold i; lia|done]. }
    assert (Hn : currentExerciseIndex (next_onClick tr)
                 = Z.min (n - 1) (i + 1)).
    { unfold next_onClick. rewrite Hx. fold i. fold n.
      destruct (Z.eqb_spec i (n - 1)) as [H0|]; [fold i; lia|done]. }
    split; [done|]. split; [done|]. destruct Hex as [He1 He2].
    split; apply Hcur; rewrite ?Hp, ?Hn, ?He1, ?He2; fold n; lia.
  - intros Hi. unfold previous_onClick, next_onClick.
    destruct (currentExercise tr) as [x|] eqn:Hx; [|done].
    exfalso. apply Hi, Hcur. by rewrite Hx.
Qed.

Lemma navigation_in_bounds_witness :
  currentExerciseIndex Scenario.tracker3 = 1%Z ∧
  currentExerciseIndex (previous_onClick Scenario.tracker3) = 0%Z ∧
  currentExerciseIndex (next_onClick Scenario.tracker3) = 2%Z ∧
  currentExerciseIndex
    (next_onClick (next_onClick Scenario.tracker3)) = 2%Z ∧
  currentExerciseIndex
    (previous_onClick (previous_onClick Scenario.tracker3)) = 0%Z.
Proof.
  destruct (navigation_in_bounds Scenario.tracker3) as [H _].
  destruct (H ltac:(simpl; lia)) as (Hp & Hn & _).
  destruct (navigation_in_bounds (next_onClick Scenario.tracker3)) as [H' _].
  destruct (H' ltac:(simpl; lia)) as (_ & Hnn & _).
  destruct (navigation_in_bounds (previous_onClick Scenario.tracker3))
    as [H'' _].
  destruct (H'' ltac:(simpl; lia)) as (Hpp & _).
  split; [reflexivity|]. split; [exact Hp|]. split; [exact Hn|].
  split; [exact Hnn|exact Hpp].
Defined.

(** X23.  The rest started by a completed set counts down by one per
    tick, raises "Rest Complete!" at the 90th tick and at no other, is
    then over for good, and never touches the exercises. *)
Theorem completeSet_rest_ends (e i : nat) (tr tr' : WorkoutTracker.t)
    (k : nat) :
  completeSet e i tr
  = Some (tr', [Toast "Set Complete!" false; SetTimeout_autoSaveWorkout]) →
  let at_ k := Nat.iter k (λ t, fst (tick t)) tr' in
  restTimer (at_ k) = Z.max 0 (90 - Z.of_nat k) ∧
  isResting (at_ k) = (k <? 90)%nat ∧
  exercises (at_ k) = exercises tr' ∧
  snd (tick (at_ k))
  = (if Nat.eqb k 89 then [Toast "Rest Complete!" false] else []).
Proof.
  intros Hc at_.
  assert (H0 : isResting tr' = true ∧ restTimer tr' = 90%Z).
  { unfold completeSet in Hc.
    destruct (exercises tr !! e) as [x|]; simpl in Hc; [|done].
    destruct (TExercise.sets x !! i) as [s|]; simpl in Hc; [|done].
    destruct (Qeq_bool _ _ || _); [done|]. by injection Hc as <-. }
  destruct H0 as [Hr Ht].
  assert (Hle : ∀ j, (j ≤ 90)%nat →
            restTimer (at_ j) = (90 - Z.of_nat j)%Z ∧
            isResting (at_ j) = negb (Nat.eqb j 90) ∧
            exercises (at_ j) = exercises tr')
    by (intros j Hj; by apply rest_countdown).
  assert (Hge : ∀ j, (90 ≤ j)%nat → at_ j = at_ 90%nat).
  { intros j Hj. induction Hj as [|j Hj IH]; [done|].
    change (at_ (S j)) with (fst (tick (at_ j))). rewrite IH.
    destruct (Hle 90%nat ltac:(lia)) as (_ & Hres & _).
    unfold tick. by rewrite Hres. }
  destruct (le_lt_dec k 90) as [Hk|Hk].
  - destruct (Hle k Hk) as (H1 & H2 & H3). rewrite H1, H2, H3.
    split; [lia|]. split.
    { destruct (Nat.eqb_spec k 90), (Nat.ltb_spec k 90); simpl; lia || done. }
    split; [done|]. unfold tick. rewrite H1, H2.
    destruct (Nat.eqb_spec k 90) as [->|]; [done|]. simpl negb.
    destruct (Nat.eqb_spec k 89) as [->|Hne]; [done|].
    rewrite andb_true_l.
    destruct (Z.ltb_spec 0 (90 - Z.of_nat k)); [|lia].
    destruct (Z.leb_spec (90 - Z.of_nat k) 1); [lia|done].
  - rewrite (Hge k) by lia.
    destruct (Hle 90%nat ltac:(lia)) as (H1 & H2 & H3). rewrite H1, H2, H3.
    split; [lia|]. split.
    { destruct (Nat.ltb_spec k 90); [lia|done]. }
    split; [done|]. unfold tick. rewrite H2.
    destruct (Nat.eqb_spec k 89); [lia|done].
Qed.

Lemma completeSet_rest_ends_witness :
  ∃ tr', (fst <$> completeSet 0 0 Scenario.tracker0) = Some tr' ∧
         isResting (Nat.iter 90 (λ t, fst (tick t)) tr') = false ∧
         isResting (Nat.iter 89 (λ t, fst (tick t)) tr') = true.
Proof.
  eexists. split; [reflexivity|].
  pose proof (completeSet_rest_ends 0 0 Scenario.tracker0 _ 90 eq_refl)
    as (_ & H90 & _).
  pose proof (completeSet_rest_ends 0 0 Scenario.tracker0 _ 89 eq_refl)
    as (_ & H89 & _).
  split; [exact H90 | exact H89].
Defined.

End TrackerControls.

(** ** Finalising twice; the first tracker *)

Section FinalizeMore.
Import LocalStorage.

(** [saveWorkout] changes the sessions and the history only through
    [saveWorkoutSession]. *)
Lemma finalStore_session_fields date date' date'' tr p (st : LocalStorage.t) :
  let st' := App.finalStore date date' date'' tr p st in
  let saved :=
    storage.saveWorkoutSession (WorkoutTracker.sessionOf date tr) st in
  storage.getWorkoutSessions st' = storage.getWorkoutSessions saved ∧
  exercise_ st' = exercise_ saved.
Proof.
  intros st' saved. subst st' saved.
  unfold App.finalStore, WorkoutTracker.saveWorkout.
  destruct (saveWorkoutSession_frame (WorkoutTracker.sessionOf date tr) st)
    as [S ->].
  unfold storage.updateStreak, storage.getStreak, storage.getActiveSplit,
    storage.updateSplit, storage.getWorkoutSplits, storage.clearAutoSave,
    storage.saveWorkoutSplits, Index.handleCompleteWorkout,
    storage.getWorkoutSessions.
  destruct st; simpl in *; repeat (case_match; simpl in *; simplify_eq);
    done.
Qed.

(** X24.  Pressing Save twice in the same workout keeps a single
    session record, the one of the second press, and the records of
    other sessions, but counts twice for the streak. *)
Theorem saveWorkout_twice (d1 d1' d1'' d2 d2' d2'' : string)
    (tr : WorkoutTracker.t) (p p' : Index.t) (st : LocalStorage.t)
    (other : string) :
  let byId id := λ s, String.eqb (WorkoutSession.id s) id in
  let st1 := App.finalStore d1 d1' d1'' tr p st in
  let st2 := App.finalStore d2 d2' d2'' tr p' st1 in
  storage.getStreak st2 = (storage.getStreak st + 2)%Z ∧
  length (storage.getWorkoutSessions st2)
  = length (storage.getWorkoutSessions st1) ∧
  JS.find (byId (WorkoutTracker.sessionId tr)) (storage.getWorkoutSessions st2)
  = Some (WorkoutTracker.sessionOf d2 tr) ∧
  (other ≠ WorkoutTracker.sessionId tr →
     JS.find (byId other) (storage.getWorkoutSessions st2)
     = JS.find (byId other) (storage.getWorkoutSessions st)).
Proof.
  intros byId st1 st2.
  assert (Hs : ∀ d d' d'' q s0,
            storage.getStreak (App.finalStore d d' d'' tr q s0)
            = (storage.getStreak s0 + 1)%Z).
  { intros. unfold storage.getStreak at 1.
    by rewrite saveWorkout_streak. }
  assert (Hsess : ∀ d d' d'' q s0 o,
            let after :=
              storage.getWorkoutSessions (App.finalStore d d' d'' tr q s0) in
            JS.find (byId (WorkoutTracker.sessionId tr)) after
            = Some (WorkoutTracker.sessionOf d tr) ∧
            length after
            = (if JS.find (byId (WorkoutTracker.sessionId tr))
                          (storage.getWorkoutSessions s0) is Some _
               then length (storage.getWorkoutSessions s0)
               else S (length (storage.getWorkoutSessions s0))) ∧
            (o ≠ WorkoutTracker.sessionId tr →
               JS.find (byId o) after
               = JS.find (byId o) (storage.getWorkoutSessions s0))).
  { intros d d' d'' q s0 o after. subst after.
    destruct (finalStore_session_fields d d' d'' tr q s0) as [-> _].
    rewrite saveWorkoutSession_eq.
    match goal with |- context [set_workoutSessions (Some ?x) s0] =>
      set (up := x);
      change (storage.getWorkoutSessions
                (set_exercise_
                   (App.recordedSession (WorkoutTracker.sessionOf d tr)
                      (exercise_ s0))
                   (set_workoutSessions (Some up) s0))) with up;
      subst up
    end.
    apply (upsert_facts (WorkoutTracker.sessionOf d tr)). }
  split; [subst st2 st1; rewrite !Hs; lia|].
  destruct (Hsess d1 d1' d1'' p st other) as (Hf1 & _ & Ho1).
  destruct (Hsess d2 d2' d2'' p' st1 other) as (Hf2 & Hl2 & Ho2).
  fold st1 in Hf1, Ho1. fold st2 in Hf2, Hl2, Ho2.
  split; [by rewrite Hl2, Hf1|]. split; [done|].
  intros Hne. by rewrite Ho2, Ho1.
Qed.

Lemma saveWorkout_twice_witness :
  let st2 :=
    App.finalStore Scenario.date0 Scenario.date0 Scenario.date0
      Scenario.tracker0 Scenario.index0 (snd (fst Scenario.finalized)) in
  length (storage.getWorkoutSessions st2) = 1%nat ∧
  storage.getStreak st2 = 2%Z.
Proof.
  destruct (saveWorkout_twice Scenario.date0 Scenario.date0 Scenario.date0
              Scenario.date0 Scenario.date0 Scenario.date0 Scenario.tracker0
              Scenario.index0 Scenario.index0 Scenario.store0 "session-0")
    as (Hs & Hl & _).
  vm_compute in Hs, Hl. vm_compute. split; [exact Hl | exact Hs].
Defined.

(** The first tracker writes the [lastWorkout-<name>] family and the
    streak, nothing else, before it calls [onComplete]. *)
Lemma legacy_fold (date : string) (exercises : list TExercise.t)
    (st : LocalStorage.t) (name : string) :
  let step st exercise :=
    match last (filter (λ set, TSet.completed set = true)
                       (TExercise.sets exercise)) with
    | Some lastSet =>
        set_lastWorkout_
          (<[TExercise.name exercise :=
               History.mk (TSet.weight lastSet) (TSet.reps lastSet) date]>
             (lastWorkout_ st)) st
    | None => st
    end in
  (∃ m, foldl step st exercises = set_lastWorkout_ m st) ∧
  lastWorkout_ (foldl step st exercises) !! name
  = match last (concat
                  (map (λ exercise,
                          if String.eqb (TExercise.name exercise) name
                          then filter (λ set, TSet.completed set = true)
                                      (TExercise.sets exercise)
                          else [])
                       exercises)) with
    | Some set => Some (History.mk (TSet.weight set) (TSet.reps set) date)
    | None => lastWorkout_ st !! name
    end.
Proof.
  intros step. revert st.
  induction exercises as [|e es IH]; intros st; simpl.
  - split; [|done]. exists (lastWorkout_ st). by destruct st.
  - destruct (IH (step st e)) as [[m Hm] Hl]. split.
    + exists m. rewrite Hm. unfold step.
      destruct (last (filter _ _)); destruct st; reflexivity.
    + rewrite Hl, last_app. destruct (last (concat _)); [done|].
      unfold step.
      destruct (String.eqb_spec (TExercise.name e) name) as [->|Hne].
      * destruct (last _); [|done]. simpl. by rewrite lookup_insert_eq.
      * rewrite last_nil. destruct (last _); [|done]. simpl.
        by rewrite lookup_insert_ne.
Qed.


(** The store the first tracker leaves under [Index]. *)
Lemma legacy_store (date now : string) (exercises : list TExercise.t)
    (p : Index.t) (st : LocalStorage.t) :
  ∃ m,
    snd (fst (LegacyWorkoutTracker.saveWorkout date
                (Index.handleCompleteWorkout now) exercises (p, st)))
    = snd (Index.handleCompleteWorkout now
             (p, set_workoutStreak (Some (storage.getStreak st + 1)%Z)
                   (set_lastWorkout_ m st))) ∧
    ∀ name,
      m !! name
      = match last (concat
                      (map (λ exercise,
                              if String.eqb (TExercise.name exercise) name
                              then filter (λ set, TSet.completed set = true)
                                          (TExercise.sets exercise)
                              else [])
                           exercises)) with
        | Some set => Some (History.mk (TSet.weight set) (TSet.reps set) date)
        | None => lastWorkout_ st !! name
        end.
Proof.
  unfold LegacyWorkoutTracker.saveWorkout. cbv zeta.
  match goal with |- context [foldl ?f st exercises] =>
    set (folded := foldl f st exercises) end.
  exists (lastWorkout_ folded).
  assert (Hm : folded = set_lastWorkout_ (lastWorkout_ folded) st).
  { destruct (legacy_fold date exercises st ""%string) as [[m Hm] _].
    cbv zeta in Hm. fold folded in Hm. rewrite Hm. by destruct st. }
  split.
  - rewrite Hm at 1 2. unfold storage.getStreak. by destruct st.
  - intros name. destruct (legacy_fold date exercises st name) as [_ Hl].
    exact Hl.
Qed.



(** X26.  Finalising with the first tracker raises the streak by one and
    advances the mirror by one day through [onComplete]: a mirror at
    day [i] of [n] is afterwards at day [(i + 1) mod n], stamped with
    the time of the call and otherwise unchanged.  The stored split
    list, the active reference, the stored sessions and the
    [exercise-<name>] family stay as they are: the stored split never
    advances. *)
Theorem legacy_saveWorkout_frame (date now : string)
    (exercises : list TExercise.t) (p : Index.t) (st : LocalStorage.t) :
  let st' :=
    snd (fst (LegacyWorkoutTracker.saveWorkout date
                (Index.handleCompleteWorkout now) exercises (p, st))) in
  storage.getStreak st' = (storage.getStreak st + 1)%Z ∧
  workoutSplit st'
  = (λ split,
       WorkoutSplit.with_currentDay_date
         (JS.nextDay (WorkoutSplit.currentDay split)
                     (length (WorkoutSplit.days split))) now split)
      <$> workoutSplit st ∧
  (∀ split i,
     workoutSplit st = Some split →
     WorkoutSplit.currentDay split = Some i →
     (0 ≤ i < Z.of_nat (length (WorkoutSplit.days split)))%Z →
     workoutSplit st'
     = Some (WorkoutSplit.mk (WorkoutSplit.id split) (WorkoutSplit.name split)
               (WorkoutSplit.days split)
               (Some ((i + 1) mod Z.of_nat (length (WorkoutSplit.days split)))%Z)
               (Some now))) ∧
  (workoutSplit st = None → workoutSplit st' = None) ∧
  workoutSplits st' = workoutSplits st ∧
  activeSplit st' = activeSplit st ∧
  workoutSessions st' = workoutSessions st ∧
  exercise_ st' = exercise_ st ∧
  autosave_ st' = autosave_ st.
Proof.
  intros st'.
  assert (H : storage.getStreak st' = (storage.getStreak st + 1)%Z ∧
              workoutSplit st'
              = (λ split,
                   WorkoutSplit.with_currentDay_date
                     (JS.nextDay (WorkoutSplit.currentDay split)
                                 (length (WorkoutSplit.days split))) now split)
                  <$> workoutSplit st ∧
              workoutSplits st' = workoutSplits st ∧
              activeSplit st' = activeSplit st ∧
              workoutSessions st' = workoutSessions st ∧
              exercise_ st' = exercise_ st ∧
              autosave_ st' = autosave_ st).
  { subst st'.
    destruct (legacy_store date now exercises p st) as (m & -> & _).
    unfold Index.handleCompleteWorkout, storage.getStreak.
    destruct st; simpl; case_match; repeat split; reflexivity. }
  destruct H as (Hs & Hm & Hrest).
  split; [exact Hs|]. split; [exact Hm|]. split; [|split; [|exact Hrest]].
  - intros split i Hsp Hd Hi. rewrite Hm, Hsp. simpl. rewrite Hd.
    rewrite nextDay_mod by lia. done.
  - intros Hnone. by rewrite Hm, Hnone.
Qed.

Lemma legacy_saveWorkout_frame_witness :
  let st' := snd (fst Scenario.finalizedLegacy) in
  WorkoutSplit.currentDay <$> workoutSplit Scenario.store0
  = Some (Some 0%Z) ∧
  workoutSplit st'
  = Some (WorkoutSplit.mk "1" "Push/Pull/Legs"
            ["Push"; "Pull"; "Legs"; "Rest"; "Push"; "Pull"; "Legs"]
            (Some 1%Z) (Some Scenario.date0)) ∧
  JS.find (λ s, String.eqb (WorkoutSplit.id s) "1")
          (default [] (workoutSplits st')) = Some Scenario.split1 ∧
  storage.getStreak st' = 1%Z.
Proof.
  intros st'.
  destruct (legacy_saveWorkout_frame Scenario.date0 Scenario.date0
              [Scenario.benchPress] Scenario.index0 Scenario.store0)
    as (Hs & _ & Hm & _ & Hl & _).
  split; [reflexivity|].
  split; [exact (Hm Scenario.split1 0%Z eq_refl eq_refl ltac:(simpl; lia))|].
  split; [|exact Hs].
  subst st'. unfold Scenario.finalizedLegacy. rewrite Hl. reflexivity.
Defined.

End FinalizeMore.

(** ** The analytics view and the dashboard *)

Section AnalyticsMore.
Import ProgressTracker.

Lemma insertLift_Permutation (x : Lift) (l : list Lift) :
  insertLift x l ≡ₚ x :: l.
Proof.
  induction l as [|y l IH]; simpl; [done|].
  destruct (JS.number_ltb (oneRepMax x) (oneRepMax y)); [|done].
  rewrite IH. apply Permutation_swap.
Qed.

Lemma number_ltb_asym (a b : JS.number) :
  JS.number_ltb a b = true → JS.number_ltb b a = false.
Proof.
  destruct a as [x|[]|], b as [y|[]|]; simpl; try done.
  intros H%Z.ltb_lt. apply Z.ltb_ge. lia.
Qed.

Lemma number_ltb_trans (a b c : JS.number) :
  b ≠ JS.NaN →
  JS.number_ltb a b = false → JS.number_ltb b c = false →
  JS.number_ltb a c = false.
Proof.
  destruct a as [x|[]|], b as [y|[]|], c as [z|[]|]; simpl; try done.
  intros _ H1%Z.ltb_ge H2%Z.ltb_ge. apply Z.ltb_ge. lia.
Qed.

Lemma insertLift_sorted (x : Lift) (l : list Lift) :
  Forall (λ y, oneRepMax y ≠ JS.NaN) l →
  StronglySorted byEstimate l → StronglySorted byEstimate (insertLift x l).
Proof.
  induction l as [|y l IH]; simpl; intros Hn Hl.
  - by repeat constructor.
  - apply StronglySorted_cons in Hl as [Hy Hl].
    apply Forall_cons in Hn as [Hny Hn].
    destruct (JS.number_ltb (oneRepMax x) (oneRepMax y)) eqn:Hxy.
    + constructor; [by apply IH|].
      rewrite insertLift_Permutation. constructor; [|done].
      by apply number_ltb_asym.
    + constructor; [by constructor|].
      constructor; [done|].
      eapply Forall_impl; [exact Hy|]. unfold byEstimate. intros z Hz.
      by apply (number_ltb_trans _ (oneRepMax y)).
Qed.

Lemma sortLifts_facts (l : list Lift) :
  Forall (λ y, oneRepMax y ≠ JS.NaN) l →
  sortLifts l ≡ₚ l ∧ StronglySorted byEstimate (sortLifts l).
Proof.
  unfold sortLifts. induction l as [|x l IH]; simpl; intros Hn.
  - split; [done|constructor].
  - apply Forall_cons in Hn as [_ Hn]. destruct (IH Hn) as [IHp IHs].
    split; [by rewrite insertLift_Permutation, IHp|].
    apply insertLift_sorted; [by rewrite IHp|done].
Qed.

(** X27.  When no estimate is [NaN], [getTopLifts] returns at most five
    lifts, by decreasing estimate; each is one of the loaded lifts with
    its estimate, computed in doubles; all loaded lifts are returned when
    there are at most five; and no lift left out has a higher estimate
    than a lift returned. *)
Theorem getTopLifts_top (p : ProgressTracker.t) :
  let all :=
    map (λ '(exercise, (weight, reps)),
           mkLift exercise weight reps (calculateOneRepMax weight reps))
        (strongestLifts p) in
  Forall (λ lift, oneRepMax lift ≠ JS.NaN) all →
  (length (getTopLifts p) ≤ 5)%nat ∧
  length (getTopLifts p) = (length (strongestLifts p) `min` 5)%nat ∧
  StronglySorted byEstimate (getTopLifts p) ∧
  (∀ lift, lift ∈ getTopLifts p →
     lift ∈ all ∧
     (exercise lift, (weight lift, reps lift)) ∈ strongestLifts p ∧
     oneRepMax lift = calculateOneRepMax (weight lift) (reps lift)) ∧
  (∃ rest, getTopLifts p ++ rest ≡ₚ all ∧
           ∀ a b, a ∈ getTopLifts p → b ∈ rest →
                  JS.number_ltb (oneRepMax a) (oneRepMax b) = false).
Proof.
  intros all Hn. unfold getTopLifts. fold all.
  destruct (sortLifts_facts all Hn) as [Hp Hs].
  assert (Hlen : length (sortLifts all) = length (strongestLifts p))
    by (by rewrite Hp; subst all; rewrite length_map).
  split; [rewrite length_take; lia|].
  split; [rewrite length_take, Hlen; lia|].
  rewrite <- (take_drop 5 (sortLifts all)) in Hs, Hp.
  split; [by apply StronglySorted_app_1_l in Hs|]. split.
  - intros lift Hin.
    assert (Hall : lift ∈ all).
    { rewrite <- Hp. apply elem_of_app. by left. }
    split; [done|]. subst all.
    apply list_elem_of_fmap in Hall as ([ex [w r]] & -> & Hx). by simpl.
  - exists (drop 5 (sortLifts all)). split; [done|].
    intros a b Ha Hb.
    by apply (StronglySorted_app_1_elem_of _ _ _ _ _ Hs Ha Hb).
Qed.

(** Six lifts are stored, bench press at 22.5 x 12, whose estimate in
    doubles is 31 (32 when rounded exactly), and barbell rows at 24 x 10,
    estimated 32: the five shown leave bench press out. *)
Lemma getTopLifts_top_witness :
  let p := loadProgressData init Scenario.sixLifts in
  StronglySorted byEstimate (getTopLifts p) ∧
  getTopLifts p
  = [ mkLift "Deadlift" 140 5 163; mkLift "Squats" 120 5 140;
      mkLift "Overhead Press" 50 5 58; mkLift "Pull-ups" 40 8 51;
      mkLift "Barbell Rows" 24 10 32 ] ∧
  calculateOneRepMax (45 # 2) 12 = 31%Z.
Proof.
  intros p.
  destruct (getTopLifts_top p) as (_ & _ & Hs & _).
  { vm_compute. repeat constructor; discriminate. }
  split; [exact Hs|]. vm_compute. by split.
Defined.





(** The estimates of the weights 0, 2.5, ..., 500 with 0 to 50 reps,
    each compared with its neighbours, with the rounded weight and with
    the Epley value rounded exactly. *)
Lemma estimates_checked :
  (let weight (k : nat) : Q := Z.of_nat k * 5 # 2 in
   let ys :=
     map (λ r, (r,
                JS.add (JS.ofZ 1) (JS.div (JS.ofZ (Z.of_nat r)) (JS.ofZ 30)),
                JS.add (JS.ofZ 1)
                  (JS.div (JS.ofZ (Z.of_nat (S r))) (JS.ofZ 30))))
         (seq 0 51) in
   forallb
     (λ k,
        let w := JS.ofQ (weight k) in
        let w' := JS.ofQ (weight (S k)) in
        forallb
          (λ '(r, y, y'),
             match JS.Math_round_double (JS.mul w y),
                   JS.Math_round_double (JS.mul w y'),
                   JS.Math_round_double (JS.mul w' y) with
             | JS.Int a, JS.Int a1, JS.Int a2 =>
                 (a <=? a1)%Z && (a <=? a2)%Z
                 && (JS.Math_round (weight k) <=? a)%Z
                 && (JS.Math_round
                       (weight k * (1 + inject_Z (Z.of_nat r) / 30)) - 1
                     <=? a)%Z
                 && (a <=? JS.Math_round
                             (weight k * (1 + inject_Z (Z.of_nat r) / 30)))%Z
             | _, _, _ => false
             end)
          ys)
     (seq 0 201))
  = true.
Proof. vm_compute. reflexivity. Qed.

Lemma estimate_step (k r : nat) :
  (k ≤ 200)%nat → (r ≤ 50)%nat →
  let weight (k : nat) : Q := Z.of_nat k * 5 # 2 in
  ∃ a a1 a2 : Z,
    calculateOneRepMax (weight k) (Z.of_nat r) = a ∧
    calculateOneRepMax (weight k) (Z.of_nat (S r)) = a1 ∧
    calculateOneRepMax (weight (S k)) (Z.of_nat r) = a2 ∧
    (a ≤ a1)%Z ∧ (a ≤ a2)%Z ∧ (JS.Math_round (weight k) ≤ a)%Z ∧
    (JS.Math_round (weight k * (1 + inject_Z (Z.of_nat r) / 30)) - 1 ≤ a
     ≤ JS.Math_round (weight k * (1 + inject_Z (Z.of_nat r) / 30)))%Z.
Proof.
  intros Hk Hr weight.
  pose proof estimates_checked as H. cbv zeta in H.
  rewrite List.forallb_forall in H.
  specialize (H k). rewrite in_seq in H. specialize (H ltac:(lia)).
  rewrite List.forallb_forall in H.
  specialize
    (H (r,
        JS.add (JS.ofZ 1) (JS.div (JS.ofZ (Z.of_nat r)) (JS.ofZ 30)),
        JS.add (JS.ofZ 1) (JS.div (JS.ofZ (Z.of_nat (S r))) (JS.ofZ 30)))).
  assert (Hin : In r (seq 0 51)) by (apply in_seq; lia).
  specialize (H (in_map _ _ _ Hin)). cbv beta iota in H.
  unfold calculateOneRepMax. fold (weight k) (weight (S k)) in H.
  destruct (JS.Math_round_double (JS.mul (JS.ofQ (weight k)) _)) as [a| |];
    [|done..].
  destruct (JS.Math_round_double (JS.mul (JS.ofQ (weight k)) _)) as [a1| |];
    [|done..].
  destruct (JS.Math_round_double (JS.mul (JS.ofQ (weight (S k))) _))
    as [a2| |]; [|done..].
  apply andb_prop in H as [H H5]. apply andb_prop in H as [H H4].
  apply andb_prop in H as [H H3]. apply andb_prop in H as [H1 H2].
  apply Z.leb_le in H1, H2, H3, H4, H5.
  exists a, a1, a2. repeat split; done.
Qed.

(** X29.  For a weight of 0 to 500 in steps of 2.5 and 0 to 50 reps the
    estimated one-rep max, computed in doubles, is an integer; it grows
    with the weight and with the number of reps, is never below the
    weight rounded, and is the Epley value rounded exactly or one below
    it (one below at 22.5 x 12: 31, where exact rounding gives 32). *)
Theorem calculateOneRepMax_monotone (k k' r r' : nat) :
  (k ≤ k' ≤ 200)%nat → (r ≤ r' ≤ 50)%nat →
  let weight (k : nat) : Q := Z.of_nat k * 5 # 2 in
  let exact := JS.Math_round (weight k * (1 + inject_Z (Z.of_nat r) / 30)) in
  ∃ a b : Z,
    calculateOneRepMax (weight k) (Z.of_nat r) = a ∧
    calculateOneRepMax (weight k') (Z.of_nat r') = b ∧
    (a ≤ b)%Z ∧ (JS.Math_round (weight k) ≤ a)%Z ∧
    (exact - 1 ≤ a ≤ exact)%Z.
Proof.
  intros [Hk Hk'] [Hr Hr'] weight exact.
  set (est := λ k r, calculateOneRepMax (weight k) (Z.of_nat r)).
  set (val := λ k r, match est k r with JS.Int a => a | _ => 0%Z end).
  assert (Hstep : ∀ k r, (k ≤ 200)%nat → (r ≤ 50)%nat →
            est k r = val k r ∧ est k (S r) = val k (S r) ∧
            est (S k) r = val (S k) r ∧
            (val k r ≤ val k (S r))%Z ∧ (val k r ≤ val (S k) r)%Z).
  { intros k0 r0 Hk0 Hr0.
    destruct (estimate_step k0 r0 Hk0 Hr0) as (a & a1 & a2 & Ha & Ha1 & Ha2 & H).
    unfold val, est, weight. rewrite Ha, Ha1, Ha2.
    repeat split; try done; lia. }
  assert (Hrow : ∀ j, (r ≤ j ≤ 50)%nat → (val k r ≤ val k j)%Z).
  { intros j [Hj Hj']. induction Hj as [|j Hj IH]; [lia|].
    destruct (Hstep k j) as (_ & _ & _ & H & _); lia. }
  assert (Hcol : ∀ j, (k ≤ j ≤ 200)%nat → (val k r' ≤ val j r')%Z).
  { intros j [Hj Hj']. induction Hj as [|j Hj IH]; [lia|].
    destruct (Hstep j r') as (_ & _ & _ & _ & H); lia. }
  destruct (estimate_step k r) as (a & _ & _ & Ha & _ & _ & _ & _ & Hw & Hex);
    [lia..|].
  exists a, (val k' r').
  destruct (Hstep k' r') as (Hb & _); [lia..|].
  split; [exact Ha|]. split; [exact Hb|].
  assert (Hva : val k r = a) by (unfold val, est, weight; by rewrite Ha).
  specialize (Hrow r' ltac:(lia)). specialize (Hcol k' ltac:(lia)).
  split; [lia|]. split; [exact Hw|exact Hex].
Qed.

Lemma calculateOneRepMax_monotone_witness :
  ∃ a b : Z,
    calculateOneRepMax (45 # 2) 12 = a ∧ calculateOneRepMax 25 13 = b ∧
    (a ≤ b)%Z ∧ a = 31%Z ∧
    JS.Math_round ((45 # 2) * (1 + 12 / 30)) = 32%Z.
Proof.
  destruct (calculateOneRepMax_monotone 9 10 12 13) as (a & b & Ha & Hb & Hab & _);
    [lia..|].
  exists a, b. split; [exact Ha|]. split.
  { rewrite <- Hb. reflexivity. }
  split; [exact Hab|]. split; [|reflexivity].
  vm_compute in Ha. by injection Ha.
Defined.
(** X30.  The dashboard's start button opens a workout exactly when the
    store holds a mirror whose current day exists and is not a rest day,
    and then for that day's label; it never writes the store.  Without a
    mirror it does nothing, although the dashboard then shows the day of
    its built-in split. *)
Theorem start_onClick_opens (d : WorkoutDashboard.t) (p : Index.t)
    (st : LocalStorage.t) :
  let d' := WorkoutDashboard.load d st in
  (LocalStorage.workoutSplit st = None →
     WorkoutDashboard.start_onClick d' (p, st) = Some (p, st) ∧
     WorkoutDashboard.currentSplit d' = WorkoutDashboard.currentSplit d) ∧
  (∀ split label,
     LocalStorage.workoutSplit st = Some split →
     WorkoutDashboard.getCurrentWorkout d' = Some label →
     WorkoutDashboard.start_onClick d' (p, st)
     = Some (if String.eqb label "Rest" then (p, st)
             else (Index.mk Index.View.workout label, st))) ∧
  (∀ r, WorkoutDashboard.start_onClick d' (p, st) = Some r → snd r = st).
Proof.
  intros d'. subst d'. unfold WorkoutDashboard.start_onClick,
    WorkoutDashboard.getCurrentWorkout, WorkoutDashboard.load,
    Index.handleStartWorkout. simpl.
  destruct (LocalStorage.workoutSplit st) as [s|] eqn:Hs; simpl.
  - split; [done|]. split.
    + intros split label [= <-] Hl. rewrite Hl.
      destruct (String.eqb_spec label "Rest") as [->|Hne]; [done|].
      assert (Hm : ∀ (a b : option (Index.t * LocalStorage.t)),
                match label with "Rest"%string => a | _ => b end = b).
      { intros a b. clear -Hne. repeat (case_match; try done). }
      by rewrite Hm.
    + intros r.
      destruct (match WorkoutSplit.currentDay s with
                | Some i => if (i <? 0)%Z then None
                            else WorkoutSplit.days s !! Z.to_nat i
                | None => None
                end) as [label|]; [|done].
      destruct (String.eqb_spec label "Rest") as [->|Hne].
      * simpl. by intros [= <-].
      * assert (Hm : ∀ (a b : option (Index.t * LocalStorage.t)),
                  match label with "Rest"%string => a | _ => b end = b).
        { intros a b. clear -Hne. repeat (case_match; try done). }
        rewrite Hm. by intros [= <-].
  - split; [|split]; [|done|].
    + intros _. split; [|done]. by repeat case_match.
    + intros r. by repeat case_match; intros [= <-].
Qed.

Lemma start_onClick_opens_witness :
  WorkoutDashboard.start_onClick
    (WorkoutDashboard.load WorkoutDashboard.init LocalStorage.empty)
    (Index.mk Index.View.dashboard "", LocalStorage.empty)
  = Some (Index.mk Index.View.dashboard "", LocalStorage.empty) ∧
  WorkoutDashboard.start_onClick
    (WorkoutDashboard.load WorkoutDashboard.init Scenario.store0)
    (Index.mk Index.View.dashboard "", Scenario.store0)
  = Some (Index.mk Index.View.workout "Push", Scenario.store0).
Proof.
  destruct (start_onClick_opens WorkoutDashboard.init
              (Index.mk Index.View.dashboard "") LocalStorage.empty)
    as [H1 _].
  destruct (start_onClick_opens WorkoutDashboard.init
              (Index.mk Index.View.dashboard "") Scenario.store0)
    as (_ & H2 & _).
  split; [exact (proj1 (H1 eq_refl))|].
  exact (H2 Scenario.split1 "Push"%string eq_refl eq_refl).
Defined.

End AnalyticsMore.
